(** * Prometric V2 stress-testing script: the load driver [StressTester]

    A shallow embedding of [test-scripts/stress-test.py].

    - Python [int] is [Z]; a Python [float] holding a time or a latency is a
      rational [Q] (rounding of the float operations is not modelled, the
      index computation [int(len * 0.95)] is checked against IEEE binary64
      separately, see [percentile_index_binary64]).
    - [self.results] is the record [Results]; [self] is [StressTester].
    - A coroutine of the driver is a computation in the monad [M]: it threads
      the driver and either returns a value or raises an [Exception].
    - The network and the clock are inputs: what one HTTP call met is an
      [Exchange]. *)

From Stdlib Require Import ZArith QArith Qround List String Ascii Bool Lia.
From Stdlib Require Import Permutation Sorted Floats Uint63.
From Stdlib Require Import Lqa DecimalString DecimalNat FinFun.
Import ListNotations.

Open Scope string_scope.
Open Scope Z_scope.

(** ** Values *)

(** A raised Python exception: its class name and [str(e)].  Only classes
    deriving from [Exception] occur (transport errors, timeouts,
    [ValueError], [AttributeError], [RuntimeError]). *)
Inductive Exception : Type :=
| Exc (cls : string) (msg : string).

Definition str (e : Exception) : string :=
  match e with Exc _ msg => msg end.

(** The dictionaries appended to [self.results['errors']]: the one built on a
    status of 400 or more (keys endpoint, status, body) and the one built in
    the [except] branch (keys endpoint, error). *)
Inductive ErrorEntry : Type :=
| StatusError (endpoint : string) (status : Z) (body : string)
| RaisedError (endpoint : string) (error : string).

(** The dictionary returned by [make_request]. *)
Record Response : Type := mkResponse {
  status : Z;
  body : string;
  response_time : Q
}.

(** [self.results] *)
Record Results : Type := mkResults {
  response_times : list Q;
  errors : list ErrorEntry;
  success_count : Z;
  error_count : Z
}.

(** [aiohttp.ClientSession]: only whether it has been closed matters here. *)
Record ClientSession : Type := mkSession {
  timeout_total : Z;
  closed : bool
}.

Record StressTester : Type := mkTester {
  session : option ClientSession;
  results : Results
}.

Definition SERVER_URL : string := "http://localhost:3333".

(** [StressTester.__init__] *)
Definition __init__ : StressTester :=
  {| session := None;
     results := {| response_times := [];
                   errors := [];
                   success_count := 0;
                   error_count := 0 |} |}.

(** Arguments of one call of [make_request]. *)
Record Request : Type := mkRequest {
  method : string;
  endpoint : string;
  data : option string;
  headers : option (list (string * string))
}.

(** What the server and the network did with one HTTP call. *)
Inductive Reply : Type :=
| Responded (status : Z) (body : string)
| Raised (e : Exception).

(** The inputs of one call that the program does not control: the two
    readings of [time.time()] (seconds) and the reply. *)
Record Exchange : Type := mkExchange {
  start_time : Q;
  end_time : Q;
  reply : Reply
}.

(** ** The monad of driver coroutines *)

Definition M (A : Type) : Type :=
  StressTester -> StressTester * (Exception + A).

Definition ret {A} (a : A) : M A := fun s => (s, inr a).

Definition raise {A} (e : Exception) : M A := fun s => (s, inl e).

Definition bind {A B} (m : M A) (k : A -> M B) : M B :=
  fun s =>
    match m s with
    | (s', inl e) => (s', inl e)
    | (s', inr a) => k a s'
    end.

(** [try: m  except Exception as e: h e] *)
Definition try_except {A} (m : M A) (h : Exception -> M A) : M A :=
  fun s =>
    match m s with
    | (s', inl e) => h e s'
    | (s', inr a) => (s', inr a)
    end.

Definition get_self : M StressTester := fun s => (s, inr s).

Definition update_results (f : Results -> Results) : M unit :=
  fun s => ({| session := session s; results := f (results s) |}, inr tt).

Declare Scope driver_scope.
Delimit Scope driver_scope with driver.
Notation "x <- m ;; k" := (bind m (fun x => k))
  (at level 61, m at next level, right associativity) : driver_scope.
Notation "m ;; k" := (bind m (fun _ => k))
  (at level 61, right associativity) : driver_scope.
Open Scope driver_scope.

(** ** Updates of [self.results] *)

(** [self.results['response_times'].append(t)] *)
Definition append_response_time (t : Q) (r : Results) : Results :=
  {| response_times := response_times r ++ [t];
     errors := errors r;
     success_count := success_count r;
     error_count := error_count r |}.

(** [self.results['errors'].append(e)] *)
Definition append_error (e : ErrorEntry) (r : Results) : Results :=
  {| response_times := response_times r;
     errors := errors r ++ [e];
     success_count := success_count r;
     error_count := error_count r |}.

(** [self.results['success_count'] += 1] *)
Definition incr_success_count (r : Results) : Results :=
  {| response_times := response_times r;
     errors := errors r;
     success_count := success_count r + 1;
     error_count := error_count r |}.

(** [self.results['error_count'] += 1] *)
Definition incr_error_count (r : Results) : Results :=
  {| response_times := response_times r;
     errors := errors r;
     success_count := success_count r;
     error_count := error_count r + 1 |}.

(** ** Session handling *)

(** [setup_session] *)
Definition setup_session : M unit :=
  fun s => ({| session := Some {| timeout_total := 30; closed := false |};
               results := results s |}, inr tt).

(** [cleanup_session] *)
Definition cleanup_session : M unit :=
  fun s =>
    match session s with
    | Some c => ({| session := Some {| timeout_total := timeout_total c;
                                       closed := true |};
                    results := results s |}, inr tt)
    | None => (s, inr tt)
    end.

(** [async with self.session.get/post(url, ...) as response:
       body = await response.text(); status = response.status]
    Without a session the attribute access fails, on a closed session the
    client refuses, otherwise the exchange decides. *)
Definition session_call (verb url : string) (ex : Exchange) : M (Z * string) :=
  s <- get_self ;;
  match session s with
  | None =>
      raise (Exc "AttributeError"
               ("'NoneType' object has no attribute '" ++ verb ++ "'"))
  | Some c =>
      if closed c then raise (Exc "RuntimeError" "Session is closed")
      else match reply ex with
           | Responded st b => ret (st, b)
           | Raised e => raise e
           end
  end.

(** ** [make_request] *)

(** A continuation byte of UTF-8: strings are kept as UTF-8 bytes, a
    character of a Python [str] is a lead byte with the continuation bytes
    that follow it. *)
Definition is_continuation (c : ascii) : bool :=
  (128 <=? nat_of_ascii c)%nat && (nat_of_ascii c <? 192)%nat.

(** The characters of a string. *)
Fixpoint characters (s : string) : list string :=
  match s with
  | EmptyString => []
  | String c rest =>
      let tail := characters rest in
      match rest with
      | String d _ =>
          if is_continuation d then
            match tail with
            | first :: others => String c first :: others
            | [] => [String c EmptyString]
            end
          else String c EmptyString :: tail
      | EmptyString => [String c EmptyString]
      end
  end.

(** The string made of the given pieces. *)
Definition join (pieces : list string) : string :=
  fold_right append EmptyString pieces.

(** [body[:200]]: the first 200 characters. *)
Definition first_200 (b : string) : string :=
  join (firstn 200 (characters b)).

(** Lines 41-52: the URL, the dispatch on [method] and the HTTP call. *)
Definition http_call (rq : Request) (ex : Exchange) : M (Z * string) :=
  let url := SERVER_URL ++ endpoint rq in
  if String.eqb (method rq) "GET" then session_call "get" url ex
  else if String.eqb (method rq) "POST" then session_call "post" url ex
  else raise (Exc "ValueError" ("Unsupported method: " ++ method rq)).

(** Lines 54-71: what follows the HTTP call inside [try]. *)
Definition record_response (rq : Request) (ex : Exchange) (r : Z * string)
    : M Response :=
  let '(status, body) := r in
  let response_time := ((end_time ex - start_time ex) * 1000)%Q in
  update_results (append_response_time response_time) ;;
  (if (status <? 400)%Z then
     update_results incr_success_count
   else
     update_results incr_error_count ;;
     update_results
       (append_error (StatusError (endpoint rq) status (first_200 body)))) ;;
  ret {| status := status; body := body; response_time := response_time |}.

(** Lines 73-83: the [except Exception as e] branch. *)
Definition record_exception (rq : Request) (e : Exception) : M Response :=
  update_results incr_error_count ;;
  update_results (append_error (RaisedError (endpoint rq) (str e))) ;;
  ret {| status := 0; body := str e; response_time := 0 |}.

Definition make_request (rq : Request) (ex : Exchange) : M Response :=
  try_except
    (r <- http_call rq ex ;; record_response rq ex r)
    (record_exception rq).

(** ** [asyncio.gather] with [return_exceptions=True]

    The event loop is single-threaded: each task of a batch updates
    [self.results] in one piece without an [await] inside (lines 54-65 or
    74-78), so an execution of the batch is fixed by the order [sched] in
    which the tasks reach that piece.  [sched] lists task positions; it
    denotes an execution only when every task completes exactly once, and
    [gather] is [None] otherwise.  The results come back in the order of
    [tasks], a raised exception in place of a value. *)

Definition Outcome (A : Type) : Type := (Exception + A)%type.

Definition complete {A} (tasks : list (M A))
    (acc : StressTester * list (nat * Outcome A)) (i : nat)
    : StressTester * list (nat * Outcome A) :=
  match nth_error tasks i with
  | Some t => let '(s', r) := t (fst acc) in (s', (i, r) :: snd acc)
  | None => acc
  end.

Fixpoint assoc {A} (i : nat) (done : list (nat * A)) : option A :=
  match done with
  | [] => None
  | (j, a) :: rest => if Nat.eqb i j then Some a else assoc i rest
  end.

Fixpoint collect {A} (done : list (nat * A)) (positions : list nat)
    : option (list A) :=
  match positions with
  | [] => Some []
  | i :: rest =>
      match assoc i done, collect done rest with
      | Some a, Some l => Some (a :: l)
      | _, _ => None
      end
  end.

Definition gather {A} (tasks : list (M A)) (sched : list nat)
    (s : StressTester) : option (StressTester * list (Outcome A)) :=
  if Nat.eqb (List.length sched) (List.length tasks) then
    let '(s', done) := fold_left (complete tasks) sched (s, []) in
    match collect done (seq 0 (List.length tasks)) with
    | Some rs => Some (s', rs)
    | None => None
    end
  else None.

(** A batch of request descriptors, each with the exchange it will meet. *)
Definition batch_tasks (batch : list (Request * Exchange)) : list (M Response) :=
  map (fun p => make_request (fst p) (snd p)) batch.

(** The [runBatch] of the specification: build one task per descriptor and
    gather them. *)
Definition runBatch (batch : list (Request * Exchange)) (sched : list nat)
    (s : StressTester) : option (StressTester * list (Outcome Response)) :=
  gather (batch_tasks batch) sched s.

(** ** Statistics *)

Open Scope Q_scope.

(** [sorted(xs)]: a stable sort by [<]. *)
Fixpoint insert_sorted (x : Q) (l : list Q) : list Q :=
  match l with
  | [] => [x]
  | y :: rest => if Qle_bool x y then x :: y :: rest
                 else y :: insert_sorted x rest
  end.

Fixpoint sorted (l : list Q) : list Q :=
  match l with
  | [] => []
  | x :: rest => insert_sorted x (sorted rest)
  end.

(** [int(q)]: truncation towards zero. *)
Definition int (q : Q) : Z :=
  if Qle_bool 0 q then Qfloor q else Qceiling q.

(** [len(xs)] *)
Definition len {A} (l : list A) : Z := Z.of_nat (List.length l).

(** [xs[i]] with Python's negative indices and [IndexError]. *)
Definition getitem {A} (l : list A) (i : Z) : Outcome A :=
  let j := (if i <? 0 then len l + i else i)%Z in
  if (j <? 0)%Z then inl (Exc "IndexError" "list index out of range")
  else match nth_error l (Z.to_nat j) with
       | Some a => inr a
       | None => inl (Exc "IndexError" "list index out of range")
       end.

Definition sum (l : list Q) : Q := fold_left Qplus l 0.

(** [statistics.mean] *)
Definition mean (l : list Q) : Outcome Q :=
  if (len l <? 1)%Z then
    inl (Exc "StatisticsError" "mean requires at least one data point")
  else inr (sum l / inject_Z (len l)).

(** [statistics.median] *)
Definition median (l : list Q) : Outcome Q :=
  let data := sorted l in
  let n := len data in
  if (n =? 0)%Z then inl (Exc "StatisticsError" "no median for empty data")
  else if (n mod 2 =? 1)%Z then getitem data (n / 2)
  else
    let i := (n / 2)%Z in
    match getitem data (i - 1), getitem data i with
    | inr a, inr b => inr ((a + b) / 2)
    | inl e, _ => inl e
    | _, inl e => inl e
    end.

(** [max(xs)] *)
Definition max (l : list Q) : Outcome Q :=
  match l with
  | [] => inl (Exc "ValueError" "max() arg is an empty sequence")
  | x :: rest =>
      inr (fold_left (fun m y => if Qle_bool y m then m else y) rest x)
  end.

(** [sorted(xs)[int(len(xs) * 0.95)]] *)
Definition percentile_index (n : Z) : Z := int (inject_Z n * (95 # 100)).

Definition percentile_95 (l : list Q) : Outcome Q :=
  getitem (sorted l) (percentile_index (len l)).

(** The four figures printed by [test_authenticated_operations]. *)
Record Stats : Type := mkStats {
  Average : Q;
  Median : Q;
  Percentile95 : Q;
  Max : Q
}.

Definition obind {A B} (o : Outcome A) (k : A -> Outcome B) : Outcome B :=
  match o with
  | inl e => inl e
  | inr a => k a
  end.

(** Lines 137-143: [valid_times] and the statistics block guarded by
    [if valid_times:]; [None] when nothing is printed. *)
Definition valid_times (results : list (Outcome Response)) : list Q :=
  flat_map (fun r => match r with
                     | inr d => if Qle_bool (response_time d) 0 then []
                                else [response_time d]
                     | inl _ => []
                     end) results.

Definition response_time_stats (times : list Q) : Outcome (option Stats) :=
  match times with
  | [] => inr None
  | _ :: _ =>
      obind (mean times) (fun a =>
      obind (median times) (fun m =>
      obind (percentile_95 times) (fun p =>
      obind (max times) (fun x =>
      inr (Some {| Average := a; Median := m;
                   Percentile95 := p; Max := x |})))))
  end.

(** Lines 338-340 of [run_comprehensive_stress_test]: the figures printed
    from [self.results['response_times']]. *)
Record Summary : Type := mkSummary {
  total_requests : Z;
  successful : Z;
  failed : Z;
  average_response_time : option Q;
  percentile_95th : option Q
}.

Definition lift {A} (o : Outcome A) : M A := fun s => (s, o).

(** [if self.results['response_times']:] and the two figures under it. *)
Definition response_time_figures (times : list Q)
    : Outcome (option Q * option Q) :=
  match times with
  | [] => inr (None, None)
  | _ :: _ =>
      obind (mean times) (fun a =>
      obind (percentile_95 times) (fun p =>
      inr (Some a, Some p)))
  end.

Definition results_phase : M Summary :=
  (s <- get_self ;;
   let r := results s in
   figures <- lift (response_time_figures (response_times r)) ;;
   ret {| total_requests := (success_count r + error_count r)%Z;
          successful := success_count r;
          failed := error_count r;
          average_response_time := fst figures;
          percentile_95th := snd figures |})%driver.

Close Scope Q_scope.

(** ** [test_authenticated_operations] *)

Definition endpoints : list (string * string) :=
  [("GET", "/auth/profile"); ("GET", "/customers");
   ("GET", "/pipelines"); ("GET", "/ai/capabilities")].

(** Lines 122-127: the tasks built by the loop over [range(count)]; [env i]
    is the exchange that the [i]-th request meets. *)
Definition authenticated_tasks (token : string) (count : nat)
    (env : nat -> Exchange) : list (M Response) :=
  let headers := [("Authorization", "Bearer " ++ token)] in
  map (fun i =>
         let '(method, endpoint) :=
           nth (i mod List.length endpoints) endpoints ("", "") in
         make_request {| method := method; endpoint := endpoint;
                         data := None; headers := Some headers |} (env i))
      (seq 0 count).

(** What the function prints and returns. *)
Record AuthenticatedRun : Type := mkAuthenticatedRun {
  run_results : list (Outcome Response);
  run_successful : Z;
  run_stats : option Stats
}.

(** [sum(1 for r in results if isinstance(r, dict) and r.get('status', 0) == 200)] *)
Definition count_status_200 (results : list (Outcome Response)) : Z :=
  len (filter (fun r => match r with
                        | inr d => (status d =? 200)%Z
                        | inl _ => false
                        end) results).

Definition test_authenticated_operations (token : string) (count : nat)
    (env : nat -> Exchange) (sched : list nat) (s : StressTester)
    : option (StressTester * Outcome AuthenticatedRun) :=
  match gather (authenticated_tasks token count env) sched s with
  | None => None
  | Some (s', results) =>
      Some (s',
            obind (response_time_stats (valid_times results)) (fun st =>
            inr {| run_results := results;
                   run_successful := count_status_200 results;
                   run_stats := st |}))
  end.

(** ** Operations of a run

    Everything a scenario does to the driver: it opens and closes the
    session, awaits single requests, gathers batches
    ([test_concurrent_registrations], [test_customer_operations] and
    [test_ai_performance] gather batches of [make_request] tasks like
    [test_authenticated_operations] does) and prints the results. *)

Inductive Operation : Type :=
| SetupSession
| CleanupSession
| MakeRequest (rq : Request) (ex : Exchange)
| RunBatch (batch : list (Request * Exchange)) (sched : list nat)
| AuthenticatedOperations (token : string) (count : nat)
    (env : nat -> Exchange) (sched : list nat)
| ResultsPhase.

(** The driver after one operation; [None] when the schedule given for a
    batch is not an execution of it. *)
Definition run_operation (op : Operation) (s : StressTester)
    : option StressTester :=
  match op with
  | SetupSession => Some (fst (setup_session s))
  | CleanupSession => Some (fst (cleanup_session s))
  | MakeRequest rq ex => Some (fst (make_request rq ex s))
  | RunBatch batch sched => option_map fst (runBatch batch sched s)
  | AuthenticatedOperations token count env sched =>
      option_map fst (test_authenticated_operations token count env sched s)
  | ResultsPhase => Some (fst (results_phase s))
  end.

Fixpoint run_operations (ops : list Operation) (s : StressTester)
    : option StressTester :=
  match ops with
  | [] => Some s
  | op :: rest =>
      match run_operation op s with
      | Some s' => run_operations rest s'
      | None => None
      end
  end.

(** ** The nearest-rank percentile of the specification *)

(** The 1-based rank [ceil(0.95 * N)]. *)
Definition nearest_rank (n : Z) : Z := Qceiling (inject_Z n * (95 # 100)).

(** The element at that rank of a sorted copy. *)
Definition nearest_rank_percentile_95 (l : list Q) : Outcome Q :=
  getitem (sorted l) (nearest_rank (len l) - 1).

(** ** [int(n * 0.95)] in IEEE binary64 *)

(** The integer part of a finite binary64 value. *)
Definition float_int (f : float) : Z :=
  match Prim2SF f with
  | S754_finite sign m e =>
      let v := if 0 <=? e then Z.pos m * 2 ^ e else Z.pos m / 2 ^ (- e) in
      if sign then - v else v
  | _ => 0
  end.

Definition percentile_index_float (n : Z) : Z :=
  float_int (PrimFloat.mul (PrimFloat.of_uint63 (Uint63.of_Z n))
                           0x1.e666666666666p-1%float).

(** ** Notions used in the statements and sample inputs *)

(** The driver as [make_request] leaves it when the HTTP call raised. *)
Definition after_exception (rq : Request) (e : Exception) (s : StressTester)
    : StressTester :=
  {| session := session s;
     results := append_error (RaisedError (endpoint rq) (str e))
                  (incr_error_count (results s)) |}.

(** The driver as [make_request] leaves it when the HTTP call returned. *)
Definition after_response (rq : Request) (ex : Exchange) (st : Z) (b : string)
    (s : StressTester) : StressTester :=
  let r := append_response_time ((end_time ex - start_time ex) * 1000)%Q
             (results s) in
  {| session := session s;
     results := if st <? 400 then incr_success_count r
                else append_error (StatusError (endpoint rq) st (first_200 b))
                       (incr_error_count r) |}.

(** [success_count + error_count] *)
Definition total (s : StressTester) : Z :=
  success_count (results s) + error_count (results s).

(** The sum of a list of integers. *)
Definition zsum (l : list Z) : Z := fold_right Z.add 0 l.

(** The requests that [test_authenticated_operations] dispatches. *)
Definition authenticated_batch (token : string) (count : nat)
    (env : nat -> Exchange) : list (Request * Exchange) :=
  map (fun i =>
         (let '(method, endpoint) :=
            nth (i mod List.length endpoints) endpoints ("", "") in
          {| method := method; endpoint := endpoint; data := None;
             headers := Some [("Authorization", "Bearer " ++ token)] |},
          env i))
      (seq 0 count).

(** Sample inputs. *)
Definition open_driver : StressTester := fst (setup_session __init__).

(** A request as the scenarios issue it. *)
Definition get_profile : Request :=
  {| method := "GET"; endpoint := "/auth/profile";
     data := None; headers := None |}.

(** An exchange that takes a quarter of a second and meets [r]. *)
Definition exchange (r : Reply) : Exchange :=
  {| start_time := 10; end_time := (41 # 4)%Q; reply := r |}.

(** A transport failure. *)
Definition connection_refused : Exception :=
  Exc "ClientConnectorError" "Cannot connect to host localhost:3333".

(** A batch with a success, a server error and a transport failure. *)
Definition sample_batch : list (Request * Exchange) :=
  [(get_profile, exchange (Responded 200 "{}"));
   (get_profile, exchange (Responded 500 "Internal Server Error"));
   (get_profile, exchange (Raised connection_refused))].

(** Exactly one of the two counters goes up by exactly one. *)
Definition counts_one_request (s s' : StressTester) : Prop :=
  (success_count (results s') = success_count (results s) + 1 /\
   error_count (results s') = error_count (results s))
  \/
  (success_count (results s') = success_count (results s) /\
   error_count (results s') = error_count (results s) + 1).


(** A batch against an endpoint that always answers 500. *)
Definition always_500 : list (Request * Exchange) :=
  [(get_profile, exchange (Responded 500 "a"));
   (get_profile, exchange (Responded 500 "b"))].

(** Whether the HTTP call of a request returns a response in driver [s]. *)
Definition responds (s : StressTester) (p : Request * Exchange) : bool :=
  match snd (http_call (fst p) (snd p) s) with
  | inr _ => true
  | inl _ => false
  end.

(** Neither counter is lower in [s'] than in [s]. *)
Definition counters_le (s s' : StressTester) : Prop :=
  success_count (results s) <= success_count (results s') /\
  error_count (results s) <= error_count (results s').

(** A run: session, one request, two batches, results, cleanup. *)
Definition sample_run : list Operation :=
  [SetupSession;
   MakeRequest get_profile (exchange (Responded 200 "{}"));
   RunBatch sample_batch [1; 0; 2]%nat;
   AuthenticatedOperations "token" 2
     (fun _ => exchange (Responded 401 "Unauthorized")) [0; 1]%nat;
   ResultsPhase;
   CleanupSession].

(** Four recorded latencies, in milliseconds. *)
Definition four_latencies : list Q := [10; 20; 30; 40]%Q.

(** A driver that has recorded [times], all from successful requests. *)
Definition driver_with_latencies (times : list Q) : StressTester :=
  {| session := session open_driver;
     results := {| response_times := times; errors := [];
                   success_count := len times; error_count := 0 |} |}.

(** Twenty latencies: 1, 2, ..., 20 milliseconds. *)
Definition twenty_latencies : list Q :=
  map inject_Z [1; 2; 3; 4; 5; 6; 7; 8; 9; 10;
                11; 12; 13; 14; 15; 16; 17; 18; 19; 20].

(** Another driver with the same latencies and different other fields. *)
Definition other_driver_with_latencies (times : list Q) : StressTester :=
  {| session := None;
     results := {| response_times := times;
                   errors := [RaisedError "/customers" "timeout"];
                   success_count := 7; error_count := 1 |} |}.

(** One execution of [test_authenticated_operations] and where it ends. *)
Definition sample_authenticated
    : option (StressTester * Outcome AuthenticatedRun) :=
  test_authenticated_operations "token" 2
    (fun _ => exchange (Responded 200 "{}")) [1; 0]%nat open_driver.

Definition sample_authenticated_end : StressTester * Outcome AuthenticatedRun :=
  match sample_authenticated with
  | Some x => x
  | None => (open_driver, inl (Exc "RuntimeError" "no execution"))
  end.

(** ** Values decoded from JSON and Python's operations on them *)

(** What [json.loads] returns and [json.dumps] accepts here: [None], [bool],
    [int], [float], [str], [list] and [dict] with string keys (the
    non-finite floats that the decoder also accepts are left out). *)
#[warnings="-register-all"]
Inductive Json : Type :=
| JNull
| JBool (b : bool)
| JInt (n : Z)
| JFloat (q : Q)
| JString (s : string)
| JList (items : list Json)
| JDict (fields : list (string * Json)).

(** [type(v).__name__] *)
Definition type_name (v : Json) : string :=
  match v with
  | JNull => "NoneType"
  | JBool _ => "bool"
  | JInt _ => "int"
  | JFloat _ => "float"
  | JString _ => "str"
  | JList _ => "list"
  | JDict _ => "dict"
  end.

(** [bool(v)], as taken by [if v:] and [not v]. *)
Definition truthy (v : Json) : bool :=
  match v with
  | JNull => false
  | JBool b => b
  | JInt n => negb (n =? 0)
  | JFloat q => negb (Qeq_bool q 0)
  | JString s => negb (String.eqb s "")
  | JList items => match items with [] => false | _ :: _ => true end
  | JDict fields => match fields with [] => false | _ :: _ => true end
  end.

(** The value stored under a key of a dictionary. *)
Fixpoint lookup (key : string) (fields : list (string * Json)) : option Json :=
  match fields with
  | [] => None
  | (k, v) :: rest => if String.eqb key k then Some v else lookup key rest
  end.

(** [v.get(key)] *)
Definition py_get (v : Json) (key : string) : Outcome Json :=
  match v with
  | JDict fields =>
      inr (match lookup key fields with Some x => x | None => JNull end)
  | _ => inl (Exc "AttributeError"
                ("'" ++ type_name v ++ "' object has no attribute 'get'"))
  end.

(** [v[key]] for a string [key] (the wording of the messages is that of
    Python 3.11). *)
Definition py_getitem (v : Json) (key : string) : Outcome Json :=
  match v with
  | JDict fields =>
      match lookup key fields with
      | Some x => inr x
      | None => inl (Exc "KeyError" ("'" ++ key ++ "'"))
      end
  | JList _ =>
      inl (Exc "TypeError" "list indices must be integers or slices, not str")
  | JString _ =>
      inl (Exc "TypeError" "string indices must be integers, not 'str'")
  | _ => inl (Exc "TypeError"
                ("'" ++ type_name v ++ "' object is not subscriptable"))
  end.

(** [v[0]] *)
Definition py_first (v : Json) : Outcome Json :=
  match v with
  | JList (x :: _) => inr x
  | JList [] => inl (Exc "IndexError" "list index out of range")
  | JString s =>
      match characters s with
      | c :: _ => inr (JString c)
      | [] => inl (Exc "IndexError" "string index out of range")
      end
  | JDict _ => inl (Exc "KeyError" "0")
  | _ => inl (Exc "TypeError"
                ("'" ++ type_name v ++ "' object is not subscriptable"))
  end.

(** [len(v)] *)
Definition py_len (v : Json) : Outcome Z :=
  match v with
  | JList items => inr (len items)
  | JString s => inr (len (characters s))
  | JDict fields => inr (len fields)
  | _ => inl (Exc "TypeError"
                ("object of type '" ++ type_name v ++ "' has no len()"))
  end.

(** The elements that [for x in v] goes through. *)
Definition py_iter (v : Json) : Outcome (list Json) :=
  match v with
  | JList items => inr items
  | JString s => inr (map JString (characters s))
  | JDict fields => inr (map (fun kv => JString (fst kv)) fields)
  | _ => inl (Exc "TypeError"
                ("'" ++ type_name v ++ "' object is not iterable"))
  end.

(** [[f(x) for x in xs]]: the first exception stops the comprehension. *)
Fixpoint comprehension {A B} (f : A -> Outcome B) (xs : list A)
    : Outcome (list B) :=
  match xs with
  | [] => inr []
  | x :: rest =>
      match f x with
      | inl e => inl e
      | inr y =>
          match comprehension f rest with
          | inl e => inl e
          | inr ys => inr (y :: ys)
          end
      end
  end.

(** [name in values] for a string [name]: equal to one of the values. *)
Definition py_in (name : string) (values : list Json) : bool :=
  existsb (fun v => match v with
                    | JString s => String.eqb name s
                    | _ => false
                    end) values.

(** [str(i)] for a natural number and for an integer. *)
Definition str_nat (i : nat) : string :=
  NilEmpty.string_of_uint (Nat.to_uint i).

Definition str_int (n : Z) : string :=
  NilZero.string_of_int (Z.to_int n).

(** [f"{i:04d}"] for a natural number: at least four digits. *)
Definition pad_04d (i : nat) : string :=
  let digits := str_nat i in
  match (4 - String.length digits)%nat with
  | 0%nat => digits
  | 1%nat => "0" ++ digits
  | 2%nat => "00" ++ digits
  | 3%nat => "000" ++ digits
  | _ => "0000" ++ digits
  end.

(** [sum(1 for r in results if isinstance(r, dict) and
    r.get('status', 0) in codes)] *)
Definition count_status_in (codes : list Z) (results : list (Outcome Response))
    : Z :=
  len (filter (fun r => match r with
                        | inr d => existsb (Z.eqb (status d)) codes
                        | inl _ => false
                        end) results).

(** Line 220: the stage names that the pipeline must show. *)
Definition expected_stages : list string :=
  ["Ð›Ð¸Ð´Ñ‹";
   "ÐšÐ²Ð°Ð»Ð¸Ñ„Ð¸ÐºÐ°Ñ†Ð¸Ñ";
   "ÐŸÑ€ÐµÐ´Ð»Ð¾Ð¶ÐµÐ½Ð¸Ðµ";
   "ÐŸÐµÑ€ÐµÐ³Ð¾Ð²Ð¾Ñ€Ñ‹"].

(** Lines 247-253: the chat messages. *)
Definition messages : list string :=
  ["ÐŸÑ€Ð¸Ð²ÐµÑ‚, ÐºÐ°Ðº Ð´ÐµÐ»Ð°?";
   "ÐŸÐ¾ÐºÐ°Ð¶Ð¸ ÑÑ‚Ð°Ñ‚Ð¸ÑÑ‚Ð¸ÐºÑƒ Ð¿Ñ€Ð¾Ð´Ð°Ð¶";
   "Ð¡Ð¾Ð·Ð´Ð°Ð¹ Ð¾Ñ‚Ñ‡ÐµÑ‚ Ð¿Ð¾ ÐºÐ»Ð¸ÐµÐ½Ñ‚Ð°Ð¼";
   "ÐÐ½Ð°Ð»Ð¸Ð·Ð¸Ñ€ÑƒÐ¹ performance";
   "Ð§Ñ‚Ð¾ Ð½Ð¾Ð²Ð¾Ð³Ð¾ Ð² ÑÐ¸ÑÑ‚ÐµÐ¼Ðµ?"].

(** Line 258: [f"{message} (... {i+1})"]. *)
Definition chat_message (message : string) (i : nat) : string :=
  message ++ " (Ð·Ð°Ð¿Ñ€Ð¾Ñ " ++ str_nat (i + 1) ++ ")".

(** ** Scenarios

    A scenario awaits requests and gathers batches.  Like [gather] it is
    [None] on schedules that are no execution; otherwise it gives the driver
    it leaves and its value or the exception it raised. *)

Definition Scenario (A : Type) : Type :=
  StressTester -> option (StressTester * Outcome A).

Definition sreturn {A} (a : A) : Scenario A := fun s => Some (s, inr a).

Definition sbind {A B} (m : Scenario A) (k : A -> Scenario B) : Scenario B :=
  fun s =>
    match m s with
    | None => None
    | Some (s', inl e) => Some (s', inl e)
    | Some (s', inr a) => k a s'
    end.

(** [await m] for a coroutine of the driver. *)
Definition await {A} (m : M A) : Scenario A := fun s => Some (m s).

(** A computation that does not touch the driver. *)
Definition evaluate {A} (o : Outcome A) : Scenario A := fun s => Some (s, o).

(** [await asyncio.gather] of the tasks, with [return_exceptions=True]. *)
Definition gathered {A} (tasks : list (M A)) (sched : list nat)
    : Scenario (list (Outcome A)) :=
  fun s =>
    match gather tasks sched s with
    | Some (s', rs) => Some (s', inr rs)
    | None => None
    end.

(** [try: body  except Exception as e: handler e  finally: final] *)
Definition try_except_finally {A} (body : Scenario A)
    (handler : Exception -> Scenario A) (final : Scenario unit)
    : Scenario A :=
  fun s =>
    match body s with
    | None => None
    | Some (s1, o) =>
        match (match o with
               | inl e => handler e s1
               | inr a => Some (s1, inr a)
               end) with
        | None => None
        | Some (s2, o2) =>
            match final s2 with
            | None => None
            | Some (s3, inl e) => Some (s3, inl e)
            | Some (s3, inr _) => Some (s3, o2)
            end
        end
    end.

Declare Scope scenario_scope.
Delimit Scope scenario_scope with scenario.
Notation "x <~ m ;; k" := (sbind m (fun x => k))
  (at level 61, m at next level, right associativity) : scenario_scope.
Notation "m ~~ k" := (sbind m (fun _ => k))
  (at level 61, right associativity) : scenario_scope.
Open Scope scenario_scope.

(** ** The scenario functions *)

(** What [test_concurrent_registrations] prints and returns. *)
Record RegistrationRun : Type := mkRegistrationRun {
  registration_results : list (Outcome Response);
  registration_completed : Z;
  registration_seconds : Q;
  registration_average_ms : Q
}.

(** How [test_customer_operations] ends: without an organization (it
    returns [None]), or with the two lists of results and the two printed
    counts. *)
Inductive CustomerRun : Type :=
| NoOrganization
| CustomersDone (create_results : list (Outcome Response))
    (successful_creates : Z)
    (list_results : list (Outcome Response))
    (successful_lists : Z).

(** What [test_pipeline_operations] prints after its headline: nothing when
    the pipelines are not listed with status 200, when there is no pipeline
    or when the stages are not listed with status 200; otherwise the number
    of stages and whether the localization is verified. *)
Inductive PipelineRun : Type :=
| PipelinesNotListed
| NoPipeline
| StagesNotListed
| StagesListed (stages : Z) (localized : bool).

(** How [test_ai_performance] ends: with the configuration refused (it
    returns [None]) or with the chat results and the printed count. *)
Inductive ChatRun : Type :=
| ConfigurationFailed
| ChatsDone (chat_results : list (Outcome Response)) (successful_chats : Z).

(** How [run_comprehensive_stress_test] ends: rate limited at registration,
    login refused, the results printed with the verdict, or the exception
    that the [except] branch printed. *)
Inductive RunReport : Type :=
| RateLimited
| LoginFailed
| ResultsPrinted (summary : Summary) (shown_errors : list ErrorEntry)
    (success_rate : Q) (passed : bool)
| StressTestFailed (e : Exception).

(** The exchanges and completion orders that one run meets. *)
Record RunInputs : Type := mkRunInputs {
  register_exchange : Exchange;
  activate_exchange : Exchange;
  login_exchange : Exchange;
  finish_exchange : Exchange;
  authenticated_env : nat -> Exchange;
  authenticated_sched : list nat;
  profile_exchange : Exchange;
  create_env : nat -> Exchange;
  create_sched : list nat;
  list_env : nat -> Exchange;
  list_sched : list nat;
  pipelines_exchange : Exchange;
  stages_exchange : Exchange;
  configure_exchange : Exchange;
  chat_env : nat -> Exchange;
  chat_sched : list nat
}.

(** [{"Authorization": f"Bearer {token}"}] *)
Definition bearer (token : string) : list (string * string) :=
  [("Authorization", "Bearer " ++ token)].

(** Lines 91-96: the data of the [i]-th registration. *)
Definition registration_email (i : nat) : string :=
  "stress-user-" ++ str_nat i ++ "@load.test".

Definition registration_data (i : nat) : Json :=
  JDict [("firstName", JString ("StressUser" ++ str_nat i));
         ("lastName", JString "Test");
         ("email", JString (registration_email i));
         ("password", JString "SecurePass123!")].

(** Lines 164-171: the data of the [i]-th customer. *)
Definition customer_data (org_id : Json) (i : nat) : Json :=
  JDict [("organizationId", org_id);
         ("firstName", JString ("LoadCustomer" ++ str_nat i));
         ("lastName", JString "Test");
         ("email", JString ("load-customer-" ++ str_nat i ++ "@stress.test"));
         ("phone", JString ("+7700123" ++ pad_04d i));
         ("companyName", JString ("Load Corp " ++ str_nat i))].

(** Lines 234-239: the configuration of the assistant. *)
Definition assistant_configuration : Json :=
  JDict [("assistantName", JString "Stress Test AI");
         ("personality", JString "professional");
         ("expertise", JList [JString "Sales & Marketing"]);
         ("voicePreference", JString "female")].

(** Lines 256-260: the data of the [i]-th chat request. *)
Definition chat_data (i : nat) : Json :=
  JDict [("message",
          JString (chat_message
                     (nth (i mod List.length messages) messages "") i));
         ("context", JString "general")].

(** Lines 285-322: the data of the four requests of phase 1. *)
Definition owner_registration : Json :=
  JDict [("firstName", JString "Stress");
         ("lastName", JString "Owner");
         ("email", JString "stress-owner@load.test");
         ("password", JString "SecurePass123!")].

Definition owner_activation : Json :=
  JDict [("email", JString "stress-owner@load.test")].

Definition owner_login : Json :=
  JDict [("email", JString "stress-owner@load.test");
         ("password", JString "SecurePass123!")].

Definition owner_onboarding : Json :=
  JDict [("onboardingData",
          JDict [("userType", JString "owner");
                 ("companyName", JString "Stress Test Corp");
                 ("companyBin", JString "999888777000");
                 ("industry", JString "Load Testing")])].

Section PythonLibrary.

(** [json.loads], [json.dumps] (with which the HTTP client renders the
    [json=] argument) and [repr] of floats, lists and dictionaries are
    taken as given. *)
Variable json_loads : string -> Outcome Json.
Variable json_dumps : Json -> string.
Variable py_repr : Json -> string.

(** [str(v)], as an f-string renders [{v}]. *)
Definition py_str (v : Json) : string :=
  match v with
  | JString s => s
  | JInt n => str_int n
  | JNull => "None"
  | JBool true => "True"
  | JBool false => "False"
  | _ => py_repr v
  end.

(** [self.make_request("GET", endpoint, headers=headers)] *)
Definition get_request (endpoint : string)
    (headers : option (list (string * string))) : Request :=
  {| method := "GET"; endpoint := endpoint; data := None;
     headers := headers |}.

(** [self.make_request("POST", endpoint, data, headers)] *)
Definition post_request (endpoint : string) (data : Json)
    (headers : option (list (string * string))) : Request :=
  {| method := "POST"; endpoint := endpoint;
     data := Some (json_dumps data); headers := headers |}.

(** *** [test_concurrent_registrations] *)

Definition registration_batch (count : Z) (env : nat -> Exchange)
    : list (Request * Exchange) :=
  map (fun i => (post_request "/auth/register" (registration_data i) None,
                 env i))
      (seq 0 (Z.to_nat count)).

(** [t0] and [t1] are the readings of the clock before and after the
    batch. *)
Definition test_concurrent_registrations (count : Z) (env : nat -> Exchange)
    (sched : list nat) (t0 t1 : Q) : Scenario RegistrationRun :=
  results <~ gathered (batch_tasks (registration_batch count env)) sched ;;
  let total_time := (t1 - t0)%Q in
  let successful := count_status_in [201; 429] results in
  if count =? 0 then
    evaluate (inl (Exc "ZeroDivisionError" "float division by zero"))
  else
    sreturn {| registration_results := results;
               registration_completed := successful;
               registration_seconds := total_time;
               registration_average_ms :=
                 (total_time / inject_Z count * 1000)%Q |}.

(** *** [test_customer_operations] *)

Definition create_batch (token : string) (org_id : Json) (count : nat)
    (env : nat -> Exchange) : list (Request * Exchange) :=
  map (fun i => (post_request "/customers" (customer_data org_id i)
                   (Some (bearer token)), env i))
      (seq 0 count).

Definition list_batch (token : string) (env : nat -> Exchange)
    : list (Request * Exchange) :=
  map (fun i => (get_request "/customers?page=1&limit=20"
                   (Some (bearer token)), env i))
      (seq 0 10).

Definition test_customer_operations (token : string) (count : nat)
    (profile : Exchange)
    (creations : nat -> Exchange) (creations_sched : list nat)
    (listings : nat -> Exchange) (listings_sched : list nat)
    : Scenario CustomerRun :=
  profile_response <~
    await (make_request (get_request "/auth/profile" (Some (bearer token)))
             profile) ;;
  decoded <~ evaluate (json_loads (body profile_response)) ;;
  org_id <~ evaluate (py_get decoded "organizationId") ;;
  if negb (truthy org_id) then sreturn NoOrganization
  else
    create_results <~
      gathered (batch_tasks (create_batch token org_id count creations))
        creations_sched ;;
    let successful_creates := count_status_in [201] create_results in
    list_results <~
      gathered (batch_tasks (list_batch token listings)) listings_sched ;;
    let successful_lists := count_status_in [200] list_results in
    sreturn (CustomersDone create_results successful_creates
               list_results successful_lists).

(** *** [test_pipeline_operations] *)

Definition test_pipeline_operations (token : string)
    (pipelines_listing stages_listing : Exchange) : Scenario PipelineRun :=
  let headers := Some (bearer token) in
  pipeline_response <~
    await (make_request (get_request "/pipelines" headers)
             pipelines_listing) ;;
  if negb (status pipeline_response =? 200) then sreturn PipelinesNotListed
  else
    decoded <~ evaluate (json_loads (body pipeline_response)) ;;
    pipelines <~ evaluate (py_getitem decoded "data") ;;
    if negb (truthy pipelines) then sreturn NoPipeline
    else
      first <~ evaluate (py_first pipelines) ;;
      pipeline_id <~ evaluate (py_getitem first "id") ;;
      stages_response <~
        await (make_request
                 (get_request ("/pipelines/" ++ py_str pipeline_id ++ "/stages")
                    headers)
                 stages_listing) ;;
      if negb (status stages_response =? 200) then sreturn StagesNotListed
      else
        decoded_stages <~ evaluate (json_loads (body stages_response)) ;;
        stages_data <~ evaluate (py_getitem decoded_stages "data") ;;
        stages <~ evaluate (py_getitem stages_data "stages") ;;
        number <~ evaluate (py_len stages) ;;
        elements <~ evaluate (py_iter stages) ;;
        stage_names <~
          evaluate (comprehension (fun stage => py_getitem stage "name")
                      elements) ;;
        sreturn (StagesListed number
                   (forallb (fun stage => py_in stage stage_names)
                      expected_stages)).

(** *** [test_ai_performance] *)

Definition chat_batch (token : string) (count : nat) (env : nat -> Exchange)
    : list (Request * Exchange) :=
  map (fun i => (post_request "/ai/chat" (chat_data i) (Some (bearer token)),
                 env i))
      (seq 0 count).

Definition test_ai_performance (token : string) (count : nat)
    (configure : Exchange) (chats : nat -> Exchange) (chats_sched : list nat)
    : Scenario ChatRun :=
  config_response <~
    await (make_request
             (post_request "/ai/assistant/configure" assistant_configuration
                (Some (bearer token)))
             configure) ;;
  if negb (status config_response =? 201) then sreturn ConfigurationFailed
  else
    chat_results <~
      gathered (batch_tasks (chat_batch token count chats)) chats_sched ;;
    sreturn (ChatsDone chat_results (count_status_in [200] chat_results)).

(** *** [run_comprehensive_stress_test] *)

(** Lines 333-353: the results, the success rate and the verdict. *)
Definition results_and_verdict : Scenario RunReport :=
  summary <~ await results_phase ;;
  s <~ await get_self ;;
  let r := results s in
  let shown := firstn 5 (errors r) in
  success_rate <~
    evaluate (if success_count r + error_count r =? 0 then
                inl (Exc "ZeroDivisionError" "division by zero")
              else
                inr (inject_Z (success_count r)
                     / inject_Z (success_count r + error_count r) * 100)%Q) ;;
  passed <~
    evaluate (if Qle_bool success_rate 95 then inr false
              else obind (mean (response_times r)) (fun average =>
                   inr (negb (Qle_bool 500 average)))) ;;
  sreturn (ResultsPrinted summary shown success_rate passed).

(** Lines 281-353: the body of the [try].  The ten seconds that the rate
    limited branch sleeps before it returns change nothing in the driver. *)
Definition stress_test_body (i : RunInputs) : Scenario RunReport :=
  register_response <~
    await (make_request (post_request "/auth/register" owner_registration None)
             (register_exchange i)) ;;
  if status register_response =? 429 then sreturn RateLimited
  else
    await (make_request
             (post_request "/test/activate-user" owner_activation None)
             (activate_exchange i)) ~~
    login_response <~
      await (make_request (post_request "/auth/login" owner_login None)
               (login_exchange i)) ;;
    if negb (status login_response =? 200) then sreturn LoginFailed
    else
      decoded <~ evaluate (json_loads (body login_response)) ;;
      access_token <~ evaluate (py_getitem decoded "accessToken") ;;
      let token := py_str access_token in
      await (make_request
               (post_request "/auth/finish" owner_onboarding
                  (Some (bearer token)))
               (finish_exchange i)) ~~
      test_authenticated_operations token 50 (authenticated_env i)
        (authenticated_sched i) ~~
      test_customer_operations token 15 (profile_exchange i)
        (create_env i) (create_sched i) (list_env i) (list_sched i) ~~
      test_pipeline_operations token (pipelines_exchange i)
        (stages_exchange i) ~~
      test_ai_performance token 10 (configure_exchange i)
        (chat_env i) (chat_sched i) ~~
      results_and_verdict.

Definition run_comprehensive_stress_test (i : RunInputs)
    : Scenario RunReport :=
  await setup_session ~~
  try_except_finally
    (stress_test_body i)
    (fun e => sreturn (StressTestFailed e))
    (await cleanup_session).

End PythonLibrary.

(** ** Notions used in the further properties *)

(** Whether the driver holds a session that has not been closed. *)
Definition session_open (s : StressTester) : bool :=
  match session s with
  | Some c => negb (closed c)
  | None => false
  end.

(** The latency that [make_request] records for an exchange (line 54). *)
Definition latency (ex : Exchange) : Q :=
  ((end_time ex - start_time ex) * 1000)%Q.

(** The dictionary that [make_request] returns for a request, read off the
    outcome of its HTTP call in driver [s]. *)
Definition result_of (s : StressTester) (p : Request * Exchange) : Response :=
  match snd (http_call (fst p) (snd p) s) with
  | inr (st, b) =>
      {| status := st; body := b; response_time := latency (snd p) |}
  | inl e => {| status := 0; body := str e; response_time := 0 |}
  end.

(** Whether the HTTP call of a request is answered with a status below 400. *)
Definition succeeds (s : StressTester) (p : Request * Exchange) : bool :=
  match snd (http_call (fst p) (snd p) s) with
  | inr (st, _) => st <? 400
  | inl _ => false
  end.

(** The entry that [make_request] appends to [errors] for a request, if
    any. *)
Definition error_entry (s : StressTester) (p : Request * Exchange)
    : list ErrorEntry :=
  match snd (http_call (fst p) (snd p) s) with
  | inr (st, b) =>
      if st <? 400 then []
      else [StatusError (endpoint (fst p)) st (first_200 b)]
  | inl e => [RaisedError (endpoint (fst p)) (str e)]
  end.

(** The requests of a batch in the order in which a schedule completes
    them. *)
Definition completion_order (batch : list (Request * Exchange))
    (sched : list nat) : list (Request * Exchange) :=
  flat_map (fun i => match nth_error batch i with
                     | Some p => [p]
                     | None => []
                     end) sched.

(** The results that a batch returns: the dictionary of each descriptor, in
    the order of the descriptors. *)
Definition results_of (s : StressTester) (batch : list (Request * Exchange))
    : list (Outcome Response) :=
  map (fun p => inr (result_of s p)) batch.

(** The figures of the statistics block on [four_latencies]. *)
Definition four_latencies_stats : Stats :=
  {| Average := 100 # 4; Median := 50 # 2; Percentile95 := 40; Max := 40 |}.


(** The records of the driver agree with each other: there is one error
    entry for each counted error, and one latency for each counted success
    and for some of the counted errors (those that got a response). *)
Definition records_consistent (s : StressTester) : Prop :=
  error_count (results s) = len (errors (results s)) /\
  success_count (results s) <= len (response_times (results s)) /\
  len (response_times (results s)) <=
    success_count (results s) + error_count (results s).

(** Between [s] and [s'] exactly [n] requests have been made: the session
    is the same, [success_count + error_count] is [n] higher, neither
    counter is lower, and records that agreed still agree. *)
Definition requests_made (n : Z) (s s' : StressTester) : Prop :=
  session s' = session s /\ total s' = total s + n /\ counters_le s s' /\
  (records_consistent s -> records_consistent s').

(** Every execution of scenario [m] from [s] ends in a driver and an
    outcome that satisfy [P]. *)
Definition ensures {A} (m : Scenario A) (s : StressTester)
    (P : StressTester -> Outcome A -> Prop) : Prop :=
  forall s' o, m s = Some (s', o) -> P s' o.

(** Scenario [m] has an execution from [s], and it ends in a driver and an
    outcome that satisfy [P]. *)
Definition achieves {A} (m : Scenario A) (s : StressTester)
    (P : StressTester -> Outcome A -> Prop) : Prop :=
  exists s' o, m s = Some (s', o) /\ P s' o.

(** Sample stand-ins for the library functions: a decoder that knows five
    bodies, an encoder and a [repr] that return a fixed text. *)
Definition sample_loads (text : string) : Outcome Json :=
  if String.eqb text "{}" then inr (JDict [])
  else if String.eqb text "token" then
    inr (JDict [("accessToken", JString "abc")])
  else if String.eqb text "org" then
    inr (JDict [("organizationId", JString "org-1")])
  else if String.eqb text "pipelines" then
    inr (JDict [("data", JList [JDict [("id", JString "p1")]])])
  else if String.eqb text "stages" then
    inr (JDict [("data",
                 JDict [("stages",
                         JList (map (fun name => JDict [("name", JString name)])
                                  expected_stages))])])
  else inl (Exc "JSONDecodeError" "Expecting value: line 1 column 1 (char 0)").

Definition sample_dumps (v : Json) : string := "{}".

Definition sample_repr (v : Json) : string := "[]".

(** Between [s] and [s'] at least [lo] and at most [hi] requests have been
    made. *)
Definition requests_within (lo hi : Z) (s s' : StressTester) : Prop :=
  exists n, lo <= n <= hi /\ requests_made n s s'.

(** The status that [make_request] returns for an exchange on an open
    session. *)
Definition answer (ex : Exchange) : Z :=
  match reply ex with
  | Responded st _ => st
  | Raised _ => 0
  end.

(** The body that [make_request] returns for an exchange on an open
    session. *)
Definition answer_body (ex : Exchange) : string :=
  match reply ex with
  | Responded _ b => b
  | Raised e => str e
  end.

(** The inputs of a sample run: the registration and the login are answered
    as given, every other request succeeds except the listing of the
    pipelines (404), and every batch completes in the order of dispatch. *)
Definition sample_inputs (registration login : Exchange) : RunInputs :=
  {| register_exchange := registration;
     activate_exchange := exchange (Responded 200 "{}");
     login_exchange := login;
     finish_exchange := exchange (Responded 200 "{}");
     authenticated_env := fun _ => exchange (Responded 200 "{}");
     authenticated_sched := seq 0 50;
     profile_exchange := exchange (Responded 200 "org");
     create_env := fun _ => exchange (Responded 201 "{}");
     create_sched := seq 0 15;
     list_env := fun _ => exchange (Responded 200 "[]");
     list_sched := seq 0 10;
     pipelines_exchange := exchange (Responded 404 "Not Found");
     stages_exchange := exchange (Responded 200 "stages");
     configure_exchange := exchange (Responded 201 "{}");
     chat_env := fun _ => exchange (Responded 200 "{}");
     chat_sched := seq 0 10 |}.

(** A complete sample run from a new driver, and where it ends. *)
Definition sample_complete_run : option (StressTester * Outcome RunReport) :=
  run_comprehensive_stress_test sample_loads sample_dumps sample_repr
    (sample_inputs (exchange (Responded 201 "{}"))
       (exchange (Responded 200 "token")))
    __init__.

Definition sample_complete_end : StressTester * Outcome RunReport :=
  match sample_complete_run with
  | Some x => x
  | None => (__init__, inl (Exc "RuntimeError" "no execution"))
  end.

(** The summary, the errors shown and the success rate that it prints. *)
Definition sample_printed : Summary * list ErrorEntry * Q :=
  match snd sample_complete_end with
  | inr (ResultsPrinted summary shown rate _) => (summary, shown, rate)
  | _ => ({| total_requests := 0; successful := 0; failed := 0;
             average_response_time := None; percentile_95th := None |},
          [], 0%Q)
  end.

(** Sample executions of the scenarios on an open session. *)
Definition sample_customers : option (StressTester * Outcome CustomerRun) :=
  test_customer_operations sample_loads sample_dumps "abc" 2
    (exchange (Responded 200 "org"))
    (fun _ => exchange (Responded 201 "{}")) [1; 0]%nat
    (fun _ => exchange (Responded 200 "[]")) (seq 0 10) open_driver.

Definition sample_customers_end : StressTester * Outcome CustomerRun :=
  match sample_customers with
  | Some x => x
  | None => (open_driver, inl (Exc "RuntimeError" "no execution"))
  end.

Definition sample_pipeline : option (StressTester * Outcome PipelineRun) :=
  test_pipeline_operations sample_loads sample_repr "abc"
    (exchange (Responded 200 "pipelines"))
    (exchange (Responded 200 "stages")) open_driver.

Definition sample_pipeline_end : StressTester * Outcome PipelineRun :=
  match sample_pipeline with
  | Some x => x
  | None => (open_driver, inl (Exc "RuntimeError" "no execution"))
  end.

Definition sample_chats : option (StressTester * Outcome ChatRun) :=
  test_ai_performance sample_dumps "abc" 3
    (exchange (Responded 201 "{}"))
    (fun _ => exchange (Responded 200 "{}")) [2; 0; 1]%nat open_driver.

Definition sample_chats_end : StressTester * Outcome ChatRun :=
  match sample_chats with
  | Some x => x
  | None => (open_driver, inl (Exc "RuntimeError" "no execution"))
  end.

(** Every byte of the string is a continuation byte. *)
Fixpoint all_continuation (s : string) : bool :=
  match s with
  | EmptyString => true
  | String c rest => is_continuation c && all_continuation rest
  end.

(** The string is one character: a byte followed by continuation bytes. *)
Definition character_shaped (x : string) : Prop :=
  match x with
  | String _ t => all_continuation t = true
  | EmptyString => False
  end.

(** The string starts with a byte that opens a character. *)
Definition starts_fresh (x : string) : Prop :=
  match x with
  | String c _ => is_continuation c = false
  | EmptyString => False
  end.

(** A body of 250 Cyrillic letters, two bytes each. *)
Definition cyrillic_body : string := join (repeat "Л" 250).










(** * Properties *)

(** ** The index [int(n * 0.95)] *)

Lemma percentile_index_div (n : Z) :
  0 <= n -> percentile_index n = 19 * n / 20.
Proof.
  intros Hn. unfold percentile_index, int.
  assert (Hnum : Qnum (inject_Z n * (95 # 100)) = n * 95) by reflexivity.
  assert (Hden : Qden (inject_Z n * (95 # 100)) = 100%positive) by reflexivity.
  assert (Hpos : Qle_bool 0 (inject_Z n * (95 # 100)) = true).
  { apply Qle_bool_iff. unfold Qle. rewrite Hnum. simpl. lia. }
  rewrite Hpos. unfold Qfloor.
  destruct (inject_Z n * (95 # 100))%Q as [a d] eqn:E.
  simpl in Hnum, Hden. subst a d.
  replace (n * 95) with ((19 * n) * 5) by ring.
  change (Z.pos 100) with (20 * 5).
  rewrite Z.div_mul_cancel_r; lia.
Qed.

Lemma nearest_rank_div (n : Z) :
  nearest_rank n = (19 * n + 19) / 20.
Proof.
  unfold nearest_rank, Qceiling, Qfloor.
  assert (Hnum : Qnum (- (inject_Z n * (95 # 100))) = - (n * 95)) by reflexivity.
  assert (Hden : Qden (- (inject_Z n * (95 # 100))) = 100%positive) by reflexivity.
  destruct (- (inject_Z n * (95 # 100)))%Q as [a d] eqn:E.
  simpl in Hnum, Hden. subst a d.
  pose proof (Z.div_mod (19 * n + 19) 20 ltac:(lia)) as H1.
  pose proof (Z.mod_pos_bound (19 * n + 19) 20 ltac:(lia)) as H2.
  pose proof (Z.div_mod (- (n * 95)) 100 ltac:(lia)) as H3.
  pose proof (Z.mod_pos_bound (- (n * 95)) 100 ltac:(lia)) as H4.
  change (Z.pos 100) with 100.
  lia.
Qed.

(** The rational model of the index agrees with the IEEE binary64
    computation of the source on every length up to 4000. *)
Lemma percentile_index_binary64 :
  forallb (fun k => percentile_index_float (Z.of_nat k)
                    =? percentile_index (Z.of_nat k))
          (seq 0 4001) = true.
Proof. vm_compute. reflexivity. Qed.

(** ** One call of [make_request] *)

Lemma session_call_state verb url ex s :
  fst (session_call verb url ex s) = s.
Proof.
  unfold session_call, bind, get_self, raise, ret.
  destruct (session s) as [c|]; [|reflexivity].
  destruct (closed c); [reflexivity|].
  destruct (reply ex); reflexivity.
Qed.

(** The HTTP call itself never touches the driver. *)
Lemma http_call_state rq ex s : fst (http_call rq ex s) = s.
Proof.
  unfold http_call.
  destruct (String.eqb (method rq) "GET"); [apply session_call_state|].
  destruct (String.eqb (method rq) "POST"); [apply session_call_state|].
  reflexivity.
Qed.

Lemma make_request_raised rq ex s s1 e :
  http_call rq ex s = (s1, inl e) ->
  make_request rq ex s =
    (after_exception rq e s,
     inr {| status := 0; body := str e; response_time := 0 |}).
Proof.
  intros H. pose proof (http_call_state rq ex s) as Hs.
  rewrite H in Hs. simpl in Hs. subst s1.
  unfold make_request, try_except, bind. rewrite H. reflexivity.
Qed.

Lemma make_request_responded rq ex s s1 st b :
  http_call rq ex s = (s1, inr (st, b)) ->
  make_request rq ex s =
    (after_response rq ex st b s,
     inr {| status := st; body := b;
            response_time := ((end_time ex - start_time ex) * 1000)%Q |}).
Proof.
  intros H. pose proof (http_call_state rq ex s) as Hs.
  rewrite H in Hs. simpl in Hs. subst s1.
  unfold make_request, try_except, bind at 1. rewrite H.
  unfold record_response, after_response.
  destruct (st <? 400); reflexivity.
Qed.

(** Every call falls in one of the two cases. *)
Lemma make_request_cases rq ex s :
  (exists e, http_call rq ex s = (s, inl e) /\
             make_request rq ex s =
               (after_exception rq e s,
                inr {| status := 0; body := str e; response_time := 0 |}))
  \/
  (exists st b, http_call rq ex s = (s, inr (st, b)) /\
                make_request rq ex s =
                  (after_response rq ex st b s,
                   inr {| status := st; body := b;
                          response_time :=
                            ((end_time ex - start_time ex) * 1000)%Q |})).
Proof.
  pose proof (http_call_state rq ex s) as Hs.
  destruct (http_call rq ex s) as [s1 [e | [st b]]] eqn:H; simpl in Hs; subst s1.
  - left. exists e. split; [reflexivity|]. eapply make_request_raised; eauto.
  - right. exists st, b. split; [reflexivity|].
    eapply make_request_responded; eauto.
Qed.

Lemma make_request_session rq ex s :
  session (fst (make_request rq ex s)) = session s.
Proof.
  destruct (make_request_cases rq ex s) as [(e & _ & H) | (st & b & _ & H)];
    rewrite H; reflexivity.
Qed.

Lemma success_count_after_response rq ex st b s :
  success_count (results (after_response rq ex st b s)) =
  success_count (results s) + (if st <? 400 then 1 else 0).
Proof. unfold after_response; simpl. destruct (st <? 400); simpl; lia. Qed.

Lemma error_count_after_response rq ex st b s :
  error_count (results (after_response rq ex st b s)) =
  error_count (results s) + (if st <? 400 then 0 else 1).
Proof. unfold after_response; simpl. destruct (st <? 400); simpl; lia. Qed.

Lemma errors_after_response rq ex st b s :
  errors (results (after_response rq ex st b s)) =
  (errors (results s) ++
    (if st <? 400 then [] else [StatusError (endpoint rq) st (first_200 b)]))%list.
Proof.
  unfold after_response; simpl. destruct (st <? 400); simpl;
    [rewrite app_nil_r|]; reflexivity.
Qed.

Lemma response_times_after_response rq ex st b s :
  response_times (results (after_response rq ex st b s)) =
  (response_times (results s) ++
     [((end_time ex - start_time ex) * 1000)%Q])%list.
Proof. unfold after_response; simpl. destruct (st <? 400); reflexivity. Qed.

Lemma make_request_counts rq ex s :
  let s' := fst (make_request rq ex s) in
  (success_count (results s') = success_count (results s) + 1 /\
   error_count (results s') = error_count (results s))
  \/
  (success_count (results s') = success_count (results s) /\
   error_count (results s') = error_count (results s) + 1).
Proof.
  destruct (make_request_cases rq ex s) as [(e & _ & H) | (st & b & _ & H)];
    rewrite H; cbn [fst].
  - right. split; reflexivity.
  - rewrite success_count_after_response, error_count_after_response.
    destruct (st <? 400); [left | right]; lia.
Qed.

Lemma make_request_returns rq ex s :
  exists r, snd (make_request rq ex s) = inr r.
Proof.
  destruct (make_request_cases rq ex s) as [(e & _ & H) | (st & b & _ & H)];
    rewrite H; cbn [snd]; eexists; reflexivity.
Qed.

(** ** Batches *)

Lemma zsum_app l1 l2 : zsum (l1 ++ l2) = zsum l1 + zsum l2.
Proof. induction l1 as [|x l1 IH]; simpl; [reflexivity | rewrite IH; lia]. Qed.

Lemma zsum_permutation l1 l2 : Permutation l1 l2 -> zsum l1 = zsum l2.
Proof. induction 1; simpl; lia. Qed.

Lemma zsum_map_const {A} (l : list A) :
  zsum (map (fun _ => 1) l) = len l.
Proof.
  unfold len. induction l as [|x l IH]; [reflexivity|].
  cbn [map zsum fold_right List.length]. unfold zsum in IH. rewrite IH. lia.
Qed.

(** Reading a list through its positions. *)
Lemma map_nth_error_seq {A B} (f : option A -> B) (l : list A) :
  map (fun i => f (nth_error l i)) (seq 0 (List.length l)) =
  map (fun x => f (Some x)) l.
Proof.
  induction l as [|x l IH]; [reflexivity|].
  cbn [List.length seq map nth_error]. f_equal.
  rewrite <- seq_shift, map_map. exact IH.
Qed.

Lemma permutation_seq_bound sched n :
  Permutation sched (seq 0 n) -> Forall (fun i => (i < n)%nat) sched.
Proof.
  intros HP. apply Forall_forall. intros i Hi.
  apply (Permutation_in _ HP), in_seq in Hi. lia.
Qed.

Section GatherFacts.

Context {A : Type} (tasks : list (M A)).

Lemma complete_valid acc i t :
  nth_error tasks i = Some t ->
  complete tasks acc i = (fst (t (fst acc)), (i, snd (t (fst acc))) :: snd acc).
Proof.
  intros H. unfold complete. rewrite H.
  destruct (t (fst acc)); reflexivity.
Qed.

(** A quantity [mu] to which the task at position [i] adds [d i], under an
    invariant of the driver that every task keeps. *)
Lemma fold_complete_measure (Inv : StressTester -> Prop)
    (mu : StressTester -> Z) (d : nat -> Z) :
  (forall i t s, nth_error tasks i = Some t -> Inv s ->
                 Inv (fst (t s)) /\ mu (fst (t s)) = mu s + d i) ->
  forall sched acc,
    Forall (fun i => (i < List.length tasks)%nat) sched ->
    Inv (fst acc) ->
    Inv (fst (fold_left (complete tasks) sched acc)) /\
    mu (fst (fold_left (complete tasks) sched acc)) =
      mu (fst acc) + zsum (map d sched).
Proof.
  intros Hstep sched. induction sched as [|i sched IH]; intros acc Hv Hinv.
  - simpl. split; [assumption | lia].
  - inversion Hv as [|? ? Hi Hv']; subst.
    destruct (nth_error tasks i) as [t|] eqn:Ht;
      [|apply nth_error_None in Ht; lia].
    cbn [fold_left]. rewrite (complete_valid acc i t Ht).
    destruct (Hstep i t (fst acc) Ht Hinv) as [Hinv' Hmu].
    destruct (IH (fst (t (fst acc)), (i, snd (t (fst acc))) :: snd acc)
                Hv' Hinv') as [H1 H2].
    split; [exact H1|]. rewrite H2. cbn [fst map zsum fold_right].
    rewrite Hmu. unfold zsum. lia.
Qed.

(** Every completed position is recorded. *)
Lemma fold_complete_done sched : forall acc i,
  In i (map fst (snd acc)) \/
    (In i sched /\ (i < List.length tasks)%nat) ->
  In i (map fst (snd (fold_left (complete tasks) sched acc))).
Proof.
  induction sched as [|j sched IH]; intros acc i H.
  - simpl. destruct H as [H | [[] _]]. exact H.
  - cbn [fold_left]. apply IH.
    destruct H as [H | [[Hj | Hin] Hlt]].
    + left. unfold complete. destruct (nth_error tasks j); [|exact H].
      destruct (m (fst acc)). simpl. right. exact H.
    + subst j. left.
      destruct (nth_error tasks i) as [t|] eqn:Ht;
        [|apply nth_error_None in Ht; lia].
      rewrite (complete_valid acc i t Ht). simpl. left. reflexivity.
    + right. split; assumption.
Qed.

(** What is recorded is what some task returned. *)
Lemma fold_complete_entries (P : Outcome A -> Prop) :
  (forall i t s, nth_error tasks i = Some t -> P (snd (t s))) ->
  forall sched acc,
    Forall (fun p => P (snd p)) (snd acc) ->
    Forall (fun p => P (snd p)) (snd (fold_left (complete tasks) sched acc)).
Proof.
  intros HP sched. induction sched as [|j sched IH]; intros acc H.
  - exact H.
  - cbn [fold_left]. apply IH. unfold complete.
    destruct (nth_error tasks j) as [t|] eqn:Ht; [|exact H].
    specialize (HP j t (fst acc) Ht).
    destruct (t (fst acc)). simpl in *. constructor; assumption.
Qed.

Lemma assoc_in {B} i (done : list (nat * B)) :
  In i (map fst done) -> exists a, assoc i done = Some a /\ In (i, a) done.
Proof.
  induction done as [|[j a] done IH]; simpl; [intros []|].
  intros H. destruct (Nat.eqb i j) eqn:E.
  - apply Nat.eqb_eq in E. subst j. exists a. split; [reflexivity | now left].
  - destruct H as [H | H]; [apply Nat.eqb_neq in E; congruence|].
    destruct (IH H) as (a' & H1 & H2). exists a'. split; [exact H1 | now right].
Qed.

Lemma collect_some {B} (P : B -> Prop) (done : list (nat * B)) positions :
  Forall (fun p => P (snd p)) done ->
  Forall (fun i => In i (map fst done)) positions ->
  exists l, collect done positions = Some l /\
            List.length l = List.length positions /\ Forall P l.
Proof.
  intros HP. induction positions as [|i positions IH]; intros H.
  - exists []. simpl. auto.
  - inversion H as [|? ? Hi H']; subst.
    destruct (assoc_in i done Hi) as (a & Ha & Hin).
    destruct (IH H') as (l & Hl & Hlen & Hall).
    exists (a :: l). simpl. rewrite Ha, Hl. repeat split.
    + now rewrite Hlen.
    + constructor; [|exact Hall].
      rewrite Forall_forall in HP. exact (HP _ Hin).
Qed.

(** [gather] on an execution: all tasks complete, as many results as tasks,
    each one the outcome of a task. *)
Lemma gather_total (P : Outcome A -> Prop) sched s :
  (forall i t s0, nth_error tasks i = Some t -> P (snd (t s0))) ->
  Permutation sched (seq 0 (List.length tasks)) ->
  exists rs,
    gather tasks sched s =
      Some (fst (fold_left (complete tasks) sched (s, [])), rs) /\
    List.length rs = List.length tasks /\ Forall P rs.
Proof.
  intros HP Hperm. unfold gather.
  pose proof (Permutation_length Hperm) as Hlen. rewrite length_seq in Hlen.
  rewrite Hlen, Nat.eqb_refl.
  destruct (fold_left (complete tasks) sched (s, [])) as [s' done] eqn:E.
  assert (Hdone : Forall (fun i => In i (map fst done))
                    (seq 0 (List.length tasks))).
  { apply Forall_forall. intros i Hi.
    pose proof (fold_complete_done sched (s, []) i) as H.
    rewrite E in H. apply H. right. split.
    - apply (Permutation_in _ (Permutation_sym Hperm)). exact Hi.
    - apply in_seq in Hi. lia. }
  assert (Hent : Forall (fun p => P (snd p)) done).
  { pose proof (fold_complete_entries P HP sched (s, [])) as H.
    rewrite E in H. apply H. constructor. }
  destruct (collect_some P done _ Hent Hdone) as (l & Hl & Hlen' & Hall).
  exists l. rewrite Hl. rewrite length_seq in Hlen'. auto.
Qed.

(** A schedule that is no execution gives nothing; conversely a result
    means that the schedule has the length of the batch. *)
Lemma gather_some sched s s' rs :
  gather tasks sched s = Some (s', rs) ->
  List.length sched = List.length tasks /\
  s' = fst (fold_left (complete tasks) sched (s, [])).
Proof.
  unfold gather. destruct (Nat.eqb _ _) eqn:E; [|discriminate].
  apply Nat.eqb_eq in E.
  destruct (fold_left (complete tasks) sched (s, [])) as [s1 done].
  destruct (collect done _); [|discriminate].
  intros H. inversion H. auto.
Qed.

End GatherFacts.

Section GatherOrder.

Context {A : Type} (tasks : list (M A)).

(** A preorder on drivers that every task respects is respected by the
    whole schedule, whatever it is. *)
Lemma fold_complete_preorder (R : StressTester -> StressTester -> Prop) :
  (forall s, R s s) ->
  (forall s1 s2 s3, R s1 s2 -> R s2 s3 -> R s1 s3) ->
  (forall i t s, nth_error tasks i = Some t -> R s (fst (t s))) ->
  forall sched acc, R (fst acc) (fst (fold_left (complete tasks) sched acc)).
Proof.
  intros Hrefl Htrans Hstep sched.
  induction sched as [|i sched IH]; intros acc; [apply Hrefl|].
  cbn [fold_left]. eapply Htrans; [|apply IH].
  unfold complete. destruct (nth_error tasks i) as [t|] eqn:Ht; [|apply Hrefl].
  specialize (Hstep i t (fst acc) Ht).
  destruct (t (fst acc)). exact Hstep.
Qed.

End GatherOrder.

Lemma batch_tasks_nth batch i t :
  nth_error (batch_tasks batch) i = Some t ->
  exists p, nth_error batch i = Some p /\ t = make_request (fst p) (snd p).
Proof.
  unfold batch_tasks. rewrite nth_error_map.
  destruct (nth_error batch i) as [p|]; simpl; [|discriminate].
  intros H. inversion H. eauto.
Qed.

Lemma batch_tasks_length batch :
  List.length (batch_tasks batch) = List.length batch.
Proof. apply length_map. Qed.

(** The outcome of the HTTP call depends on the driver through its session
    only. *)
Lemma http_call_session rq ex s1 s2 :
  session s1 = session s2 ->
  snd (http_call rq ex s1) = snd (http_call rq ex s2).
Proof.
  intros H. unfold http_call, session_call, bind, get_self, raise, ret.
  destruct (String.eqb (method rq) "GET");
    [|destruct (String.eqb (method rq) "POST")];
    rewrite ?H; try reflexivity;
    (destruct (session s2) as [c|]; [|reflexivity]);
    (destruct (closed c); [reflexivity|]);
    destruct (reply ex); reflexivity.
Qed.

(** A batch on an execution: it returns one dictionary per descriptor, keeps
    the session, and a quantity [mu] to which the request [p] adds [d p]
    ends up increased by the sum of the [d p]. *)
Lemma runBatch_measure (mu : StressTester -> Z) (d : Request * Exchange -> Z)
    batch sched s :
  (forall p s1, In p batch -> session s1 = session s ->
                mu (fst (make_request (fst p) (snd p) s1)) = mu s1 + d p) ->
  Permutation sched (seq 0 (List.length batch)) ->
  exists s' rs,
    runBatch batch sched s = Some (s', rs) /\
    List.length rs = List.length batch /\
    Forall (fun r => exists d, r = inr d) rs /\
    session s' = session s /\
    mu s' = mu s + zsum (map d batch).
Proof.
  intros Hstep Hperm. unfold runBatch.
  rewrite <- batch_tasks_length in Hperm.
  destruct (gather_total (batch_tasks batch)
              (fun r => exists d, r = inr d) sched s) as (rs & Hg & Hlen & Hall).
  { intros i t s0 Ht. apply batch_tasks_nth in Ht.
    destruct Ht as (p & _ & ->). apply make_request_returns. }
  { exact Hperm. }
  set (d' := fun i => match nth_error batch i with
                      | Some p => d p
                      | None => 0
                      end).
  destruct (fold_complete_measure (batch_tasks batch)
              (fun s1 => session s1 = session s) mu d') with
    (sched := sched) (acc := (s, @nil (nat * Outcome Response)))
    as [Hsess Hmu].
  { intros i t s1 Ht Hs1. apply batch_tasks_nth in Ht.
    destruct Ht as (p & Hp & ->). split.
    - rewrite make_request_session. exact Hs1.
    - unfold d'. rewrite Hp. apply Hstep; [|exact Hs1].
      eapply nth_error_In; eauto. }
  { apply permutation_seq_bound. exact Hperm. }
  { reflexivity. }
  eexists _, rs. split; [exact Hg|].
  rewrite batch_tasks_length in Hlen, Hperm.
  repeat split; try assumption.
  rewrite Hmu. cbn [fst]. f_equal.
  rewrite (zsum_permutation _ _ (Permutation_map d' Hperm)).
  unfold d'. rewrite (map_nth_error_seq
    (fun o => match o with Some p => d p | None => 0 end) batch).
  reflexivity.
Qed.

Lemma total_make_request rq ex s :
  total (fst (make_request rq ex s)) = total s + 1.
Proof.
  unfold total. destruct (make_request_counts rq ex s) as [[H1 H2] | [H1 H2]];
    rewrite H1, H2; lia.
Qed.

Lemma authenticated_tasks_batch token count env :
  authenticated_tasks token count env =
  batch_tasks (authenticated_batch token count env).
Proof.
  unfold authenticated_tasks, batch_tasks, authenticated_batch.
  rewrite map_map. apply map_ext. intros i.
  destruct (nth (i mod List.length endpoints) endpoints ("", "")).
  reflexivity.
Qed.

Lemma authenticated_batch_length token count env :
  List.length (authenticated_batch token count env) = count.
Proof. unfold authenticated_batch. now rewrite length_map, length_seq. Qed.

(** ** Statistics *)

Lemma insert_sorted_permutation x l : Permutation (insert_sorted x l) (x :: l).
Proof.
  induction l as [|y l IH]; simpl; [reflexivity|].
  destruct (Qle_bool x y); [reflexivity|].
  rewrite IH. apply perm_swap.
Qed.

(** [sorted] rearranges its argument ... *)
Lemma sorted_permutation l : Permutation (sorted l) l.
Proof.
  induction l as [|x l IH]; simpl; [reflexivity|].
  rewrite insert_sorted_permutation. now constructor.
Qed.

Lemma sorted_length l : List.length (sorted l) = List.length l.
Proof. apply Permutation_length, sorted_permutation. Qed.

Lemma insert_sorted_ordered x l :
  Sorted Qle l -> Sorted Qle (insert_sorted x l).
Proof.
  induction l as [|y l IH]; intros H; simpl.
  - repeat constructor.
  - destruct (Qle_bool x y) eqn:E.
    + constructor; [exact H|]. constructor. now apply Qle_bool_iff.
    + assert (Hyx : (y <= x)%Q).
      { apply Qlt_le_weak, Qnot_le_lt. intros Hc.
        apply Qle_bool_iff in Hc. congruence. }
      inversion H as [|? ? Hs Hh]; subst.
      constructor; [now apply IH|].
      destruct l as [|z l]; simpl.
      * now constructor.
      * destruct (Qle_bool x z); constructor; [exact Hyx|].
        inversion Hh; assumption.
Qed.

(** ... into ascending order. *)
Lemma sorted_ordered l : Sorted Qle (sorted l).
Proof.
  induction l as [|x l IH]; simpl; [constructor|].
  now apply insert_sorted_ordered.
Qed.

Lemma len_sorted l : len (sorted l) = len l.
Proof. unfold len. now rewrite sorted_length. Qed.

Lemma getitem_in_range {A} (l : list A) i :
  0 <= i < len l -> exists a, getitem l i = inr a.
Proof.
  intros [H0 H1]. unfold getitem.
  destruct (i <? 0) eqn:E; [apply Z.ltb_lt in E; lia|]. rewrite E.
  destruct (nth_error l (Z.to_nat i)) as [a|] eqn:Hn; [eauto|].
  apply nth_error_None in Hn. unfold len in H1. lia.
Qed.

Lemma percentile_index_in_range n :
  1 <= n -> 0 <= percentile_index n < n.
Proof.
  intros H. rewrite percentile_index_div by lia.
  split; [apply Z.div_pos; lia | apply Z.div_lt_upper_bound; lia].
Qed.

Lemma percentile_95_returns l :
  l <> [] -> exists x, percentile_95 l = inr x.
Proof.
  intros H. unfold percentile_95. apply getitem_in_range.
  rewrite len_sorted. apply percentile_index_in_range.
  unfold len. destruct l; [congruence | simpl; lia].
Qed.

Lemma mean_returns l : l <> [] -> exists x, mean l = inr x.
Proof.
  intros H. unfold mean.
  destruct (len l <? 1) eqn:E; [|eauto].
  apply Z.ltb_lt in E. unfold len in E. destruct l; [congruence | simpl in E; lia].
Qed.

Lemma median_returns l : l <> [] -> exists x, median l = inr x.
Proof.
  intros H. unfold median. rewrite len_sorted.
  assert (Hn : 1 <= len l).
  { unfold len. destruct l; [congruence | simpl; lia]. }
  destruct (len l =? 0) eqn:E0; [apply Z.eqb_eq in E0; lia|].
  pose proof (Z.div_mod (len l) 2 ltac:(lia)) as Hd.
  pose proof (Z.mod_pos_bound (len l) 2 ltac:(lia)) as Hm.
  destruct (len l mod 2 =? 1) eqn:E1.
  - apply getitem_in_range. rewrite len_sorted. apply Z.eqb_eq in E1. lia.
  - apply Z.eqb_neq in E1.
    destruct (getitem_in_range (sorted l) (len l / 2 - 1)) as [a Ha];
      [rewrite len_sorted; lia|].
    destruct (getitem_in_range (sorted l) (len l / 2)) as [b Hb];
      [rewrite len_sorted; lia|].
    rewrite Ha, Hb. eauto.
Qed.

Lemma max_returns l : l <> [] -> exists x, max l = inr x.
Proof. destruct l; [congruence | simpl; eauto]. Qed.

(** The statistics block never raises. *)
Lemma response_time_stats_returns times :
  exists o, response_time_stats times = inr o.
Proof.
  destruct times as [|t times]; [simpl; eauto|].
  assert (H : t :: times <> []) by discriminate.
  unfold response_time_stats.
  destruct (mean_returns _ H) as [a ->].
  destruct (median_returns _ H) as [m ->].
  destruct (percentile_95_returns _ H) as [p ->].
  destruct (max_returns _ H) as [x ->].
  simpl. eauto.
Qed.

(** The results phase reads the driver and leaves it as it was. *)
Lemma response_time_figures_returns times :
  exists f, response_time_figures times = inr f.
Proof.
  destruct times as [|t times]; [simpl; eauto|].
  assert (H : t :: times <> []) by discriminate.
  unfold response_time_figures.
  destruct (mean_returns _ H) as [a ->].
  destruct (percentile_95_returns _ H) as [p ->].
  simpl. eauto.
Qed.

(** The results phase reads the driver, leaves it as it was, and never
    raises. *)
Lemma results_phase_returns s :
  exists f,
    response_time_figures (response_times (results s)) = inr f /\
    results_phase s =
      (s, inr {| total_requests :=
                   success_count (results s) + error_count (results s);
                 successful := success_count (results s);
                 failed := error_count (results s);
                 average_response_time := fst f;
                 percentile_95th := snd f |}).
Proof.
  destruct (response_time_figures_returns (response_times (results s)))
    as [f Hf].
  exists f. split; [exact Hf|].
  unfold results_phase, bind, get_self, lift, ret. rewrite Hf. reflexivity.
Qed.

Lemma results_phase_state s : fst (results_phase s) = s.
Proof.
  destruct (results_phase_returns s) as (f & _ & ->). reflexivity.
Qed.

(** * The claims *)

(** C1: a batch of N request descriptors, gathered on any execution order,
    returns exactly N results and raises [success_count + error_count] by N;
    so does the batch of [count] requests of [test_authenticated_operations];
    and every call of [make_request], in whatever driver and with whatever
    exchange, raises exactly one of the two counters by exactly one. *)
Theorem batch_accounting batch sched token count env sched' rq ex s :
  Permutation sched (seq 0 (List.length batch)) ->
  Permutation sched' (seq 0 count) ->
  (exists s' rs,
     runBatch batch sched s = Some (s', rs) /\
     List.length rs = List.length batch /\
     total s' = total s + len batch) /\
  (exists s' run,
     test_authenticated_operations token count env sched' s =
       Some (s', inr run) /\
     List.length (run_results run) = count /\
     total s' = total s + Z.of_nat count) /\
  counts_one_request s (fst (make_request rq ex s)).
Proof.
  intros Hperm Hperm'. split; [|split].
  - destruct (runBatch_measure total (fun _ => 1) batch sched s)
      as (s' & rs & Hrun & Hlen & _ & _ & Hmu).
    { intros p s1 _ _. apply total_make_request. }
    { exact Hperm. }
    exists s', rs. rewrite zsum_map_const in Hmu. auto.
  - pose proof (authenticated_batch_length token count env) as Hcount.
    destruct (runBatch_measure total (fun _ => 1)
                (authenticated_batch token count env) sched' s)
      as (s' & rs & Hrun & Hlen & _ & _ & Hmu).
    { intros p s1 _ _. apply total_make_request. }
    { rewrite Hcount. exact Hperm'. }
    unfold runBatch in Hrun. rewrite <- authenticated_tasks_batch in Hrun.
    unfold test_authenticated_operations. rewrite Hrun.
    destruct (response_time_stats_returns (valid_times rs)) as [st Hst].
    rewrite Hst. cbn [obind].
    eexists s', _. split; [reflexivity|]. cbn [run_results].
    rewrite zsum_map_const in Hmu. unfold len in Hmu.
    rewrite Hcount in Hlen, Hmu. auto.
  - apply make_request_counts.
Qed.

Lemma batch_accounting_witness :
  Permutation [1; 0; 2]%nat (seq 0 (List.length sample_batch)) /\
  Permutation [1; 0]%nat (seq 0 2) /\
  (exists s' rs,
     runBatch sample_batch [1; 0; 2]%nat open_driver = Some (s', rs) /\
     List.length rs = List.length sample_batch /\
     total s' = total open_driver + len sample_batch) /\
  (exists s' run,
     test_authenticated_operations "token" 2
       (fun _ => exchange (Responded 200 "{}")) [1; 0]%nat open_driver =
       Some (s', inr run) /\
     List.length (run_results run) = 2%nat /\
     total s' = total open_driver + Z.of_nat 2) /\
  counts_one_request open_driver
    (fst (make_request get_profile (exchange (Responded 404 "Not Found"))
            open_driver)).
Proof.
  assert (H1 : Permutation [1; 0; 2]%nat (seq 0 (List.length sample_batch)))
    by (simpl; apply perm_swap).
  assert (H2 : Permutation [1; 0]%nat (seq 0 2)) by (simpl; apply perm_swap).
  split; [exact H1|]. split; [exact H2|].
  exact (batch_accounting sample_batch [1; 0; 2]%nat "token" 2%nat
           (fun _ => exchange (Responded 200 "{}")) [1; 0]%nat
           get_profile (exchange (Responded 404 "Not Found")) open_driver
           H1 H2).
Defined.

(** C2: whenever the HTTP call of a request raises, [make_request] does not
    raise: it returns the dictionary with status 0, the error text as body
    and response time 0, and [error_count] has gone up by one. *)
Theorem exception_not_propagated rq ex s s1 e :
  http_call rq ex s = (s1, inl e) ->
  exists s',
    make_request rq ex s =
      (s', inr {| status := 0; body := str e; response_time := 0 |}) /\
    error_count (results s') = error_count (results s) + 1.
Proof.
  intros H. exists (after_exception rq e s). split.
  - eapply make_request_raised; eauto.
  - reflexivity.
Qed.

Lemma exception_not_propagated_witness :
  http_call get_profile (exchange (Raised connection_refused)) open_driver =
    (open_driver, inl connection_refused) /\
  exists s',
    make_request get_profile (exchange (Raised connection_refused))
      open_driver =
      (s', inr {| status := 0; body := str connection_refused;
                  response_time := 0 |}) /\
    error_count (results s') = error_count (results open_driver) + 1.
Proof.
  split; [reflexivity|].
  apply (exception_not_propagated get_profile
           (exchange (Raised connection_refused)) open_driver open_driver
           connection_refused).
  reflexivity.
Defined.

Lemma http_call_eq rq ex s : http_call rq ex s = (s, snd (http_call rq ex s)).
Proof.
  pose proof (http_call_state rq ex s) as H.
  destruct (http_call rq ex s) as [s1 o]. simpl in *. now subst.
Qed.

(** C4: when every request of a batch of N receives status 500, the batch
    raises [error_count] by N and leaves [success_count] as it was. *)
Theorem always_500_batch batch sched s :
  Forall (fun p => exists b,
            snd (http_call (fst p) (snd p) s) = inr (500, b)) batch ->
  Permutation sched (seq 0 (List.length batch)) ->
  exists s' rs,
    runBatch batch sched s = Some (s', rs) /\
    error_count (results s') = error_count (results s) + len batch /\
    success_count (results s') = success_count (results s).
Proof.
  intros H500 Hperm. rewrite Forall_forall in H500.
  assert (Hstep : forall p s1, In p batch -> session s1 = session s ->
            exists b, make_request (fst p) (snd p) s1 =
              (after_response (fst p) (snd p) 500 b s1,
               inr {| status := 500; body := b;
                      response_time :=
                        ((end_time (snd p) - start_time (snd p)) * 1000)%Q |})).
  { intros p s1 Hin Hs. destruct (H500 p Hin) as [b Hb]. exists b.
    pose proof (http_call_eq (fst p) (snd p) s1) as Hc.
    rewrite (http_call_session _ _ s1 s Hs), Hb in Hc.
    eapply make_request_responded; eauto. }
  destruct (runBatch_measure (fun s => error_count (results s)) (fun _ => 1)
              batch sched s) as (s' & rs & Hrun & _ & _ & _ & He).
  { intros p s1 Hin Hs. destruct (Hstep p s1 Hin Hs) as [b ->]. cbn [fst].
    now rewrite error_count_after_response. }
  { exact Hperm. }
  destruct (runBatch_measure (fun s => success_count (results s)) (fun _ => 0)
              batch sched s) as (s2 & rs2 & Hrun2 & _ & _ & _ & Hs).
  { intros p s1 Hin Hs. destruct (Hstep p s1 Hin Hs) as [b ->]. cbn [fst].
    now rewrite success_count_after_response. }
  { exact Hperm. }
  rewrite Hrun in Hrun2. inversion Hrun2; subst s2 rs2.
  exists s', rs. split; [exact Hrun|]. split.
  - rewrite He, zsum_map_const. reflexivity.
  - rewrite Hs. clear. induction batch; simpl in *; lia.
Qed.

Lemma always_500_batch_witness :
  Forall (fun p => exists b,
            snd (http_call (fst p) (snd p) open_driver) = inr (500, b))
    always_500 /\
  Permutation [1; 0]%nat (seq 0 (List.length always_500)) /\
  exists s' rs,
    runBatch always_500 [1; 0]%nat open_driver = Some (s', rs) /\
    error_count (results s') =
      error_count (results open_driver) + len always_500 /\
    success_count (results s') = success_count (results open_driver).
Proof.
  assert (H1 : Forall (fun p => exists b,
                 snd (http_call (fst p) (snd p) open_driver) = inr (500, b))
                 always_500).
  { repeat constructor; eexists; reflexivity. }
  assert (H2 : Permutation [1; 0]%nat (seq 0 (List.length always_500)))
    by (simpl; apply perm_swap).
  split; [exact H1|]. split; [exact H2|].
  exact (always_500_batch always_500 [1; 0]%nat open_driver H1 H2).
Defined.

(** C9: [error_count] is the length of [errors] in a new driver, and
    [make_request] keeps it so: a call either raises [error_count] by one
    and appends exactly one entry to [errors], or touches neither. *)
Theorem error_count_is_errors_length rq ex s :
  error_count (results s) = len (errors (results s)) ->
  error_count (results __init__) = len (errors (results __init__)) /\
  error_count (results (fst (make_request rq ex s))) =
    len (errors (results (fst (make_request rq ex s)))) /\
  ((error_count (results (fst (make_request rq ex s))) =
      error_count (results s) + 1 /\
    exists entry,
      errors (results (fst (make_request rq ex s))) =
        (errors (results s) ++ [entry])%list)
   \/
   (error_count (results (fst (make_request rq ex s))) =
      error_count (results s) /\
    errors (results (fst (make_request rq ex s))) = errors (results s))).
Proof.
  intros Hinv. split; [reflexivity|].
  assert (Hlen : forall (l : list ErrorEntry) x, len (l ++ [x]) = len l + 1).
  { intros l x. unfold len. rewrite length_app. simpl. lia. }
  destruct (make_request_cases rq ex s) as [(e & _ & H) | (st & b & _ & H)];
    rewrite H; cbn [fst].
  - split.
    + simpl. rewrite Hlen. lia.
    + left. split; [reflexivity|]. eexists. reflexivity.
  - rewrite error_count_after_response, errors_after_response.
    destruct (st <? 400).
    + rewrite app_nil_r. split; [lia|]. right. split; [lia | reflexivity].
    + rewrite Hlen. split; [lia|]. left. split; [lia|]. eexists. reflexivity.
Qed.

Lemma error_count_is_errors_length_witness :
  error_count (results open_driver) = len (errors (results open_driver)) /\
  error_count (results __init__) = len (errors (results __init__)) /\
  error_count (results (fst (make_request get_profile
                               (exchange (Responded 503 "busy")) open_driver))) =
    len (errors (results (fst (make_request get_profile
                                 (exchange (Responded 503 "busy"))
                                 open_driver)))) /\
  ((error_count (results (fst (make_request get_profile
                                 (exchange (Responded 503 "busy"))
                                 open_driver))) =
      error_count (results open_driver) + 1 /\
    exists entry,
      errors (results (fst (make_request get_profile
                              (exchange (Responded 503 "busy")) open_driver))) =
        (errors (results open_driver) ++ [entry])%list)
   \/
   (error_count (results (fst (make_request get_profile
                                 (exchange (Responded 503 "busy"))
                                 open_driver))) =
      error_count (results open_driver) /\
    errors (results (fst (make_request get_profile
                            (exchange (Responded 503 "busy")) open_driver))) =
      errors (results open_driver))).
Proof.
  split; [reflexivity|].
  exact (error_count_is_errors_length get_profile
           (exchange (Responded 503 "busy")) open_driver eq_refl).
Defined.

Lemma zsum_indicator {A} (f : A -> bool) (l : list A) :
  zsum (map (fun x => if f x then 1 else 0) l) = len (filter f l).
Proof.
  unfold len. induction l as [|x l IH]; [reflexivity|].
  cbn [map zsum fold_right filter]. unfold zsum in IH. rewrite IH.
  destruct (f x); simpl List.length; lia.
Qed.

(** C10: when the HTTP call raises, [make_request] leaves [response_times]
    as it was and returns a dictionary whose [response_time] is 0; so a
    batch adds to [response_times] one entry for each request whose HTTP call
    returned a response, whatever its status, and none for the others. *)
Theorem no_latency_on_exception rq ex s s1 e batch sched :
  http_call rq ex s = (s1, inl e) ->
  Permutation sched (seq 0 (List.length batch)) ->
  (response_times (results (fst (make_request rq ex s))) =
     response_times (results s) /\
   exists r, snd (make_request rq ex s) = inr r /\ response_time r = 0%Q) /\
  (exists s' rs,
     runBatch batch sched s = Some (s', rs) /\
     len (response_times (results s')) =
       len (response_times (results s)) + len (filter (responds s) batch)).
Proof.
  intros Hraise Hperm. split.
  - rewrite (make_request_raised _ _ _ _ _ Hraise). cbn [fst snd]. split.
    + reflexivity.
    + eexists. split; reflexivity.
  - destruct (runBatch_measure (fun s => len (response_times (results s)))
                (fun p => if responds s p then 1 else 0) batch sched s)
      as (s' & rs & Hrun & _ & _ & _ & Hmu).
    { intros p s1' _ Hs. unfold responds.
      rewrite <- (http_call_session _ _ s1' s Hs).
      pose proof (http_call_eq (fst p) (snd p) s1') as Hc.
      destruct (snd (http_call (fst p) (snd p) s1')) as [e' | [st b]].
      - rewrite (make_request_raised _ _ _ _ _ Hc). simpl. lia.
      - rewrite (make_request_responded _ _ _ _ _ _ Hc). cbn [fst].
        rewrite response_times_after_response. unfold len.
        rewrite length_app. simpl. lia. }
    { exact Hperm. }
    exists s', rs. split; [exact Hrun|]. rewrite Hmu, zsum_indicator.
    reflexivity.
Qed.

Lemma no_latency_on_exception_witness :
  http_call get_profile (exchange (Raised connection_refused)) open_driver =
    (open_driver, inl connection_refused) /\
  Permutation [1; 0; 2]%nat (seq 0 (List.length sample_batch)) /\
  (response_times (results (fst (make_request get_profile
       (exchange (Raised connection_refused)) open_driver))) =
     response_times (results open_driver) /\
   exists r, snd (make_request get_profile
                    (exchange (Raised connection_refused)) open_driver) = inr r
             /\ response_time r = 0%Q) /\
  (exists s' rs,
     runBatch sample_batch [1; 0; 2]%nat open_driver = Some (s', rs) /\
     len (response_times (results s')) =
       len (response_times (results open_driver)) +
       len (filter (responds open_driver) sample_batch)).
Proof.
  assert (H2 : Permutation [1; 0; 2]%nat (seq 0 (List.length sample_batch)))
    by (simpl; apply perm_swap).
  split; [reflexivity|]. split; [exact H2|].
  exact (no_latency_on_exception get_profile
           (exchange (Raised connection_refused)) open_driver open_driver
           connection_refused sample_batch [1; 0; 2]%nat eq_refl H2).
Defined.

Lemma counters_le_refl s : counters_le s s.
Proof. unfold counters_le. lia. Qed.

Lemma counters_le_trans s1 s2 s3 :
  counters_le s1 s2 -> counters_le s2 s3 -> counters_le s1 s3.
Proof. unfold counters_le. lia. Qed.

Lemma counters_le_make_request rq ex s :
  counters_le s (fst (make_request rq ex s)).
Proof.
  unfold counters_le.
  destruct (make_request_counts rq ex s) as [[H1 H2] | [H1 H2]];
    rewrite H1, H2; lia.
Qed.

Lemma counters_le_gather_requests batch sched s s' rs :
  gather (batch_tasks batch) sched s = Some (s', rs) -> counters_le s s'.
Proof.
  intros H. apply gather_some in H. destruct H as [_ ->].
  apply (fold_complete_preorder (batch_tasks batch) counters_le
           counters_le_refl counters_le_trans) with (acc := (s, [])).
  intros i t s0 Ht. apply batch_tasks_nth in Ht. destruct Ht as (p & _ & ->).
  apply counters_le_make_request.
Qed.

Lemma counters_le_operation op s s' :
  run_operation op s = Some s' -> counters_le s s'.
Proof.
  destruct op as [| | rq ex | batch sched | token count env sched |];
    cbn [run_operation]; intros H.
  - inversion H. unfold counters_le. simpl. lia.
  - inversion H. unfold counters_le, cleanup_session.
    destruct (session s); simpl; lia.
  - inversion H. apply counters_le_make_request.
  - unfold runBatch in H.
    destruct (gather (batch_tasks batch) sched s) as [[s1 rs]|] eqn:E;
      [|discriminate].
    inversion H; subst. eapply counters_le_gather_requests; eauto.
  - unfold test_authenticated_operations in H.
    rewrite authenticated_tasks_batch in H.
    destruct (gather _ sched s) as [[s1 rs]|] eqn:E; [|discriminate].
    inversion H; subst. eapply counters_le_gather_requests; eauto.
  - inversion H. rewrite results_phase_state. apply counters_le_refl.
Qed.

(** C8: over any sequence of operations of a run (opening and closing the
    session, single requests, batches, the results phase) neither
    [success_count] nor [error_count] ever decreases; a new driver has both
    at zero. *)
Theorem counters_monotone ops s s' :
  run_operations ops s = Some s' ->
  success_count (results s) <= success_count (results s') /\
  error_count (results s) <= error_count (results s') /\
  success_count (results __init__) = 0 /\
  error_count (results __init__) = 0.
Proof.
  intros H.
  assert (Hle : counters_le s s').
  { revert s H. induction ops as [|op ops IH]; intros s H; simpl in H.
    - inversion H. apply counters_le_refl.
    - destruct (run_operation op s) as [s1|] eqn:E; [|discriminate].
      eapply counters_le_trans; [eapply counters_le_operation; eauto|].
      apply IH. exact H. }
  destruct Hle as [H1 H2]. repeat split; assumption.
Qed.

Lemma counters_monotone_witness :
  exists s',
    run_operations sample_run __init__ = Some s' /\
    success_count (results __init__) <= success_count (results s') /\
    error_count (results __init__) <= error_count (results s') /\
    success_count (results __init__) = 0 /\
    error_count (results __init__) = 0.
Proof.
  eexists. split; [vm_compute; reflexivity|].
  apply (counters_monotone sample_run __init__). vm_compute. reflexivity.
Defined.

(** C5: with the recorded latencies [10, 20, 30, 40] the statistics block
    reports mean 25, median 25 and max 40, the results phase reports mean
    25, and the 95th percentile reported by both is the element that
    nearest-rank selection picks in the sorted sequence (rank 4, the value
    40). *)
Theorem statistics_of_four_latencies s :
  response_times (results s) = four_latencies ->
  (exists st,
     response_time_stats four_latencies = inr (Some st) /\
     (Average st == 25)%Q /\ (Median st == 25)%Q /\ (Max st == 40)%Q /\
     nearest_rank (len four_latencies) = 4 /\
     nearest_rank_percentile_95 four_latencies = inr (Percentile95 st)) /\
  (exists sm a p,
     results_phase s = (s, inr sm) /\
     average_response_time sm = Some a /\ (a == 25)%Q /\
     percentile_95th sm = Some p /\
     nearest_rank_percentile_95 four_latencies = inr p).
Proof.
  intros H. split.
  - eexists. split; [vm_compute; reflexivity|]. cbn [Average Median Max].
    repeat split; reflexivity.
  - destruct (results_phase_returns s) as (f & Hf & Hrun).
    rewrite H in Hf. vm_compute in Hf. inversion Hf; subst f.
    eexists _, _, _. split; [exact Hrun|]. cbn [average_response_time
      percentile_95th fst snd].
    repeat split; reflexivity.
Qed.

Lemma statistics_of_four_latencies_witness :
  response_times (results (driver_with_latencies four_latencies)) =
    four_latencies /\
  (exists st,
     response_time_stats four_latencies = inr (Some st) /\
     (Average st == 25)%Q /\ (Median st == 25)%Q /\ (Max st == 40)%Q /\
     nearest_rank (len four_latencies) = 4 /\
     nearest_rank_percentile_95 four_latencies = inr (Percentile95 st)) /\
  (exists sm a p,
     results_phase (driver_with_latencies four_latencies) =
       (driver_with_latencies four_latencies, inr sm) /\
     average_response_time sm = Some a /\ (a == 25)%Q /\
     percentile_95th sm = Some p /\
     nearest_rank_percentile_95 four_latencies = inr p).
Proof.
  split; [reflexivity|].
  exact (statistics_of_four_latencies (driver_with_latencies four_latencies)
           eq_refl).
Defined.

(** C6, as stated, fails: on twenty latencies 1, ..., 20 the code reports
    20 (index 19 of the sorted copy), nearest rank is 19 (rank 19). *)
Lemma percentile_95_not_nearest_rank :
  ~ (forall l, l <> [] -> percentile_95 l = nearest_rank_percentile_95 l).
Proof.
  intros H. specialize (H twenty_latencies ltac:(discriminate)).
  vm_compute in H. discriminate.
Qed.

Lemma nearest_rank_off_multiples n :
  n mod 20 <> 0 -> nearest_rank n - 1 = 19 * n / 20.
Proof.
  intros H. rewrite nearest_rank_div.
  pose proof (Z.div_mod n 20 ltac:(lia)) as H1.
  pose proof (Z.mod_pos_bound n 20 ltac:(lia)) as H2.
  pose proof (Z.div_mod (19 * n) 20 ltac:(lia)) as H3.
  pose proof (Z.mod_pos_bound (19 * n) 20 ltac:(lia)) as H4.
  pose proof (Z.div_mod (19 * n + 19) 20 ltac:(lia)) as H5.
  pose proof (Z.mod_pos_bound (19 * n + 19) 20 ltac:(lia)) as H6.
  lia.
Qed.

Lemma nearest_rank_on_multiples n :
  n mod 20 = 0 -> nearest_rank n = 19 * n / 20.
Proof.
  intros H. rewrite nearest_rank_div.
  pose proof (Z.div_mod n 20 ltac:(lia)) as H1.
  pose proof (Z.div_mod (19 * n) 20 ltac:(lia)) as H3.
  pose proof (Z.mod_pos_bound (19 * n) 20 ltac:(lia)) as H4.
  pose proof (Z.div_mod (19 * n + 19) 20 ltac:(lia)) as H5.
  pose proof (Z.mod_pos_bound (19 * n + 19) 20 ltac:(lia)) as H6.
  lia.
Qed.

(** C6 (amended): for every non-empty list of N recorded latencies the
    reported 95th percentile is the element at 0-based index
    floor(0.95 * N) of a sorted copy (a rearrangement of the list in
    ascending order).  When N is not a multiple of 20 that is the
    nearest-rank percentile, the element at 1-based rank ceil(0.95 * N);
    when N is a multiple of 20 it is the element one rank above it. *)
Theorem percentile_95_rank l :
  l <> [] ->
  Permutation (sorted l) l /\ Sorted Qle (sorted l) /\
  exists x,
    percentile_95 l = inr x /\
    getitem (sorted l) (19 * len l / 20) = inr x /\
    (len l mod 20 <> 0 -> nearest_rank_percentile_95 l = inr x) /\
    (len l mod 20 = 0 ->
     getitem (sorted l) (nearest_rank (len l) - 1 + 1) = inr x).
Proof.
  intros H. split; [apply sorted_permutation|]. split; [apply sorted_ordered|].
  destruct (percentile_95_returns l H) as [x Hx]. exists x.
  split; [exact Hx|].
  unfold percentile_95 in Hx. rewrite percentile_index_div in Hx
    by (unfold len; lia).
  split; [exact Hx|]. split; intros Hm.
  - unfold nearest_rank_percentile_95.
    rewrite nearest_rank_off_multiples by exact Hm. exact Hx.
  - rewrite nearest_rank_on_multiples by exact Hm.
    replace (19 * len l / 20 - 1 + 1) with (19 * len l / 20) by lia. exact Hx.
Qed.

Lemma percentile_95_rank_witness :
  four_latencies <> [] /\
  Permutation (sorted four_latencies) four_latencies /\
  Sorted Qle (sorted four_latencies) /\
  exists x,
    percentile_95 four_latencies = inr x /\
    getitem (sorted four_latencies) (19 * len four_latencies / 20) = inr x /\
    (len four_latencies mod 20 <> 0 ->
     nearest_rank_percentile_95 four_latencies = inr x) /\
    (len four_latencies mod 20 = 0 ->
     getitem (sorted four_latencies)
       (nearest_rank (len four_latencies) - 1 + 1) = inr x).
Proof.
  assert (H : four_latencies <> []) by discriminate.
  split; [exact H|]. exact (percentile_95_rank four_latencies H).
Defined.

(** C7: the statistics are a function of the recorded latencies alone and
    computing them changes nothing.  Two drivers with equal
    [response_times], whatever their other fields, get equal mean and 95th
    percentile from the results phase and equal mean, median, 95th
    percentile and max from the statistics block; the results phase returns
    the driver it was given, [response_times] included; and the statistics
    block of [test_authenticated_operations] leaves the driver as the
    gathered batch left it. *)
Theorem statistics_deterministic_and_pure s1 s2 token count env sched s s' out :
  response_times (results s1) = response_times (results s2) ->
  test_authenticated_operations token count env sched s = Some (s', out) ->
  (exists sm1 sm2,
     results_phase s1 = (s1, inr sm1) /\
     results_phase s2 = (s2, inr sm2) /\
     average_response_time sm1 = average_response_time sm2 /\
     percentile_95th sm1 = percentile_95th sm2) /\
  response_time_stats (response_times (results s1)) =
    response_time_stats (response_times (results s2)) /\
  response_times (results (fst (results_phase s1))) =
    response_times (results s1) /\
  (exists rs,
     gather (authenticated_tasks token count env) sched s = Some (s', rs) /\
     exists st,
       response_time_stats (valid_times rs) = inr st /\
       out = inr {| run_results := rs;
                    run_successful := count_status_200 rs;
                    run_stats := st |}).
Proof.
  intros Heq Hrun. split; [|split; [|split]].
  - destruct (results_phase_returns s1) as (f1 & Hf1 & H1).
    destruct (results_phase_returns s2) as (f2 & Hf2 & H2).
    rewrite Heq, Hf2 in Hf1. inversion Hf1; subst f1.
    eexists _, _. split; [exact H1|]. split; [exact H2|].
    split; reflexivity.
  - now rewrite Heq.
  - now rewrite results_phase_state.
  - unfold test_authenticated_operations in Hrun.
    destruct (gather (authenticated_tasks token count env) sched s)
      as [[s1' rs]|]; [|discriminate].
    inversion Hrun; subst. exists rs. split; [reflexivity|].
    destruct (response_time_stats_returns (valid_times rs)) as [st Hst].
    exists st. rewrite Hst. split; reflexivity.
Qed.

Lemma statistics_deterministic_and_pure_witness :
  response_times (results (driver_with_latencies four_latencies)) =
    response_times (results (other_driver_with_latencies four_latencies)) /\
  sample_authenticated =
    Some (fst sample_authenticated_end, snd sample_authenticated_end) /\
  (exists sm1 sm2,
     results_phase (driver_with_latencies four_latencies) =
       (driver_with_latencies four_latencies, inr sm1) /\
     results_phase (other_driver_with_latencies four_latencies) =
       (other_driver_with_latencies four_latencies, inr sm2) /\
     average_response_time sm1 = average_response_time sm2 /\
     percentile_95th sm1 = percentile_95th sm2) /\
  response_time_stats
    (response_times (results (driver_with_latencies four_latencies))) =
  response_time_stats
    (response_times (results (other_driver_with_latencies four_latencies))) /\
  response_times
    (results (fst (results_phase (driver_with_latencies four_latencies)))) =
  response_times (results (driver_with_latencies four_latencies)) /\
  (exists rs,
     gather (authenticated_tasks "token" 2
               (fun _ => exchange (Responded 200 "{}"))) [1; 0]%nat
       open_driver = Some (fst sample_authenticated_end, rs) /\
     exists st,
       response_time_stats (valid_times rs) = inr st /\
       snd sample_authenticated_end =
         inr {| run_results := rs;
                run_successful := count_status_200 rs;
                run_stats := st |}).
Proof.
  assert (H2 : sample_authenticated =
               Some (fst sample_authenticated_end,
                     snd sample_authenticated_end))
    by (vm_compute; reflexivity).
  split; [reflexivity|]. split; [exact H2|].
  exact (statistics_deterministic_and_pure
           (driver_with_latencies four_latencies)
           (other_driver_with_latencies four_latencies)
           "token" 2%nat (fun _ => exchange (Responded 200 "{}"))
           [1; 0]%nat open_driver
           (fst sample_authenticated_end) (snd sample_authenticated_end)
           eq_refl H2).
Defined.

(** * Further properties of the driver *)

(** ** Requests that never reach the network *)

(** X1: a method other than "GET" and "POST" (the comparison is exact, so
    "get" or "PUT" are such) makes no HTTP call: whatever the session and
    the server, [make_request] returns status 0 with the body
    "Unsupported method: <method>", records that as an error and records no
    latency. *)
Theorem unsupported_method_recorded rq ex s :
  method rq <> "GET" -> method rq <> "POST" ->
  make_request rq ex s =
    ({| session := session s;
        results :=
          {| response_times := response_times (results s);
             errors := errors (results s) ++
                       [RaisedError (endpoint rq)
                          ("Unsupported method: " ++ method rq)];
             success_count := success_count (results s);
             error_count := error_count (results s) + 1 |} |},
     inr {| status := 0; body := "Unsupported method: " ++ method rq;
            response_time := 0 |}).
Proof.
  intros HG HP.
  apply (make_request_raised rq ex s s
           (Exc "ValueError" ("Unsupported method: " ++ method rq))).
  unfold http_call.
  destruct (String.eqb_spec (method rq) "GET") as [E|_]; [contradiction|].
  destruct (String.eqb_spec (method rq) "POST") as [E|_]; [contradiction|].
  reflexivity.
Qed.

Lemma unsupported_method_recorded_witness :
  "get" <> "GET" /\ "get" <> "POST" /\
  snd (make_request {| method := "get"; endpoint := "/customers";
                       data := None; headers := None |}
         (exchange (Responded 200 "[]")) open_driver) =
    inr {| status := 0; body := "Unsupported method: get";
           response_time := 0 |}.
Proof.
  assert (H1 : "get" <> "GET") by discriminate.
  assert (H2 : "get" <> "POST") by discriminate.
  split; [exact H1|]. split; [exact H2|].
  rewrite (unsupported_method_recorded
             {| method := "get"; endpoint := "/customers";
                data := None; headers := None |}
             (exchange (Responded 200 "[]")) open_driver H1 H2).
  reflexivity.
Defined.

Lemma http_call_without_session rq ex s :
  session_open s = false -> exists e, http_call rq ex s = (s, inl e).
Proof.
  intros H. unfold http_call, session_call, bind, get_self, raise.
  unfold session_open in H.
  destruct (String.eqb (method rq) "GET");
    [|destruct (String.eqb (method rq) "POST")];
    try (eexists; reflexivity);
    (destruct (session s) as [c|]; [|eexists; reflexivity]);
    (destruct (closed c); [eexists; reflexivity | discriminate]).
Qed.

(** X2: on a driver without an open session (none was set up, or it has
    been closed) every request is recorded as an error, whatever the server
    would have answered: status 0 and response time 0 are returned,
    [error_count] goes up by one, one entry is appended to [errors], and
    [success_count] and [response_times] stay as they were. *)
Theorem request_without_open_session rq ex s :
  session_open s = false ->
  exists e,
    make_request rq ex s =
      ({| session := session s;
          results :=
            {| response_times := response_times (results s);
               errors := errors (results s) ++
                         [RaisedError (endpoint rq) (str e)];
               success_count := success_count (results s);
               error_count := error_count (results s) + 1 |} |},
       inr {| status := 0; body := str e; response_time := 0 |}).
Proof.
  intros H. destruct (http_call_without_session rq ex s H) as [e He].
  exists e. exact (make_request_raised rq ex s s e He).
Qed.

Lemma request_without_open_session_witness :
  session_open __init__ = false /\
  exists e,
    make_request get_profile (exchange (Responded 200 "{}")) __init__ =
      ({| session := session __init__;
          results :=
            {| response_times := response_times (results __init__);
               errors := errors (results __init__) ++
                         [RaisedError (endpoint get_profile) (str e)];
               success_count := success_count (results __init__);
               error_count := error_count (results __init__) + 1 |} |},
       inr {| status := 0; body := str e; response_time := 0 |}).
Proof.
  split; [reflexivity|].
  exact (request_without_open_session get_profile
           (exchange (Responded 200 "{}")) __init__ eq_refl).
Defined.

(** X3: [cleanup_session] leaves no open session whatever the driver was,
    and touches nothing else; so a request made after it is recorded as an
    error with status 0.  [setup_session] opens a session with a total
    timeout of 30 seconds and keeps the results. *)
Theorem session_lifecycle rq ex s :
  session_open (fst (cleanup_session s)) = false /\
  results (fst (cleanup_session s)) = results s /\
  (exists r, snd (make_request rq ex (fst (cleanup_session s))) = inr r /\
             status r = 0 /\ response_time r = 0%Q) /\
  session_open (fst (setup_session s)) = true /\
  option_map timeout_total (session (fst (setup_session s))) = Some 30 /\
  results (fst (setup_session s)) = results s.
Proof.
  assert (Hc : session_open (fst (cleanup_session s)) = false).
  { unfold cleanup_session, session_open. destruct (session s) as [c|] eqn:E.
    - reflexivity.
    - simpl. now rewrite E. }
  split; [exact Hc|]. split.
  { unfold cleanup_session. destruct (session s); reflexivity. }
  split.
  { destruct (http_call_without_session rq ex _ Hc) as [e He].
    rewrite (make_request_raised _ _ _ _ _ He).
    eexists. split; [reflexivity|]. split; reflexivity. }
  repeat split.
Qed.

(** ** The body kept in an error entry *)

Lemma append_assoc_string a b c : (a ++ b) ++ c = a ++ (b ++ c).
Proof. induction a as [|x a IH]; simpl; [reflexivity | now rewrite IH]. Qed.

Lemma join_app l1 l2 : join (l1 ++ l2)%list = join l1 ++ join l2.
Proof.
  unfold join. induction l1 as [|x l1 IH]; simpl; [reflexivity|].
  now rewrite IH, append_assoc_string.
Qed.

Lemma prefix_append a b : prefix a (a ++ b) = true.
Proof.
  induction a as [|c a IH]; simpl; [now destruct b|].
  destruct (ascii_dec c c) as [_|N]; [exact IH | congruence].
Qed.

Lemma characters_cons c d rest :
  characters (String c (String d rest)) =
    if is_continuation d then
      match characters (String d rest) with
      | first :: others => String c first :: others
      | [] => [String c EmptyString]
      end
    else String c EmptyString :: characters (String d rest).
Proof. reflexivity. Qed.

(** The characters of a string start with its first byte, and put
    together they give the string back. *)
Lemma characters_head c rest :
  exists t others,
    characters (String c rest) = String c t :: others /\
    t ++ join others = rest.
Proof.
  revert c. induction rest as [|d rest IH]; intros c.
  - exists EmptyString, []. split; reflexivity.
  - destruct (IH d) as (t & others & Hd & Hj).
    rewrite characters_cons, Hd. destruct (is_continuation d).
    + exists (String d t), others. split; [reflexivity|].
      cbn [append]. now rewrite Hj.
    + exists EmptyString, (String d t :: others). split; [reflexivity|].
      change (String d (t ++ join others) = String d rest). now rewrite Hj.
Qed.

Lemma join_characters b : join (characters b) = b.
Proof.
  destruct b as [|c rest]; [reflexivity|].
  destruct (characters_head c rest) as (t & others & Hd & Hj).
  rewrite Hd. change (String c (t ++ join others) = String c rest).
  now rewrite Hj.
Qed.

(** The pieces that [characters] cuts are characters, and each one after
    the first starts with a byte that opens a character. *)
Lemma characters_shape b :
  Forall character_shaped (characters b) /\
  Forall starts_fresh (tl (characters b)).
Proof.
  induction b as [|c rest [IHs IHf]]; [split; constructor|].
  destruct rest as [|d rest'].
  - split; [repeat constructor | constructor].
  - destruct (characters_head d rest') as (t & others & Hd & _).
    rewrite characters_cons. rewrite Hd in *. cbn [tl] in IHf.
    inversion IHs as [|? ? Hshape Hrest]. subst.
    destruct (is_continuation d) eqn:E.
    + split; [|exact IHf]. constructor; [|exact Hrest].
      cbn [character_shaped all_continuation] in *. now rewrite E, Hshape.
    + split; [constructor; [reflexivity | exact IHs]|].
      cbn [tl]. constructor; [exact E | exact IHf].
Qed.

Lemma characters_one_more c t rest pieces :
  all_continuation t = true ->
  (rest = EmptyString \/ starts_fresh rest) ->
  characters rest = pieces ->
  characters (String c (t ++ rest)) = String c t :: pieces.
Proof.
  revert c. induction t as [|d t IH]; intros c Ht Hrest Hpieces.
  - cbn [append characters]. destruct rest as [|e rest'].
    + now subst.
    + destruct Hrest as [Hc | Hc]; [discriminate|].
      cbn [starts_fresh] in Hc. rewrite Hc. now subst.
  - cbn [all_continuation] in Ht. apply andb_true_iff in Ht.
    destruct Ht as [Hd Ht].
    change (String c (String d t ++ rest))
      with (String c (String d (t ++ rest))).
    rewrite characters_cons, Hd, (IH d Ht Hrest Hpieces). reflexivity.
Qed.

(** Characters put together are cut into the same characters. *)
Lemma characters_join pieces :
  Forall character_shaped pieces ->
  Forall starts_fresh (tl pieces) ->
  characters (join pieces) = pieces.
Proof.
  induction pieces as [|x pieces IH]; intros Hs Hf; [reflexivity|].
  inversion Hs as [|? ? Hx Hrest]. subst.
  destruct x as [|c t]; [destruct Hx|]. cbn [character_shaped] in Hx.
  cbn [tl] in Hf.
  change (join (String c t :: pieces)) with (String c (t ++ join pieces)).
  apply characters_one_more; [exact Hx| |].
  - destruct pieces as [|y pieces']; [now left|].
    inversion Hf as [|? ? Hy _]. subst. right.
    destruct y as [|e u]; [destruct Hy|]. exact Hy.
  - apply IH; [exact Hrest|].
    destruct pieces as [|y pieces']; [constructor|].
    inversion Hf. assumption.
Qed.

Lemma firstn_tl {A} n (l : list A) :
  tl (firstn (S n) l) = firstn n (tl l).
Proof. destruct l; [now destruct n | reflexivity]. Qed.

(** What [body[:200]] keeps: the first 200 characters, an initial part of
    the body. *)
Lemma first_200_spec b :
  characters (first_200 b) = firstn 200 (characters b) /\
  prefix (first_200 b) b = true /\
  ((List.length (characters b) <= 200)%nat -> first_200 b = b).
Proof.
  unfold first_200.
  destruct (characters_shape b) as [Hs Hf]. split; [|split].
  - apply characters_join.
    + apply Forall_forall. intros x Hx.
      rewrite Forall_forall in Hs. apply Hs.
      rewrite <- (firstn_skipn 200 (characters b)). apply in_or_app.
      now left.
    + rewrite firstn_tl. apply Forall_forall. intros x Hx.
      rewrite Forall_forall in Hf. apply Hf.
      rewrite <- (firstn_skipn 199 (tl (characters b))). apply in_or_app.
      now left.
  - rewrite <- (join_characters b) at 2.
    rewrite <- (firstn_skipn 200 (characters b)) at 2.
    rewrite join_app. apply prefix_append.
  - intros H. rewrite firstn_all2 by exact H. apply join_characters.
Qed.

(** X4: when the server answers with a status of 400 or more, the entry
    appended to [errors] carries the endpoint, the status and the first 200
    characters of the body: they are an initial part of the body,
    min(200, len(body)) characters long, the whole body when it has at most
    200 characters.  The dictionary returned to the caller carries the
    whole body. *)
Theorem error_entry_body_truncated rq ex s s1 st b :
  http_call rq ex s = (s1, inr (st, b)) ->
  400 <= st ->
  exists kept,
    errors (results (fst (make_request rq ex s))) =
      (errors (results s) ++ [StatusError (endpoint rq) st kept])%list /\
    characters kept = firstn 200 (characters b) /\
    prefix kept b = true /\
    List.length (characters kept) =
      Nat.min 200 (List.length (characters b)) /\
    ((List.length (characters b) <= 200)%nat -> kept = b) /\
    exists r, snd (make_request rq ex s) = inr r /\ body r = b.
Proof.
  intros Hc Hst. exists (first_200 b).
  rewrite (make_request_responded _ _ _ _ _ _ Hc). cbn [fst snd].
  rewrite errors_after_response.
  assert (E : (st <? 400) = false) by (apply Z.ltb_ge; lia).
  rewrite E. destruct (first_200_spec b) as (Hchars & Hprefix & Hall).
  split; [reflexivity|]. split; [exact Hchars|]. split; [exact Hprefix|].
  split; [rewrite Hchars; apply length_firstn|].
  split; [exact Hall|].
  eexists. split; reflexivity.
Qed.

Lemma error_entry_body_truncated_witness :
  (List.length (characters cyrillic_body) = 250%nat /\
   String.length cyrillic_body = 500%nat /\
   List.length (characters (first_200 cyrillic_body)) = 200%nat /\
   String.length (first_200 cyrillic_body) = 400%nat) /\
  http_call get_profile (exchange (Responded 502 cyrillic_body)) open_driver =
    (open_driver, inr (502, cyrillic_body)) /\
  400 <= 502 /\
  exists kept,
    errors (results (fst (make_request get_profile
                            (exchange (Responded 502 cyrillic_body))
                            open_driver))) =
      (errors (results open_driver) ++
         [StatusError (endpoint get_profile) 502 kept])%list /\
    characters kept = firstn 200 (characters cyrillic_body) /\
    prefix kept cyrillic_body = true /\
    List.length (characters kept) =
      Nat.min 200 (List.length (characters cyrillic_body)) /\
    ((List.length (characters cyrillic_body) <= 200)%nat ->
     kept = cyrillic_body) /\
    exists r, snd (make_request get_profile
                     (exchange (Responded 502 cyrillic_body)) open_driver) =
                inr r /\ body r = cyrillic_body.
Proof.
  assert (H2 : 400 <= 502) by lia.
  split; [repeat split; vm_compute; reflexivity|].
  split; [reflexivity|]. split; [exact H2|].
  exact (error_entry_body_truncated get_profile
           (exchange (Responded 502 cyrillic_body)) open_driver open_driver
           502 cyrillic_body eq_refl H2).
Defined.

(** ** What a batch returns and records *)

Lemma forall2_in_left {A B} (R : A -> B -> Prop) l l' x :
  Forall2 R l l' -> In x l -> exists y, In y l' /\ R x y.
Proof.
  induction 1 as [|a b l l' Hab _ IH]; intros Hin; [destruct Hin|].
  destruct Hin as [-> | Hin].
  - exists b. split; [now left | exact Hab].
  - destruct (IH Hin) as (y & Hy & HR). exists y. split; [now right | exact HR].
Qed.

Section GatherTrace.

Context {A : Type} (tasks : list (M A)).

(** A list [mu] of the driver to which the task at position [i] appends
    [d i]: the schedule appends the [d i] in its own order. *)
Lemma fold_complete_trace {B} (Inv : StressTester -> Prop)
    (mu : StressTester -> list B) (d : nat -> list B) :
  (forall i t s, nth_error tasks i = Some t -> Inv s ->
                 Inv (fst (t s)) /\ mu (fst (t s)) = (mu s ++ d i)%list) ->
  forall sched acc,
    Inv (fst acc) ->
    mu (fst (fold_left (complete tasks) sched acc)) =
      (mu (fst acc) ++
       flat_map (fun i => match nth_error tasks i with
                          | Some _ => d i
                          | None => []
                          end) sched)%list.
Proof.
  intros Hstep sched. induction sched as [|i sched IH]; intros acc Hinv.
  - simpl. now rewrite app_nil_r.
  - cbn [fold_left flat_map].
    destruct (nth_error tasks i) as [t|] eqn:Ht.
    + rewrite (complete_valid tasks acc i t Ht).
      destruct (Hstep i t (fst acc) Ht Hinv) as [Hinv' Hmu].
      rewrite IH by exact Hinv'. cbn [fst]. rewrite Hmu.
      now rewrite <- app_assoc.
    + unfold complete. rewrite Ht. now rewrite IH.
Qed.

(** What is recorded at a position is what the task at that position
    returned, in a driver that satisfies the invariant. *)
Lemma fold_complete_entries_at (Inv : StressTester -> Prop)
    (P : nat -> Outcome A -> Prop) :
  (forall i t s, nth_error tasks i = Some t -> Inv s ->
                 Inv (fst (t s)) /\ P i (snd (t s))) ->
  forall sched acc,
    Inv (fst acc) ->
    Forall (fun p => P (fst p) (snd p)) (snd acc) ->
    Forall (fun p => P (fst p) (snd p))
      (snd (fold_left (complete tasks) sched acc)).
Proof.
  intros Hstep sched. induction sched as [|i sched IH]; intros acc Hinv H.
  - exact H.
  - cbn [fold_left].
    destruct (nth_error tasks i) as [t|] eqn:Ht.
    + rewrite (complete_valid tasks acc i t Ht).
      destruct (Hstep i t (fst acc) Ht Hinv) as [Hinv' HP].
      apply IH; [exact Hinv'|]. constructor; assumption.
    + unfold complete. rewrite Ht. now apply IH.
Qed.

(** Only scheduled positions are recorded. *)
Lemma fold_complete_done_scheduled sched : forall acc i,
  In i (map fst (snd (fold_left (complete tasks) sched acc))) ->
  In i (map fst (snd acc)) \/ In i sched.
Proof.
  induction sched as [|j sched IH]; intros acc i H.
  - now left.
  - cbn [fold_left] in H. apply IH in H. destruct H as [H | H].
    + unfold complete in H. destruct (nth_error tasks j) as [t|]; [|now left].
      destruct (t (fst acc)). simpl in H. destruct H as [H | H].
      * right. left. exact H.
      * now left.
    + right. now right.
Qed.

Lemma assoc_some_in {B} i (done : list (nat * B)) a :
  assoc i done = Some a -> In (i, a) done.
Proof.
  induction done as [|[j b] done IH]; simpl; [discriminate|].
  destruct (Nat.eqb i j) eqn:E.
  - apply Nat.eqb_eq in E. intros H. inversion H. subst. now left.
  - intros H. right. now apply IH.
Qed.

Lemma collect_spec {B} (done : list (nat * B)) positions l :
  collect done positions = Some l ->
  Forall2 (fun i a => In (i, a) done) positions l.
Proof.
  revert l. induction positions as [|i positions IH]; intros l H; simpl in H.
  - inversion H. constructor.
  - destruct (assoc i done) as [a|] eqn:Ha; [|discriminate].
    destruct (collect done positions) as [l'|]; [|discriminate].
    inversion H. subst. constructor; [now apply assoc_some_in | now apply IH].
Qed.

(** [gather] returns something only for a schedule that completes every
    task exactly once. *)
Lemma gather_some_permutation sched s s' rs :
  gather tasks sched s = Some (s', rs) ->
  Permutation sched (seq 0 (List.length tasks)).
Proof.
  unfold gather. destruct (Nat.eqb _ _) eqn:E; [|discriminate].
  apply Nat.eqb_eq in E.
  destruct (fold_left (complete tasks) sched (s, [])) as [s1 done] eqn:F.
  destruct (collect done _) as [l|] eqn:C; [|discriminate]. intros _.
  apply Permutation_sym.
  apply NoDup_Permutation_bis; [apply seq_NoDup | rewrite length_seq; lia |].
  intros i Hi. apply collect_spec in C.
  destruct (forall2_in_left _ _ _ _ C Hi) as (a & _ & Hin).
  apply (in_map fst) in Hin. simpl in Hin.
  pose proof (fold_complete_done_scheduled sched (s, []) i) as H.
  rewrite F in H. destruct (H Hin) as [[] | H']. exact H'.
Qed.

(** When every task returns, at its position, a value fixed in advance, the
    results are these values in the order of the tasks. *)
Lemma gather_results (Inv : StressTester -> Prop) (f : nat -> Outcome A)
    sched s s' rs :
  (forall i t s0, nth_error tasks i = Some t -> Inv s0 ->
                  Inv (fst (t s0)) /\ snd (t s0) = f i) ->
  Inv s ->
  gather tasks sched s = Some (s', rs) ->
  rs = map f (seq 0 (List.length tasks)).
Proof.
  intros Hstep Hinv. unfold gather.
  destruct (Nat.eqb _ _); [|discriminate].
  pose proof (fold_complete_entries_at Inv (fun i a => a = f i) Hstep sched
                (s, []) Hinv (Forall_nil _)) as Hent.
  destruct (fold_left (complete tasks) sched (s, [])) as [s1 done].
  destruct (collect done _) as [l|] eqn:C; [|discriminate].
  intros H. inversion H. subst. clear H. apply collect_spec in C.
  cbn [snd] in Hent. rewrite Forall_forall in Hent.
  induction C as [|i a positions l Hin _ IH]; [reflexivity|].
  simpl. f_equal; [exact (Hent _ Hin) | exact IH].
Qed.

End GatherTrace.

(** One call of [make_request] in a driver whose session is that of [s0],
    described by the outcome of its HTTP call in [s0]. *)
Lemma make_request_effect rq ex s s0 :
  session s = session s0 ->
  snd (make_request rq ex s) = inr (result_of s0 (rq, ex)) /\
  session (fst (make_request rq ex s)) = session s0 /\
  response_times (results (fst (make_request rq ex s))) =
    (response_times (results s) ++
     (if responds s0 (rq, ex) then [latency ex] else []))%list /\
  errors (results (fst (make_request rq ex s))) =
    (errors (results s) ++ error_entry s0 (rq, ex))%list /\
  success_count (results (fst (make_request rq ex s))) =
    success_count (results s) + (if succeeds s0 (rq, ex) then 1 else 0) /\
  error_count (results (fst (make_request rq ex s))) =
    error_count (results s) + (if succeeds s0 (rq, ex) then 0 else 1).
Proof.
  intros Hs. unfold result_of, responds, error_entry, succeeds. cbn [fst snd].
  rewrite <- (http_call_session rq ex s s0 Hs).
  pose proof (http_call_eq rq ex s) as Hc.
  destruct (snd (http_call rq ex s)) as [e | [st b]].
  - rewrite (make_request_raised _ _ _ _ _ Hc). cbn [fst snd].
    unfold after_exception. cbn.
    rewrite app_nil_r. repeat split; try assumption; lia.
  - rewrite (make_request_responded _ _ _ _ _ _ Hc). cbn [fst snd].
    rewrite response_times_after_response, errors_after_response,
      success_count_after_response, error_count_after_response.
    repeat split; try assumption.
Qed.

Lemma batch_task_effect batch i t s s0 :
  nth_error (batch_tasks batch) i = Some t ->
  session s = session s0 ->
  exists p, nth_error batch i = Some p /\
            t = make_request (fst p) (snd p) /\
            session (fst (t s)) = session s0.
Proof.
  intros Ht Hs. apply batch_tasks_nth in Ht. destruct Ht as (p & Hp & ->).
  exists p. repeat split; [exact Hp|].
  now rewrite make_request_session.
Qed.

Lemma completion_order_tasks {B} batch (d : Request * Exchange -> list B)
    sched :
  flat_map (fun i => match nth_error (batch_tasks batch) i with
                     | Some _ => match nth_error batch i with
                                 | Some p => d p
                                 | None => []
                                 end
                     | None => []
                     end) sched =
  flat_map d (completion_order batch sched).
Proof.
  unfold completion_order, batch_tasks.
  induction sched as [|i sched IH]; [reflexivity|].
  cbn [flat_map]. rewrite flat_map_app, <- IH. f_equal.
  rewrite nth_error_map. destruct (nth_error batch i); simpl;
    [now rewrite app_nil_r | reflexivity].
Qed.

Lemma completion_order_permutation batch sched :
  Permutation sched (seq 0 (List.length batch)) ->
  Permutation (completion_order batch sched) batch.
Proof.
  intros H. unfold completion_order.
  rewrite (Permutation_flat_map _ H).
  clear. induction batch as [|p batch IH]; [reflexivity|].
  cbn [List.length seq flat_map nth_error app]. constructor.
  rewrite <- seq_shift, flat_map_concat_map, map_map,
    <- flat_map_concat_map. exact IH.
Qed.

Lemma runBatch_results batch sched s s' rs :
  runBatch batch sched s = Some (s', rs) ->
  rs = results_of s batch /\
  session s' = session s.
Proof.
  intros H. unfold runBatch in H. unfold results_of. split.
  - rewrite (gather_results (batch_tasks batch)
               (fun s1 => session s1 = session s)
               (fun i => match nth_error batch i with
                         | Some p => inr (result_of s p)
                         | None => inl (Exc "IndexError" "")
                         end) sched s s' rs); [| |reflexivity|exact H].
    + rewrite batch_tasks_length.
      exact (map_nth_error_seq
               (fun o => match o with
                         | Some p => inr (result_of s p)
                         | None => inl (Exc "IndexError" "")
                         end) batch).
    + intros i t s0 Ht Hs.
      destruct (batch_task_effect batch i t s0 s Ht Hs) as (p & Hp & -> & Hs').
      split; [exact Hs'|]. rewrite Hp.
      destruct p as [rq ex]. apply make_request_effect. exact Hs.
  - apply gather_some in H. destruct H as [_ ->].
    apply (fold_complete_preorder (batch_tasks batch)
             (fun a b => session b = session a)) with (acc := (s, [])).
    + reflexivity.
    + intros s1 s2 s3 H12 H23. congruence.
    + intros i t s0 Ht. apply batch_tasks_nth in Ht.
      destruct Ht as (p & _ & ->). apply make_request_session.
Qed.

(** X5: the results of a batch do not depend on the order in which its
    requests complete: the i-th result is the dictionary of the i-th
    descriptor, fixed by that request's own exchange (and by whether the
    driver has an open session), so a transport failure or an error status
    of one request changes nothing in the results of the others. *)
Theorem batch_results_in_input_order batch sched s s' rs :
  runBatch batch sched s = Some (s', rs) ->
  rs = results_of s batch /\
  session s' = session s.
Proof. exact (runBatch_results batch sched s s' rs). Qed.

Lemma batch_results_in_input_order_witness :
  runBatch sample_batch [2; 0; 1]%nat open_driver =
    Some (fst (fold_left (complete (batch_tasks sample_batch)) [2; 0; 1]%nat
                 (open_driver, [])),
          results_of open_driver sample_batch) /\
  results_of open_driver sample_batch =
    results_of open_driver sample_batch /\
  session (fst (fold_left (complete (batch_tasks sample_batch))
                  [2; 0; 1]%nat (open_driver, []))) =
    session open_driver.
Proof.
  assert (H : runBatch sample_batch [2; 0; 1]%nat open_driver =
              Some (fst (fold_left (complete (batch_tasks sample_batch))
                           [2; 0; 1]%nat (open_driver, [])),
                    results_of open_driver sample_batch))
    by (vm_compute; reflexivity).
  split; [exact H|].
  exact (batch_results_in_input_order sample_batch [2; 0; 1]%nat open_driver
           _ _ H).
Defined.

Lemma runBatch_permutation batch sched s s' rs :
  runBatch batch sched s = Some (s', rs) ->
  Permutation sched (seq 0 (List.length batch)).
Proof.
  intros H. apply gather_some_permutation in H.
  now rewrite batch_tasks_length in H.
Qed.

Lemma runBatch_counters batch sched s s' rs :
  runBatch batch sched s = Some (s', rs) ->
  success_count (results s') =
    success_count (results s) + len (filter (succeeds s) batch) /\
  error_count (results s') =
    error_count (results s) +
    len (filter (fun p => negb (succeeds s p)) batch).
Proof.
  intros H. pose proof (runBatch_permutation _ _ _ _ _ H) as Hperm. split.
  - destruct (runBatch_measure (fun s => success_count (results s))
                (fun p => if succeeds s p then 1 else 0) batch sched s)
      as (s1 & rs1 & H1 & _ & _ & _ & Hmu).
    { intros [rq ex] s1 _ Hs. apply make_request_effect. exact Hs. }
    { exact Hperm. }
    rewrite H in H1. inversion H1; subst. rewrite Hmu, zsum_indicator.
    reflexivity.
  - destruct (runBatch_measure (fun s => error_count (results s))
                (fun p => if negb (succeeds s p) then 1 else 0) batch sched s)
      as (s1 & rs1 & H1 & _ & _ & _ & Hmu).
    { intros [rq ex] s1 _ Hs.
      destruct (make_request_effect rq ex s1 s Hs) as (_ & _ & _ & _ & _ & He).
      cbn [fst snd]. rewrite He. destruct (succeeds s (rq, ex)); reflexivity. }
    { exact Hperm. }
    rewrite H in H1. inversion H1; subst.
    rewrite Hmu, (zsum_indicator (fun p => negb (succeeds s p))).
    reflexivity.
Qed.

(** X6: a batch raises [success_count] by the number of its requests that
    were answered with a status below 400 and [error_count] by the number
    of all the others (status of 400 or more, or an exception), whatever the
    order of completion. *)
Theorem batch_counters_by_status batch sched s s' rs :
  runBatch batch sched s = Some (s', rs) ->
  success_count (results s') =
    success_count (results s) + len (filter (succeeds s) batch) /\
  error_count (results s') =
    error_count (results s) +
    len (filter (fun p => negb (succeeds s p)) batch).
Proof. exact (runBatch_counters batch sched s s' rs). Qed.

Lemma batch_counters_by_status_witness :
  runBatch sample_batch [2; 0; 1]%nat open_driver =
    Some (fst (fold_left (complete (batch_tasks sample_batch)) [2; 0; 1]%nat
                 (open_driver, [])),
          results_of open_driver sample_batch) /\
  success_count
    (results (fst (fold_left (complete (batch_tasks sample_batch))
                     [2; 0; 1]%nat (open_driver, [])))) =
    success_count (results open_driver) +
    len (filter (succeeds open_driver) sample_batch) /\
  error_count
    (results (fst (fold_left (complete (batch_tasks sample_batch))
                     [2; 0; 1]%nat (open_driver, [])))) =
    error_count (results open_driver) +
    len (filter (fun p => negb (succeeds open_driver p)) sample_batch).
Proof.
  assert (H : runBatch sample_batch [2; 0; 1]%nat open_driver =
              Some (fst (fold_left (complete (batch_tasks sample_batch))
                           [2; 0; 1]%nat (open_driver, [])),
                    results_of open_driver sample_batch))
    by (vm_compute; reflexivity).
  split; [exact H|].
  exact (batch_counters_by_status sample_batch [2; 0; 1]%nat open_driver
           _ _ H).
Defined.

Lemma runBatch_records batch sched s s' rs :
  runBatch batch sched s = Some (s', rs) ->
  response_times (results s') =
    (response_times (results s) ++
     flat_map (fun p => if responds s p then [latency (snd p)] else [])
       (completion_order batch sched))%list /\
  errors (results s') =
    (errors (results s) ++
     flat_map (error_entry s) (completion_order batch sched))%list /\
  Permutation (completion_order batch sched) batch.
Proof.
  intros H. pose proof (runBatch_permutation _ _ _ _ _ H) as Hperm.
  unfold runBatch in H. apply gather_some in H. destruct H as [_ ->].
  split; [|split].
  - rewrite <- completion_order_tasks.
    rewrite (fold_complete_trace (batch_tasks batch)
               (fun s1 => session s1 = session s)
               (fun s1 => response_times (results s1))
               (fun i => match nth_error batch i with
                         | Some p => if responds s p then [latency (snd p)]
                                     else []
                         | None => []
                         end)); [reflexivity| |reflexivity].
    intros i t s0 Ht Hs.
    destruct (batch_task_effect batch i t s0 s Ht Hs) as (p & Hp & -> & Hs').
    split; [exact Hs'|]. rewrite Hp. destruct p as [rq ex].
    apply make_request_effect. exact Hs.
  - rewrite <- completion_order_tasks.
    rewrite (fold_complete_trace (batch_tasks batch)
               (fun s1 => session s1 = session s)
               (fun s1 => errors (results s1))
               (fun i => match nth_error batch i with
                         | Some p => error_entry s p
                         | None => []
                         end)); [reflexivity| |reflexivity].
    intros i t s0 Ht Hs.
    destruct (batch_task_effect batch i t s0 s Ht Hs) as (p & Hp & -> & Hs').
    split; [exact Hs'|]. rewrite Hp. destruct p as [rq ex].
    apply make_request_effect. exact Hs.
  - apply completion_order_permutation. exact Hperm.
Qed.

(** X7: the latencies and the error entries of a batch are appended to
    [response_times] and to [errors] in the order in which its requests
    complete, not in the order of the descriptors: one latency for each
    request that got a response, one entry for each request that failed.
    The completed requests are a rearrangement of the batch. *)
Theorem batch_records_in_completion_order batch sched s s' rs :
  runBatch batch sched s = Some (s', rs) ->
  response_times (results s') =
    (response_times (results s) ++
     flat_map (fun p => if responds s p then [latency (snd p)] else [])
       (completion_order batch sched))%list /\
  errors (results s') =
    (errors (results s) ++
     flat_map (error_entry s) (completion_order batch sched))%list /\
  Permutation (completion_order batch sched) batch.
Proof. exact (runBatch_records batch sched s s' rs). Qed.

Lemma batch_records_in_completion_order_witness :
  runBatch sample_batch [2; 0; 1]%nat open_driver =
    Some (fst (fold_left (complete (batch_tasks sample_batch)) [2; 0; 1]%nat
                 (open_driver, [])),
          results_of open_driver sample_batch) /\
  errors
    (results (fst (fold_left (complete (batch_tasks sample_batch))
                     [2; 0; 1]%nat (open_driver, [])))) =
    (errors (results open_driver) ++
     flat_map (error_entry open_driver)
       (completion_order sample_batch [2; 0; 1]%nat))%list.
Proof.
  assert (H : runBatch sample_batch [2; 0; 1]%nat open_driver =
              Some (fst (fold_left (complete (batch_tasks sample_batch))
                           [2; 0; 1]%nat (open_driver, [])),
                    results_of open_driver sample_batch))
    by (vm_compute; reflexivity).
  split; [exact H|].
  exact (proj1 (proj2 (batch_records_in_completion_order sample_batch
                         [2; 0; 1]%nat open_driver _ _ H))).
Defined.

(** ** What the statistics can be *)

Lemma getitem_in {A} (l : list A) i a : getitem l i = inr a -> In a l.
Proof.
  unfold getitem. destruct (_ <? 0); [discriminate|].
  destruct (nth_error l _) as [b|] eqn:E; [|discriminate].
  intros H. inversion H. subst. eapply nth_error_In; eauto.
Qed.

Lemma max_fold_spec rest : forall x,
  let m := fold_left (fun m y => if Qle_bool y m then m else y) rest x in
  (m = x \/ In m rest) /\ (x <= m)%Q /\ (forall y, In y rest -> (y <= m)%Q).
Proof.
  induction rest as [|y rest IH]; intros x; cbn [fold_left].
  - split; [now left|]. split; [apply Qle_refl | intros y []].
  - destruct (Qle_bool y x) eqn:E.
    + destruct (IH x) as (Hin & Hx & Hall). apply Qle_bool_iff in E.
      split; [destruct Hin; [now left | right; now right]|].
      split; [exact Hx|]. intros z [<- | Hz]; [|now apply Hall].
      eapply Qle_trans; eauto.
    + destruct (IH y) as (Hin & Hy & Hall).
      assert (Hxy : (x <= y)%Q).
      { apply Qlt_le_weak, Qnot_le_lt. intros Hc.
        apply Qle_bool_iff in Hc. congruence. }
      split; [right; destruct Hin as [-> | Hin]; [now left | now right]|].
      split; [eapply Qle_trans; eauto|].
      intros z [<- | Hz]; [exact Hy | now apply Hall].
Qed.

(** [max] returns an element that no element exceeds. *)
Lemma max_spec l m :
  max l = inr m -> In m l /\ (forall x, In x l -> (x <= m)%Q).
Proof.
  destruct l as [|x rest]; [discriminate|]. simpl. intros H. inversion H.
  destruct (max_fold_spec rest x) as (Hin & Hx & Hall). split.
  - destruct Hin as [-> | Hin]; [now left | now right].
  - intros y [<- | Hy]; [exact Hx | now apply Hall].
Qed.

Lemma inject_len_cons {A} (x : A) l :
  (inject_Z (len (x :: l)) == inject_Z (len l) + 1)%Q.
Proof.
  unfold len. cbn [List.length]. rewrite Nat2Z.inj_succ.
  unfold Z.succ. now rewrite inject_Z_plus.
Qed.

Lemma sum_fold_upper hi l : forall a,
  (forall x, In x l -> (x <= hi)%Q) ->
  (fold_left Qplus l a <= a + inject_Z (len l) * hi)%Q.
Proof.
  induction l as [|x l IH]; intros a H.
  - cbn [fold_left]. unfold len. cbn [List.length].
    change (inject_Z (Z.of_nat 0)) with 0%Q. lra.
  - cbn [fold_left]. rewrite inject_len_cons.
    assert (Hx : (x <= hi)%Q) by (apply H; now left).
    specialize (IH (a + x)%Q (fun y Hy => H y (or_intror Hy))). lra.
Qed.

Lemma sum_fold_lower lo l : forall a,
  (forall x, In x l -> (lo <= x)%Q) ->
  (a + inject_Z (len l) * lo <= fold_left Qplus l a)%Q.
Proof.
  induction l as [|x l IH]; intros a H.
  - cbn [fold_left]. unfold len. cbn [List.length].
    change (inject_Z (Z.of_nat 0)) with 0%Q. lra.
  - cbn [fold_left]. rewrite inject_len_cons.
    assert (Hx : (lo <= x)%Q) by (apply H; now left).
    specialize (IH (a + x)%Q (fun y Hy => H y (or_intror Hy))). lra.
Qed.

Lemma len_positive {A} (l : list A) : l <> [] -> (0 < inject_Z (len l))%Q.
Proof.
  intros H. unfold len. destruct l; [congruence|].
  change 0%Q with (inject_Z 0). rewrite <- Zlt_Qlt. simpl. lia.
Qed.

(** The mean lies between any two bounds of the elements. *)
Lemma mean_between lo hi l a :
  (forall x, In x l -> (lo <= x <= hi)%Q) ->
  mean l = inr a -> (lo <= a <= hi)%Q.
Proof.
  intros H. unfold mean. destruct (len l <? 1) eqn:E; [discriminate|].
  intros Ha. inversion Ha. subst a. clear Ha.
  assert (Hne : l <> []).
  { intros ->. discriminate. }
  pose proof (len_positive l Hne) as Hn.
  pose proof (sum_fold_upper hi l 0 (fun x Hx => proj2 (H x Hx))) as Hu.
  pose proof (sum_fold_lower lo l 0 (fun x Hx => proj1 (H x Hx))) as Hl.
  unfold sum. split.
  - apply Qle_shift_div_l; [exact Hn|]. lra.
  - apply Qle_shift_div_r; [exact Hn|]. lra.
Qed.

(** So does the median. *)
Lemma median_between lo hi l m :
  (forall x, In x l -> (lo <= x <= hi)%Q) ->
  median l = inr m -> (lo <= m <= hi)%Q.
Proof.
  intros H. unfold median.
  assert (Hs : forall i x, getitem (sorted l) i = inr x -> (lo <= x <= hi)%Q).
  { intros i x Hx. apply H.
    apply (Permutation_in _ (sorted_permutation l)).
    eapply getitem_in; eauto. }
  destruct (len (sorted l) =? 0); [discriminate|].
  destruct (len (sorted l) mod 2 =? 1); [apply Hs|].
  destruct (getitem (sorted l) (len (sorted l) / 2 - 1)) as [e|a] eqn:Ea;
    [discriminate|].
  destruct (getitem (sorted l) (len (sorted l) / 2)) as [e|b] eqn:Eb;
    [discriminate|].
  intros Hm. inversion Hm. subst m.
  pose proof (Hs _ _ Ea). pose proof (Hs _ _ Eb).
  split.
  - apply Qle_shift_div_l; lra.
  - apply Qle_shift_div_r; lra.
Qed.

Lemma percentile_95_in l x : percentile_95 l = inr x -> In x l.
Proof.
  intros H. apply (Permutation_in _ (sorted_permutation l)).
  eapply getitem_in; eauto.
Qed.

Lemma response_time_stats_between times st lo hi :
  response_time_stats times = inr (Some st) ->
  (forall x, In x times -> (lo <= x <= hi)%Q) ->
  In (Max st) times /\ In (Percentile95 st) times /\
  (forall x, In x times -> (x <= Max st)%Q) /\
  (lo <= Average st <= hi)%Q /\ (lo <= Median st <= hi)%Q /\
  (lo <= Percentile95 st <= hi)%Q /\
  (Average st <= Max st)%Q /\ (Median st <= Max st)%Q /\
  (Percentile95 st <= Max st)%Q.
Proof.
  intros Hst Hb. unfold response_time_stats in Hst.
  destruct times as [|t times]; [discriminate|].
  destruct (mean (t :: times)) as [e|a] eqn:Ea; [discriminate|].
  destruct (median (t :: times)) as [e|m] eqn:Em; [discriminate|].
  destruct (percentile_95 (t :: times)) as [e|p] eqn:Ep; [discriminate|].
  destruct (max (t :: times)) as [e|x] eqn:Ex; [discriminate|].
  cbn [obind] in Hst. inversion Hst. subst st. cbn [Average Median Percentile95 Max].
  destruct (max_spec _ _ Ex) as [Hin Hmax].
  pose proof (percentile_95_in _ _ Ep) as Hp.
  assert (Hlow : forall y, In y (t :: times) -> (lo <= y <= x)%Q).
  { intros y Hy. split; [apply (Hb y Hy) | apply (Hmax y Hy)]. }
  repeat split; try assumption.
  - apply (mean_between lo hi _ _ Hb Ea).
  - apply (mean_between lo hi _ _ Hb Ea).
  - apply (median_between lo hi _ _ Hb Em).
  - apply (median_between lo hi _ _ Hb Em).
  - apply (Hb p Hp).
  - apply (Hb p Hp).
  - apply (mean_between lo x _ _ Hlow Ea).
  - apply (median_between lo x _ _ Hlow Em).
  - apply (Hmax p Hp).
Qed.

(** X8: whenever the statistics block prints its four figures, the maximum
    and the 95th percentile are recorded latencies, no latency exceeds the
    maximum, and the average, the median and the 95th percentile lie
    between any two bounds of the latencies; in particular none of them
    exceeds the reported maximum. *)
Theorem statistics_within_range times st lo hi :
  response_time_stats times = inr (Some st) ->
  (forall x, In x times -> (lo <= x <= hi)%Q) ->
  In (Max st) times /\ In (Percentile95 st) times /\
  (forall x, In x times -> (x <= Max st)%Q) /\
  (lo <= Average st <= hi)%Q /\ (lo <= Median st <= hi)%Q /\
  (lo <= Percentile95 st <= hi)%Q /\
  (Average st <= Max st)%Q /\ (Median st <= Max st)%Q /\
  (Percentile95 st <= Max st)%Q.
Proof. exact (response_time_stats_between times st lo hi). Qed.

Lemma statistics_within_range_witness :
  response_time_stats four_latencies = inr (Some four_latencies_stats) /\
  (forall x, In x four_latencies -> (10 <= x <= 40)%Q) /\
  (10 <= Average four_latencies_stats <= 40)%Q /\
  (Percentile95 four_latencies_stats <= Max four_latencies_stats)%Q.
Proof.
  assert (H1 : response_time_stats four_latencies =
               inr (Some four_latencies_stats)) by (vm_compute; reflexivity).
  assert (H2 : forall x, In x four_latencies -> (10 <= x <= 40)%Q).
  { intros x [<- | [<- | [<- | [<- | []]]]]; split; discriminate. }
  split; [exact H1|]. split; [exact H2|].
  destruct (statistics_within_range four_latencies four_latencies_stats
              10 40 H1 H2) as (_ & _ & _ & Ha & _ & _ & _ & _ & Hp).
  split; [exact Ha | exact Hp].
Defined.

Lemma sorted_last_is_upper l x :
  Sorted Qle l ->
  nth_error l (List.length l - 1) = Some x ->
  forall y, In y l -> (y <= x)%Q.
Proof.
  intros Hs. apply Sorted_StronglySorted in Hs;
    [|intros a b c; apply Qle_trans].
  induction Hs as [|a l Hs IH Hall]; intros Hx y Hy; [destruct Hy|].
  destruct l as [|b l].
  - simpl in Hx. inversion Hx. subst. destruct Hy as [<- | []]. apply Qle_refl.
  - cbn [List.length] in Hx.
    replace (S (S (List.length l)) - 1)%nat with (S (List.length l)) in Hx
      by lia.
    cbn [nth_error] in Hx.
    replace (List.length l) with (List.length (b :: l) - 1)%nat in Hx
      by (simpl; lia).
    destruct Hy as [<- | Hy]; [|now apply IH].
    rewrite Forall_forall in Hall. apply Hall.
    eapply nth_error_In; eauto.
Qed.

(** X9: with at most 20 recorded latencies the index [int(N * 0.95)] is
    N - 1, the last position of the sorted copy: the reported 95th
    percentile is then the largest latency, equal to the reported
    maximum. *)
Theorem small_sample_percentile_is_max l :
  l <> [] -> (List.length l <= 20)%nat ->
  percentile_index (len l) = len l - 1 /\
  exists x m,
    percentile_95 l = inr x /\ max l = inr m /\ (x == m)%Q.
Proof.
  intros Hne Hlen.
  assert (Hn : 1 <= len l <= 20).
  { unfold len. destruct l; [congruence | simpl in *; lia]. }
  assert (Hi : percentile_index (len l) = len l - 1).
  { rewrite percentile_index_div by lia.
    symmetry.
    apply Z.div_unique with (r := len l * 19 - 20 * (len l - 1)); lia. }
  split; [exact Hi|].
  destruct (percentile_95_returns l Hne) as [x Hx].
  destruct (max_returns l Hne) as [m Hm].
  exists x, m. split; [exact Hx|]. split; [exact Hm|].
  destruct (max_spec l m Hm) as [Hin Hmax].
  apply Qle_antisym; [apply Hmax; now apply percentile_95_in|].
  unfold percentile_95 in Hx. rewrite Hi in Hx. unfold getitem in Hx.
  destruct (len l - 1 <? 0) eqn:E; [apply Z.ltb_lt in E; lia|].
  rewrite E in Hx.
  destruct (nth_error (sorted l) (Z.to_nat (len l - 1))) as [x'|] eqn:En;
    [|discriminate].
  inversion Hx. subst x'.
  apply (sorted_last_is_upper (sorted l) x (sorted_ordered l)).
  - rewrite sorted_length. rewrite <- En. f_equal. unfold len. lia.
  - apply (Permutation_in _ (Permutation_sym (sorted_permutation l))).
    exact Hin.
Qed.

Lemma small_sample_percentile_is_max_witness :
  four_latencies <> [] /\ (List.length four_latencies <= 20)%nat /\
  percentile_index (len four_latencies) = len four_latencies - 1 /\
  exists x m,
    percentile_95 four_latencies = inr x /\ max four_latencies = inr m /\
    (x == m)%Q.
Proof.
  assert (H1 : four_latencies <> []) by discriminate.
  assert (H2 : (List.length four_latencies <= 20)%nat) by (simpl; lia).
  split; [exact H1|]. split; [exact H2|].
  exact (small_sample_percentile_is_max four_latencies H1 H2).
Defined.

(** ** What [test_authenticated_operations] reports *)

Lemma test_authenticated_operations_inv token count env sched s s' out :
  test_authenticated_operations token count env sched s = Some (s', out) ->
  exists rs st,
    runBatch (authenticated_batch token count env) sched s = Some (s', rs) /\
    response_time_stats (valid_times rs) = inr st /\
    out = inr {| run_results := rs;
                 run_successful := count_status_200 rs;
                 run_stats := st |}.
Proof.
  unfold test_authenticated_operations, runBatch.
  rewrite authenticated_tasks_batch.
  destruct (gather _ sched s) as [[s1 rs]|]; [|discriminate].
  intros H. inversion H. subst.
  destruct (response_time_stats_returns (valid_times rs)) as [st Hst].
  exists rs, st. rewrite Hst. auto.
Qed.




Lemma count_status_200_results_of s batch :
  count_status_200 (results_of s batch) =
  len (filter (fun p => status (result_of s p) =? 200) batch).
Proof.
  unfold count_status_200, results_of, len. f_equal.
  induction batch as [|p batch IH]; [reflexivity|]. simpl.
  destruct (status (result_of s p) =? 200); simpl; now rewrite IH.
Qed.



Lemma runBatch_total batch sched s :
  Permutation sched (seq 0 (List.length batch)) ->
  exists s' rs, runBatch batch sched s = Some (s', rs).
Proof.
  intros H.
  destruct (runBatch_measure total (fun _ => 1) batch sched s)
    as (s' & rs & Hrun & _).
  - intros p s1 _ _. apply total_make_request.
  - exact H.
  - eauto.
Qed.

Lemma flat_map_nil {A B} (f : A -> list B) l :
  (forall x, In x l -> f x = []) -> flat_map f l = [].
Proof.
  intros H. induction l as [|x l IH]; [reflexivity|]. simpl.
  rewrite (H x (or_introl eq_refl)), IH; [reflexivity|].
  intros y Hy. apply H. now right.
Qed.

Lemma filter_all {A} (f : A -> bool) l :
  (forall x, In x l -> f x = true) -> filter f l = l.
Proof.
  intros H. induction l as [|x l IH]; [reflexivity|]. simpl.
  rewrite (H x (or_introl eq_refl)), IH; [reflexivity|].
  intros y Hy. apply H. now right.
Qed.

Lemma filter_none {A} (f : A -> bool) l :
  (forall x, In x l -> f x = false) -> filter f l = [].
Proof.
  intros H. induction l as [|x l IH]; [reflexivity|]. simpl.
  rewrite (H x (or_introl eq_refl)), IH; [reflexivity|].
  intros y Hy. apply H. now right.
Qed.

(** X11: [test_authenticated_operations] on a driver without an open
    session (for instance before [setup_session]) still completes: all
    [count] results have status 0, the printed number of completed requests
    is 0, no statistics are printed, [error_count] has gone up by [count]
    and [success_count] and [response_times] are as before. *)
Theorem authenticated_operations_without_session token count env sched s :
  session_open s = false ->
  Permutation sched (seq 0 count) ->
  exists s' run,
    test_authenticated_operations token count env sched s =
      Some (s', inr run) /\
    List.length (run_results run) = count /\
    Forall (fun r => exists d, r = inr d /\ status d = 0) (run_results run) /\
    run_successful run = 0 /\
    run_stats run = None /\
    error_count (results s') = error_count (results s) + Z.of_nat count /\
    success_count (results s') = success_count (results s) /\
    response_times (results s') = response_times (results s).
Proof.
  intros Hno Hperm.
  set (batch := authenticated_batch token count env).
  assert (Hlen : List.length batch = count)
    by apply authenticated_batch_length.
  destruct (runBatch_total batch sched s) as (s' & rs & Hrun).
  { now rewrite Hlen. }
  assert (Hraise : forall p, exists e, snd (http_call (fst p) (snd p) s) = inl e).
  { intros p. destruct (http_call_without_session (fst p) (snd p) s Hno)
      as [e He]. exists e. now rewrite He. }
  destruct (runBatch_results _ _ _ _ _ Hrun) as [Hrs _].
  destruct (runBatch_counters _ _ _ _ _ Hrun) as [Hsc Hec].
  destruct (runBatch_records _ _ _ _ _ Hrun) as (Hrt & _ & _).
  assert (Hvalid : valid_times rs = []).
  { rewrite Hrs. unfold valid_times, results_of.
    apply flat_map_nil. intros r Hr. apply in_map_iff in Hr.
    destruct Hr as (p & <- & _). unfold result_of.
    destruct (Hraise p) as [e ->]. reflexivity. }
  assert (Hfail : forall p, succeeds s p = false).
  { intros p. unfold succeeds. destruct (Hraise p) as [e ->]. reflexivity. }
  exists s'. eexists. split.
  { unfold test_authenticated_operations. rewrite authenticated_tasks_batch.
    fold batch. unfold runBatch in Hrun. rewrite Hrun, Hvalid.
    cbn [response_time_stats obind]. reflexivity. }
  cbn [run_results run_successful run_stats].
  split; [rewrite Hrs; unfold results_of; now rewrite length_map|].
  split.
  { rewrite Hrs. unfold results_of. apply Forall_forall. intros r Hr.
    apply in_map_iff in Hr. destruct Hr as (p & <- & _).
    eexists. split; [reflexivity|]. unfold result_of.
    destruct (Hraise p) as [e ->]. reflexivity. }
  split.
  { rewrite Hrs, count_status_200_results_of.
    rewrite filter_none; [reflexivity|]. intros p _. unfold result_of.
    destruct (Hraise p) as [e ->]. reflexivity. }
  split; [reflexivity|]. split.
  { rewrite Hec, filter_all; [unfold len; now rewrite Hlen|].
    intros p _. now rewrite Hfail. }
  split.
  { rewrite Hsc, filter_none; [unfold len; simpl; lia|]. intros p _.
    apply Hfail. }
  rewrite Hrt, flat_map_nil; [apply app_nil_r|]. intros p _.
  unfold responds. destruct (Hraise p) as [e ->]. reflexivity.
Qed.

Lemma authenticated_operations_without_session_witness :
  session_open __init__ = false /\
  Permutation [2; 0; 1]%nat (seq 0 3) /\
  exists s' run,
    test_authenticated_operations "token" 3
      (fun _ => exchange (Responded 200 "{}")) [2; 0; 1]%nat __init__ =
      Some (s', inr run) /\
    List.length (run_results run) = 3%nat /\
    Forall (fun r => exists d, r = inr d /\ status d = 0) (run_results run) /\
    run_successful run = 0 /\
    run_stats run = None /\
    error_count (results s') =
      error_count (results __init__) + Z.of_nat 3 /\
    success_count (results s') = success_count (results __init__) /\
    response_times (results s') = response_times (results __init__).
Proof.
  assert (H2 : Permutation [2; 0; 1]%nat (seq 0 3)).
  { change (Permutation (2 :: [0; 1]) ([0; 1] ++ 2 :: []))%nat.
    apply Permutation_cons_app. reflexivity. }
  split; [reflexivity|]. split; [exact H2|].
  exact (authenticated_operations_without_session "token" 3%nat
           (fun _ => exchange (Responded 200 "{}")) [2; 0; 1]%nat __init__
           eq_refl H2).
Defined.

(** ** Reasoning about scenarios *)

Lemma requests_made_refl s : requests_made 0 s s.
Proof.
  unfold requests_made. split; [reflexivity|]. split; [lia|].
  split; [apply counters_le_refl | auto].
Qed.

Lemma requests_made_trans n m s1 s2 s3 :
  requests_made n s1 s2 -> requests_made m s2 s3 ->
  requests_made (n + m) s1 s3.
Proof.
  intros (H1 & H2 & H3 & H3') (H4 & H5 & H6 & H6'). split; [congruence|].
  split; [lia|]. split; [eapply counters_le_trans; eauto | auto].
Qed.

Lemma records_consistent_request rq ex s :
  records_consistent s -> records_consistent (fst (make_request rq ex s)).
Proof.
  unfold records_consistent. intros (He & Hlo & Hhi).
  destruct (make_request_effect rq ex s s eq_refl)
    as (_ & _ & Hrt & Her & Hsc & Hec).
  rewrite Hrt, Her, Hsc, Hec. unfold len in *. rewrite !length_app.
  unfold error_entry, responds, succeeds.
  destruct (snd (http_call (fst (rq, ex)) (snd (rq, ex)) s)) as [e|[st b]].
  - simpl. lia.
  - destruct (st <? 400); simpl; lia.
Qed.

Lemma records_consistent_batch batch sched s s' rs :
  runBatch batch sched s = Some (s', rs) ->
  records_consistent s -> records_consistent s'.
Proof.
  intros H. unfold runBatch in H. apply gather_some in H.
  destruct H as [_ ->].
  apply (fold_complete_preorder (batch_tasks batch)
           (fun a b => records_consistent a -> records_consistent b))
    with (acc := (s, [])).
  - auto.
  - auto.
  - intros i t s0 Ht. apply batch_tasks_nth in Ht.
    destruct Ht as (p & _ & ->). apply records_consistent_request.
Qed.

Lemma requests_made_request rq ex s :
  requests_made 1 s (fst (make_request rq ex s)).
Proof.
  split; [apply make_request_session|].
  split; [apply total_make_request|].
  split; [apply counters_le_make_request | apply records_consistent_request].
Qed.

Lemma requests_made_batch batch sched s s' rs :
  runBatch batch sched s = Some (s', rs) ->
  requests_made (len batch) s s' /\ List.length rs = List.length batch.
Proof.
  intros H. pose proof (runBatch_permutation _ _ _ _ _ H) as Hperm.
  destruct (runBatch_measure total (fun _ => 1) batch sched s)
    as (s1 & rs1 & H1 & Hlen & _ & Hsess & Hmu).
  { intros p s0 _ _. apply total_make_request. }
  { exact Hperm. }
  rewrite H in H1. inversion H1; subst s1 rs1.
  split; [|exact Hlen]. split; [exact Hsess|].
  split; [now rewrite Hmu, zsum_map_const|].
  split; [eapply counters_le_gather_requests; exact H|].
  eapply records_consistent_batch. exact H.
Qed.

Lemma ensures_sreturn {A} (a : A) s (P : StressTester -> Outcome A -> Prop) :
  P s (inr a) -> ensures (sreturn a) s P.
Proof. intros H s' o E. inversion E. now subst. Qed.

Lemma ensures_evaluate {A} (o : Outcome A) s
    (P : StressTester -> Outcome A -> Prop) :
  P s o -> ensures (evaluate o) s P.
Proof. intros H s' o' E. inversion E. now subst. Qed.

Lemma ensures_await {A} (m : M A) s (P : StressTester -> Outcome A -> Prop) :
  P (fst (m s)) (snd (m s)) -> ensures (await m) s P.
Proof.
  intros H s' o E. unfold await in E. injection E as E'.
  rewrite E' in H. exact H.
Qed.

Lemma ensures_gathered batch sched s
    (P : StressTester -> Outcome (list (Outcome Response)) -> Prop) :
  (forall s' rs, runBatch batch sched s = Some (s', rs) -> P s' (inr rs)) ->
  ensures (gathered (batch_tasks batch) sched) s P.
Proof.
  intros H s' o E. unfold gathered in E.
  destruct (gather (batch_tasks batch) sched s) as [[s1 rs]|] eqn:G;
    [|discriminate].
  inversion E. subst. apply H. exact G.
Qed.

Lemma ensures_sbind {A B} (m : Scenario A) (k : A -> Scenario B) s
    (Q : StressTester -> Outcome A -> Prop)
    (P : StressTester -> Outcome B -> Prop) :
  ensures m s Q ->
  (forall s1 e, Q s1 (inl e) -> P s1 (inl e)) ->
  (forall s1 a, Q s1 (inr a) -> ensures (k a) s1 P) ->
  ensures (sbind m k) s P.
Proof.
  intros Hm He Hk s' o E. unfold sbind in E.
  destruct (m s) as [[s1 [e|a]]|] eqn:Em; [| |discriminate].
  - inversion E. subst. apply He. now apply Hm.
  - eapply Hk; [|exact E]. now apply Hm.
Qed.

Lemma ensures_weaken {A} (m : Scenario A) s
    (Q P : StressTester -> Outcome A -> Prop) :
  ensures m s Q -> (forall s' o, Q s' o -> P s' o) -> ensures m s P.
Proof. intros H HQ s' o E. apply HQ. now apply H. Qed.

Lemma achieves_sreturn {A} (a : A) s (P : StressTester -> Outcome A -> Prop) :
  P s (inr a) -> achieves (sreturn a) s P.
Proof. intros H. exists s, (inr a). split; [reflexivity | exact H]. Qed.

Lemma achieves_evaluate {A} (o : Outcome A) s
    (P : StressTester -> Outcome A -> Prop) :
  P s o -> achieves (evaluate o) s P.
Proof. intros H. exists s, o. split; [reflexivity | exact H]. Qed.

Lemma achieves_await {A} (m : M A) s (P : StressTester -> Outcome A -> Prop) :
  P (fst (m s)) (snd (m s)) -> achieves (await m) s P.
Proof.
  intros H. exists (fst (m s)), (snd (m s)). split; [|exact H].
  unfold await. now destruct (m s).
Qed.

Lemma achieves_gathered batch sched s
    (P : StressTester -> Outcome (list (Outcome Response)) -> Prop) :
  Permutation sched (seq 0 (List.length batch)) ->
  (forall s' rs, runBatch batch sched s = Some (s', rs) -> P s' (inr rs)) ->
  achieves (gathered (batch_tasks batch) sched) s P.
Proof.
  intros Hperm H. destruct (runBatch_total batch sched s Hperm)
    as (s' & rs & Hrun).
  exists s', (inr rs). split; [|now apply H].
  unfold gathered. unfold runBatch in Hrun. now rewrite Hrun.
Qed.

Lemma achieves_sbind {A B} (m : Scenario A) (k : A -> Scenario B) s
    (Q : StressTester -> Outcome A -> Prop)
    (P : StressTester -> Outcome B -> Prop) :
  achieves m s Q ->
  (forall s1 e, Q s1 (inl e) -> P s1 (inl e)) ->
  (forall s1 a, Q s1 (inr a) -> achieves (k a) s1 P) ->
  achieves (sbind m k) s P.
Proof.
  intros (s1 & o & Em & HQ) He Hk. unfold sbind. destruct o as [e|a].
  - exists s1, (inl e). rewrite Em. split; [reflexivity | now apply He].
  - destruct (Hk s1 a HQ) as (s2 & o2 & Ek & HP).
    exists s2, o2. rewrite Em. split; assumption.
Qed.

Lemma achieves_ensures {A} (m : Scenario A) s
    (P : StressTester -> Outcome A -> Prop) :
  achieves m s P -> ensures m s P.
Proof.
  intros (s1 & o1 & E & HP) s' o E'. rewrite E in E'. inversion E'.
  now subst.
Qed.

(** ** [test_concurrent_registrations] *)

Lemma count_status_in_results_of codes s batch :
  count_status_in codes (results_of s batch) =
  len (filter (fun p => existsb (Z.eqb (status (result_of s p))) codes) batch).
Proof.
  unfold count_status_in, results_of, len. f_equal.
  induction batch as [|p batch IH]; [reflexivity|]. simpl.
  destruct (existsb _ codes); simpl; now rewrite IH.
Qed.

Lemma filter_length_bound {A} (f : A -> bool) l :
  (List.length (filter f l) <= List.length l)%nat.
Proof.
  induction l as [|x l IH]; [simpl; lia|]. simpl.
  destruct (f x); simpl; lia.
Qed.

Lemma string_length_append a b :
  String.length (a ++ b) = (String.length a + String.length b)%nat.
Proof. induction a as [|c a IH]; simpl; [reflexivity | now rewrite IH]. Qed.

Lemma append_cancel_r a b t : a ++ t = b ++ t -> a = b.
Proof.
  revert b. induction a as [|c a IH]; intros b H.
  - destruct b as [|d b]; [reflexivity|].
    apply (f_equal String.length) in H. simpl in H.
    rewrite string_length_append in H. lia.
  - destruct b as [|d b].
    + apply (f_equal String.length) in H. simpl in H.
      rewrite string_length_append in H. lia.
    + simpl in H. injection H as Hc Ht. subst d. f_equal. now apply IH.
Qed.

Lemma append_cancel_l p a b : p ++ a = p ++ b -> a = b.
Proof.
  induction p as [|c p IH]; simpl; intros H; [exact H|].
  injection H as H. now apply IH.
Qed.

Lemma str_nat_injective i j : str_nat i = str_nat j -> i = j.
Proof.
  unfold str_nat. intros H. apply DecimalNat.Unsigned.to_uint_inj.
  pose proof (NilEmpty.usu (Nat.to_uint i)) as Hi.
  pose proof (NilEmpty.usu (Nat.to_uint j)) as Hj.
  rewrite H in Hi. rewrite Hi in Hj. now inversion Hj.
Qed.

Lemma registration_email_injective : Injective registration_email.
Proof.
  intros i j H. unfold registration_email in H.
  apply append_cancel_l, append_cancel_r in H. now apply str_nat_injective.
Qed.

Lemma registration_data_injective : Injective registration_data.
Proof.
  intros i j H. unfold registration_data in H.
  injection H as _ H. apply append_cancel_r in H.
  now apply str_nat_injective.
Qed.

(** X12: the registrations of one batch never share an e-mail address, nor
    a payload: the address "stress-user-<i>@load.test" and the data of the
    [i]-th registration determine [i]. *)
Theorem registrations_are_distinct count :
  NoDup (map registration_email (seq 0 count)) /\
  NoDup (map registration_data (seq 0 count)).
Proof.
  split.
  - apply Injective_map_NoDup;
      [exact registration_email_injective | apply seq_NoDup].
  - apply Injective_map_NoDup;
      [exact registration_data_injective | apply seq_NoDup].
Qed.

Section RegistrationFacts.

Variable json_dumps : Json -> string.

Lemma registration_batch_length count env :
  List.length (registration_batch json_dumps count env) = Z.to_nat count.
Proof. unfold registration_batch. now rewrite length_map, length_seq. Qed.

(** X13: [test_concurrent_registrations] with a count of zero gathers
    nothing, leaves the driver as it was and raises [ZeroDivisionError] when
    it computes the average per request; with a negative count it gathers
    nothing either and returns an empty list of results. *)
Theorem registrations_of_nothing count env t0 t1 s :
  count <= 0 ->
  test_concurrent_registrations json_dumps count env [] t0 t1 s =
    Some (s,
          if count =? 0 then
            inl (Exc "ZeroDivisionError" "float division by zero")
          else
            inr {| registration_results := [];
                   registration_completed := 0;
                   registration_seconds := (t1 - t0)%Q;
                   registration_average_ms :=
                     ((t1 - t0) / inject_Z count * 1000)%Q |}).
Proof.
  intros H. unfold test_concurrent_registrations, registration_batch.
  replace (Z.to_nat count) with 0%nat by lia.
  unfold sbind, gathered. cbn.
  destruct (count =? 0); reflexivity.
Qed.

(** X14: [test_concurrent_registrations] with a positive count, on any
    execution: it returns the [count] results in the order of dispatch,
    [count] requests have been made, the printed number of completed
    requests is the number of answers with status 201 or 429, between 0 and
    [count], and the printed average is the elapsed time divided by
    [count], in milliseconds. *)
Theorem registrations_report count env sched t0 t1 s :
  0 < count ->
  Permutation sched (seq 0 (Z.to_nat count)) ->
  exists s' run,
    test_concurrent_registrations json_dumps count env sched t0 t1 s =
      Some (s', inr run) /\
    registration_results run =
      results_of s (registration_batch json_dumps count env) /\
    len (registration_results run) = count /\
    requests_made count s s' /\
    registration_completed run =
      len (filter (fun p => (status (result_of s p) =? 201) ||
                            (status (result_of s p) =? 429))
             (registration_batch json_dumps count env)) /\
    0 <= registration_completed run <= count /\
    registration_average_ms run = ((t1 - t0) / inject_Z count * 1000)%Q.
Proof.
  intros Hpos Hperm.
  set (batch := registration_batch json_dumps count env).
  assert (Hlen : len batch = count).
  { unfold len, batch. rewrite registration_batch_length. lia. }
  destruct (runBatch_total batch sched s) as (s' & rs & Hrun).
  { unfold batch. now rewrite registration_batch_length. }
  destruct (runBatch_results _ _ _ _ _ Hrun) as [Hrs _].
  destruct (requests_made_batch _ _ _ _ _ Hrun) as [Hmade Hlrs].
  exists s'. eexists. split.
  { unfold test_concurrent_registrations, sbind, gathered. fold batch.
    unfold runBatch in Hrun. rewrite Hrun.
    destruct (count =? 0) eqn:E; [apply Z.eqb_eq in E; lia|]. reflexivity. }
  cbn [registration_results registration_completed registration_average_ms].
  split; [exact Hrs|].
  split; [unfold len in *; rewrite Hlrs; exact Hlen|].
  split; [now rewrite <- Hlen|].
  assert (Hc : count_status_in [201; 429] rs =
               len (filter (fun p => (status (result_of s p) =? 201) ||
                                     (status (result_of s p) =? 429)) batch)).
  { rewrite Hrs, count_status_in_results_of. unfold len. do 2 f_equal.
    apply filter_ext. intros p. simpl. now rewrite orb_false_r. }
  split; [exact Hc|]. split; [|reflexivity].
  rewrite Hc. unfold len in *.
  pose proof (filter_length_bound
                (fun p => (status (result_of s p) =? 201) ||
                          (status (result_of s p) =? 429)) batch).
  lia.
Qed.

(** X15: when every registration of the batch is answered with status 429
    (rate limited), [test_concurrent_registrations] prints all [count]
    requests as completed, although [make_request] has recorded every one of
    them as an error: [error_count] is [count] higher and [success_count] is
    as before. *)
Theorem rate_limited_registrations_count_as_completed
    count env sched t0 t1 s :
  0 < count ->
  Permutation sched (seq 0 (Z.to_nat count)) ->
  Forall (fun p => exists b,
            snd (http_call (fst p) (snd p) s) = inr (429, b))
    (registration_batch json_dumps count env) ->
  exists s' run,
    test_concurrent_registrations json_dumps count env sched t0 t1 s =
      Some (s', inr run) /\
    registration_completed run = count /\
    error_count (results s') = error_count (results s) + count /\
    success_count (results s') = success_count (results s).
Proof.
  intros Hpos Hperm Hall. rewrite Forall_forall in Hall.
  set (batch := registration_batch json_dumps count env) in *.
  assert (Hlen : len batch = count).
  { unfold len, batch. rewrite registration_batch_length. lia. }
  destruct (runBatch_total batch sched s) as (s' & rs & Hrun).
  { unfold batch. now rewrite registration_batch_length. }
  destruct (runBatch_results _ _ _ _ _ Hrun) as [Hrs _].
  destruct (runBatch_counters _ _ _ _ _ Hrun) as [Hsc Hec].
  exists s'. eexists. split.
  { unfold test_concurrent_registrations, sbind, gathered. fold batch.
    unfold runBatch in Hrun. rewrite Hrun.
    destruct (count =? 0) eqn:E; [apply Z.eqb_eq in E; lia|]. reflexivity. }
  cbn [registration_completed].
  split.
  { rewrite Hrs, count_status_in_results_of, filter_all; [exact Hlen|].
    intros p Hp. destruct (Hall p Hp) as [b Hb]. unfold result_of.
    rewrite Hb. reflexivity. }
  assert (Hfail : forall p, In p batch -> succeeds s p = false).
  { intros p Hp. destruct (Hall p Hp) as [b Hb]. unfold succeeds.
    rewrite Hb. reflexivity. }
  split.
  - rewrite Hec, filter_all; [now rewrite Hlen|].
    intros p Hp. now rewrite (Hfail p Hp).
  - rewrite Hsc, filter_none; [unfold len; simpl; lia | exact Hfail].
Qed.

End RegistrationFacts.

Lemma registrations_of_nothing_witness :
  0 <= 0 /\
  test_concurrent_registrations sample_dumps 0
    (fun _ => exchange (Responded 201 "{}")) [] 10 12 open_driver =
    Some (open_driver,
          inl (Exc "ZeroDivisionError" "float division by zero")).
Proof.
  assert (H : 0 <= 0) by lia.
  split; [exact H|].
  exact (registrations_of_nothing sample_dumps 0 (fun _ => exchange (Responded 201 "{}"))
           10 12 open_driver H).
Defined.

Lemma registrations_report_witness :
  0 < 2 /\
  Permutation [1; 0]%nat (seq 0 (Z.to_nat 2)) /\
  exists s' run,
    test_concurrent_registrations sample_dumps 2
      (fun _ => exchange (Responded 201 "{}")) [1; 0]%nat 10 12 open_driver =
      Some (s', inr run) /\
    registration_results run =
      results_of open_driver
        (registration_batch sample_dumps 2
           (fun _ => exchange (Responded 201 "{}"))) /\
    len (registration_results run) = 2 /\
    requests_made 2 open_driver s' /\
    registration_completed run =
      len (filter (fun p => (status (result_of open_driver p) =? 201) ||
                            (status (result_of open_driver p) =? 429))
             (registration_batch sample_dumps 2
                (fun _ => exchange (Responded 201 "{}")))) /\
    0 <= registration_completed run <= 2 /\
    registration_average_ms run = ((12 - 10) / inject_Z 2 * 1000)%Q.
Proof.
  assert (H1 : 0 < 2) by lia.
  assert (H2 : Permutation [1; 0]%nat (seq 0 (Z.to_nat 2)))
    by (simpl; apply perm_swap).
  split; [exact H1|]. split; [exact H2|].
  exact (registrations_report sample_dumps 2 (fun _ => exchange (Responded 201 "{}"))
           [1; 0]%nat 10 12 open_driver H1 H2).
Defined.

Lemma rate_limited_registrations_count_as_completed_witness :
  0 < 2 /\
  Permutation [1; 0]%nat (seq 0 (Z.to_nat 2)) /\
  Forall (fun p => exists b,
            snd (http_call (fst p) (snd p) open_driver) = inr (429, b))
    (registration_batch sample_dumps 2
       (fun _ => exchange (Responded 429 "Too Many Requests"))) /\
  exists s' run,
    test_concurrent_registrations sample_dumps 2
      (fun _ => exchange (Responded 429 "Too Many Requests")) [1; 0]%nat
      10 12 open_driver = Some (s', inr run) /\
    registration_completed run = 2 /\
    error_count (results s') = error_count (results open_driver) + 2 /\
    success_count (results s') = success_count (results open_driver).
Proof.
  assert (H1 : 0 < 2) by lia.
  assert (H2 : Permutation [1; 0]%nat (seq 0 (Z.to_nat 2)))
    by (simpl; apply perm_swap).
  assert (H3 : Forall (fun p => exists b,
                 snd (http_call (fst p) (snd p) open_driver) = inr (429, b))
                 (registration_batch sample_dumps 2
                    (fun _ => exchange (Responded 429 "Too Many Requests")))).
  { repeat constructor; eexists; reflexivity. }
  split; [exact H1|]. split; [exact H2|]. split; [exact H3|].
  exact (rate_limited_registrations_count_as_completed sample_dumps 2
           (fun _ => exchange (Responded 429 "Too Many Requests"))
           [1; 0]%nat 10 12 open_driver H1 H2 H3).
Defined.

(** ** Steps of a scenario *)

Lemma result_of_session s1 s2 p :
  session s1 = session s2 -> result_of s1 p = result_of s2 p.
Proof.
  intros H. unfold result_of. now rewrite (http_call_session _ _ s1 s2 H).
Qed.

Lemma results_of_session s1 s2 batch :
  session s1 = session s2 -> results_of s1 batch = results_of s2 batch.
Proof.
  intros H. unfold results_of. apply map_ext. intros p.
  now rewrite (result_of_session s1 s2 p H).
Qed.

Lemma make_request_pair rq ex s :
  make_request rq ex s =
    (fst (make_request rq ex s), inr (result_of s (rq, ex))).
Proof.
  destruct (make_request_effect rq ex s s eq_refl) as [H _].
  destruct (make_request rq ex s) as [s1 o]. simpl in *. now subst.
Qed.

Lemma sbind_request {B} rq ex (k : Response -> Scenario B) s :
  sbind (await (make_request rq ex)) k s =
  k (result_of s (rq, ex)) (fst (make_request rq ex s)).
Proof. unfold sbind, await. now rewrite make_request_pair. Qed.

Lemma sbind_evaluate {A B} (o : Outcome A) (k : A -> Scenario B) s :
  sbind (evaluate o) k s =
  match o with
  | inl e => Some (s, inl e)
  | inr a => k a s
  end.
Proof. unfold sbind, evaluate. now destruct o. Qed.

Lemma sbind_gathered {B} batch sched
    (k : list (Outcome Response) -> Scenario B) s :
  sbind (gathered (batch_tasks batch) sched) k s =
  match runBatch batch sched s with
  | Some (s', rs) => k rs s'
  | None => None
  end.
Proof.
  unfold sbind, gathered, runBatch.
  now destruct (gather (batch_tasks batch) sched s) as [[s' rs]|].
Qed.

Lemma count_status_in_bounds codes rs :
  0 <= count_status_in codes rs <= len rs.
Proof.
  unfold count_status_in, len. split; [apply Nat2Z.is_nonneg|].
  apply Nat2Z.inj_le, filter_length_bound.
Qed.

Lemma result_of_open rq ex s :
  session_open s = true ->
  (method rq = "GET" \/ method rq = "POST") ->
  result_of s (rq, ex) =
    match reply ex with
    | Responded st b =>
        {| status := st; body := b; response_time := latency ex |}
    | Raised e => {| status := 0; body := str e; response_time := 0 |}
    end.
Proof.
  intros Hopen Hm. unfold result_of, session_open in *. cbn [fst snd].
  unfold http_call, session_call, bind, get_self, raise, ret.
  destruct Hm as [-> | ->]; cbn;
    (destruct (session s) as [c|]; [|discriminate]);
    (destruct (closed c); [discriminate|]);
    destruct (reply ex); reflexivity.
Qed.

Section ScenarioFacts.

Variable json_loads : string -> Outcome Json.
Variable json_dumps : Json -> string.
Variable py_repr : Json -> string.

(** ** [test_customer_operations] *)

Lemma create_batch_length token org count env :
  List.length (create_batch json_dumps token org count env) = count.
Proof. unfold create_batch. now rewrite length_map, length_seq. Qed.

Lemma list_batch_length token env :
  List.length (list_batch token env) = 10%nat.
Proof. unfold list_batch. now rewrite length_map, length_seq. Qed.

(** X16: every execution of [test_customer_operations] ends in one of two
    ways.  Either exactly one request (the profile) has been made, and the
    function returned without an organization or raised while reading the
    profile body; or the profile body decoded to a dictionary whose
    [organizationId] is truthy, exactly 1 + count + 10 requests have been
    made, and the function returned [count] creation results and 10 listing
    results, in dispatch order, with printed counts of their 201 and 200
    answers. *)
Theorem customer_operations_outcomes token count profile creations
    creations_sched listings listings_sched s s' o :
  test_customer_operations json_loads json_dumps token count profile
    creations creations_sched listings listings_sched s = Some (s', o) ->
  (requests_made 1 s s' /\
   (o = inr NoOrganization \/ exists e, o = inl e))
  \/
  (exists fields org,
     json_loads
       (body (result_of s
                (get_request "/auth/profile" (Some (bearer token)), profile)))
       = inr (JDict fields) /\
     lookup "organizationId" fields = Some org /\ truthy org = true /\
     requests_made (1 + Z.of_nat count + 10) s s' /\
     o = inr (CustomersDone
                (results_of s (create_batch json_dumps token org count
                                 creations))
                (count_status_in [201]
                   (results_of s (create_batch json_dumps token org count
                                    creations)))
                (results_of s (list_batch token listings))
                (count_status_in [200]
                   (results_of s (list_batch token listings))))).
Proof.
  unfold test_customer_operations. rewrite sbind_request.
  set (rq := get_request "/auth/profile" (Some (bearer token))).
  pose proof (requests_made_request rq profile s) as H1.
  set (s1 := fst (make_request rq profile s)) in *.
  rewrite sbind_evaluate.
  destruct (json_loads (body (result_of s (rq, profile)))) as [e|decoded]
    eqn:Hdec.
  { intros H. inversion H. subst. left. split; [exact H1|]. right. eauto. }
  rewrite sbind_evaluate.
  destruct (py_get decoded "organizationId") as [e|org] eqn:Hget.
  { intros H. inversion H. subst. left. split; [exact H1|]. right. eauto. }
  destruct (truthy org) eqn:Htruthy; cbn [negb].
  2:{ intros H. inversion H. subst. left. split; [exact H1|]. now left. }
  rewrite sbind_gathered.
  destruct (runBatch _ creations_sched s1) as [[s2 cr]|] eqn:Hc;
    [|discriminate].
  rewrite sbind_gathered.
  destruct (runBatch _ listings_sched s2) as [[s3 lr]|] eqn:Hl;
    [|discriminate].
  intros H. inversion H. subst s' o. clear H. right.
  destruct decoded as [| | | | |items|fields]; try discriminate.
  unfold py_get in Hget. inversion Hget as [Horg]. clear Hget.
  destruct (lookup "organizationId" fields) as [v|] eqn:Hlook;
    [|subst org; discriminate].
  subst v. exists fields, org.
  destruct (requests_made_batch _ _ _ _ _ Hc) as [H2 _].
  destruct (requests_made_batch _ _ _ _ _ Hl) as [H3 _].
  destruct (runBatch_results _ _ _ _ _ Hc) as [Hcr _].
  destruct (runBatch_results _ _ _ _ _ Hl) as [Hlr _].
  assert (Hs1 : session s1 = session s) by apply H1.
  assert (Hs2 : session s2 = session s)
    by (rewrite <- Hs1; apply H2).
  rewrite (results_of_session s1 s _ Hs1) in Hcr.
  rewrite (results_of_session s2 s _ Hs2) in Hlr.
  subst cr lr.
  pose proof (requests_made_trans _ _ _ _ _
                (requests_made_trans _ _ _ _ _ H1 H2) H3) as H4.
  unfold len in H4. rewrite create_batch_length, list_batch_length in H4.
  split; [reflexivity|]. split; [exact Hlook|]. split; [exact Htruthy|].
  split; [exact H4 | reflexivity].
Qed.

(** X17: when the profile body decodes to a dictionary with a truthy
    [organizationId] and both batches complete, [test_customer_operations]
    does return: after 1 + count + 10 requests it gives the [count] creation
    results and the 10 listing results. *)
Theorem customer_operations_complete token count profile creations
    creations_sched listings listings_sched s fields org :
  json_loads
    (body (result_of s
             (get_request "/auth/profile" (Some (bearer token)), profile)))
    = inr (JDict fields) ->
  lookup "organizationId" fields = Some org ->
  truthy org = true ->
  Permutation creations_sched (seq 0 count) ->
  Permutation listings_sched (seq 0 10) ->
  exists s' cr sc lr sl,
    test_customer_operations json_loads json_dumps token count profile
      creations creations_sched listings listings_sched s =
      Some (s', inr (CustomersDone cr sc lr sl)) /\
    List.length cr = count /\ List.length lr = 10%nat /\
    0 <= sc <= Z.of_nat count /\ 0 <= sl <= 10 /\
    requests_made (1 + Z.of_nat count + 10) s s'.
Proof.
  intros Hdec Hlook Htruthy Hpc Hpl.
  unfold test_customer_operations. rewrite sbind_request.
  set (rq := get_request "/auth/profile" (Some (bearer token))) in *.
  pose proof (requests_made_request rq profile s) as H1.
  set (s1 := fst (make_request rq profile s)) in *.
  rewrite sbind_evaluate, Hdec, sbind_evaluate. unfold py_get.
  rewrite Hlook, Htruthy. cbn [negb].
  rewrite sbind_gathered.
  destruct (runBatch_total (create_batch json_dumps token org count creations)
              creations_sched s1) as (s2 & cr & Hc).
  { now rewrite create_batch_length. }
  rewrite Hc, sbind_gathered.
  destruct (runBatch_total (list_batch token listings) listings_sched s2)
    as (s3 & lr & Hl).
  { now rewrite list_batch_length. }
  rewrite Hl.
  destruct (requests_made_batch _ _ _ _ _ Hc) as [H2 Hlc].
  destruct (requests_made_batch _ _ _ _ _ Hl) as [H3 Hll].
  rewrite create_batch_length in Hlc. rewrite list_batch_length in Hll.
  eexists s3, cr, _, lr, _. split; [reflexivity|].
  split; [exact Hlc|]. split; [exact Hll|].
  pose proof (count_status_in_bounds [201] cr) as Hb1.
  pose proof (count_status_in_bounds [200] lr) as Hb2.
  unfold len in Hb1, Hb2. rewrite Hlc in Hb1. rewrite Hll in Hb2.
  split; [exact Hb1|]. split; [exact Hb2|].
  pose proof (requests_made_trans _ _ _ _ _
                (requests_made_trans _ _ _ _ _ H1 H2) H3) as H4.
  unfold len in H4. rewrite create_batch_length, list_batch_length in H4.
  exact H4.
Qed.

(** ** [test_pipeline_operations] *)

Lemma comprehension_length {A B} (f : A -> Outcome B) xs ys :
  comprehension f xs = inr ys -> List.length ys = List.length xs.
Proof.
  revert ys. induction xs as [|x xs IH]; intros ys H; simpl in H.
  - inversion H. reflexivity.
  - destruct (f x) as [e|y]; [discriminate|].
    destruct (comprehension f xs) as [e|ys']; [discriminate|].
    inversion H. simpl. f_equal. now apply IH.
Qed.

Lemma stages_counted stages number elements (f : Json -> Outcome Json) names :
  py_len stages = inr number ->
  py_iter stages = inr elements ->
  comprehension f elements = inr names ->
  number = len names.
Proof.
  intros Hlen Hiter Hnames. apply comprehension_length in Hnames.
  unfold len. rewrite Hnames.
  destruct stages; simpl in Hlen, Hiter; try discriminate;
    inversion Hlen; inversion Hiter; unfold len;
    now rewrite ?length_map.
Qed.

Lemma py_in_spec name values :
  py_in name values = true -> In (JString name) values.
Proof.
  unfold py_in. rewrite existsb_exists. intros (v & Hin & Hv).
  destruct v; try discriminate. apply String.eqb_eq in Hv. now subst.
Qed.

Lemma expected_stages_distinct : NoDup expected_stages.
Proof.
  unfold expected_stages.
  repeat (constructor;
          [simpl; intros H;
           repeat (destruct H as [H | H]; [discriminate H|]); exact H|]).
  constructor.
Qed.

(** All the expected stages can only be found among at least four names. *)
Lemma expected_stages_need_four names :
  forallb (fun stage => py_in stage names) expected_stages = true ->
  4 <= len names.
Proof.
  intros H. rewrite forallb_forall in H.
  assert (Hincl : incl (map JString expected_stages) names).
  { intros v Hv. apply in_map_iff in Hv. destruct Hv as (name & <- & Hin).
    apply py_in_spec. now apply H. }
  assert (Hnd : NoDup (map JString expected_stages)).
  { apply Injective_map_NoDup; [|exact expected_stages_distinct].
    intros a b E. now inversion E. }
  pose proof (NoDup_incl_length Hnd Hincl) as Hle.
  rewrite length_map in Hle. unfold len. simpl in Hle. lia.
Qed.

(** [test_pipeline_operations] always returns or raises, after one request
    when the pipelines were not listed with status 200 or when there is no
    pipeline to look at, after two otherwise. *)
Lemma test_pipeline_operations_spec token listing stages_listing s :
  achieves
    (test_pipeline_operations json_loads py_repr token listing stages_listing)
    s
    (fun s' o =>
       (requests_made 1 s s' /\
        (status (result_of s (get_request "/pipelines"
                                (Some (bearer token)), listing)) <> 200 ->
         o = inr PipelinesNotListed) /\
        (o = inr PipelinesNotListed \/ o = inr NoPipeline \/
         exists e, o = inl e))
       \/
       (requests_made 2 s s' /\
        status (result_of s (get_request "/pipelines"
                               (Some (bearer token)), listing)) = 200 /\
        (o = inr StagesNotListed \/ (exists e, o = inl e) \/
         exists number localized,
           o = inr (StagesListed number localized) /\
           (localized = true -> 4 <= number)))).
Proof.
  unfold achieves, test_pipeline_operations. rewrite sbind_request.
  set (rq := get_request "/pipelines" (Some (bearer token))).
  pose proof (requests_made_request rq listing s) as H1.
  set (s1 := fst (make_request rq listing s)) in *.
  set (r1 := result_of s (rq, listing)).
  destruct (status r1 =? 200) eqn:E200; cbn [negb].
  2:{ eexists _, _. split; [reflexivity|]. left.
      split; [exact H1|]. split; [reflexivity | now left]. }
  apply Z.eqb_eq in E200.
  assert (Hone : forall o : Outcome PipelineRun,
            (o = inr NoPipeline \/ exists e, o = inl e) ->
            exists s' o',
              Some (s1, o) = Some (s', o') /\
              (requests_made 1 s s' /\
               (status r1 <> 200 -> o' = inr PipelinesNotListed) /\
               (o' = inr PipelinesNotListed \/ o' = inr NoPipeline \/
                exists e, o' = inl e)
               \/
               requests_made 2 s s' /\ status r1 = 200 /\
               (o' = inr StagesNotListed \/ (exists e, o' = inl e) \/
                exists number localized,
                  o' = inr (StagesListed number localized) /\
                  (localized = true -> 4 <= number)))).
  { intros o Ho. exists s1, o. split; [reflexivity|]. left.
    split; [exact H1|]. split; [intros Hc; contradiction|]. right. exact Ho. }
  rewrite sbind_evaluate.
  destruct (json_loads (body r1)) as [e|decoded];
    [apply Hone; right; eauto|].
  rewrite sbind_evaluate.
  destruct (py_getitem decoded "data") as [e|pipelines];
    [apply Hone; right; eauto|].
  destruct (truthy pipelines); cbn [negb]; [|apply Hone; now left].
  rewrite sbind_evaluate.
  destruct (py_first pipelines) as [e|first]; [apply Hone; right; eauto|].
  rewrite sbind_evaluate.
  destruct (py_getitem first "id") as [e|pipeline_id];
    [apply Hone; right; eauto|].
  rewrite sbind_request.
  set (rq2 := get_request _ (Some (bearer token))).
  pose proof (requests_made_request rq2 stages_listing s1) as H2.
  set (s2 := fst (make_request rq2 stages_listing s1)) in *.
  set (r2 := result_of s1 (rq2, stages_listing)).
  pose proof (requests_made_trans _ _ _ _ _ H1 H2) as H12.
  change (1 + 1) with 2 in H12.
  assert (Htwo : forall o : Outcome PipelineRun,
            (o = inr StagesNotListed \/ (exists e, o = inl e) \/
             exists number localized,
               o = inr (StagesListed number localized) /\
               (localized = true -> 4 <= number)) ->
            exists s' o',
              Some (s2, o) = Some (s', o') /\
              (requests_made 1 s s' /\
               (status r1 <> 200 -> o' = inr PipelinesNotListed) /\
               (o' = inr PipelinesNotListed \/ o' = inr NoPipeline \/
                exists e, o' = inl e)
               \/
               requests_made 2 s s' /\ status r1 = 200 /\
               (o' = inr StagesNotListed \/ (exists e, o' = inl e) \/
                exists number localized,
                  o' = inr (StagesListed number localized) /\
                  (localized = true -> 4 <= number)))).
  { intros o Ho. exists s2, o. split; [reflexivity|]. right.
    split; [exact H12|]. split; [exact E200 | exact Ho]. }
  destruct (status r2 =? 200); cbn [negb]; [|apply Htwo; now left].
  rewrite sbind_evaluate.
  destruct (json_loads (body r2)) as [e|decoded2];
    [apply Htwo; right; left; eauto|].
  rewrite sbind_evaluate.
  destruct (py_getitem decoded2 "data") as [e|stages_data];
    [apply Htwo; right; left; eauto|].
  rewrite sbind_evaluate.
  destruct (py_getitem stages_data "stages") as [e|stages];
    [apply Htwo; right; left; eauto|].
  rewrite sbind_evaluate.
  destruct (py_len stages) as [e|number] eqn:Hlen;
    [apply Htwo; right; left; eauto|].
  rewrite sbind_evaluate.
  destruct (py_iter stages) as [e|elements] eqn:Hiter;
    [apply Htwo; right; left; eauto|].
  rewrite sbind_evaluate.
  destruct (comprehension _ elements) as [e|names] eqn:Hnames;
    [apply Htwo; right; left; eauto|].
  apply Htwo. right. right. eexists _, _. split; [reflexivity|].
  intros Hloc. rewrite (stages_counted _ _ _ _ _ Hlen Hiter Hnames).
  now apply expected_stages_need_four.
Qed.

(** X18: [test_pipeline_operations] always comes to an end, after one or
    two requests and with the session as it was.  When the pipelines are
    not listed with status 200 it stops after that one request and prints
    nothing; it reports stages only after two requests. *)
Theorem pipeline_operations_requests token listing stages_listing s :
  exists s' o,
    test_pipeline_operations json_loads py_repr token listing stages_listing
      s = Some (s', o) /\
    requests_within 1 2 s s' /\
    (status (result_of s (get_request "/pipelines"
                            (Some (bearer token)), listing)) <> 200 ->
     o = inr PipelinesNotListed /\ requests_made 1 s s') /\
    (forall number localized,
       o = inr (StagesListed number localized) -> requests_made 2 s s').
Proof.
  destruct (test_pipeline_operations_spec token listing stages_listing s)
    as (s' & o & Hrun & Hpost).
  exists s', o. split; [exact Hrun|].
  destruct Hpost as [(H1 & Hnot & Hshape) | (H2 & H200 & Hshape)].
  - split; [exists 1; split; [lia | exact H1]|].
    split; [intros Hne; split; [now apply Hnot | exact H1]|].
    intros number localized Ho. subst o.
    destruct Hshape as [H | [H | [e H]]]; discriminate.
  - split; [exists 2; split; [lia | exact H2]|].
    split; [intros Hne; contradiction|].
    intros number localized _. exact H2.
Qed.

(** X19: [test_pipeline_operations] reports the localization as verified
    only for a pipeline with at least four stages: the four expected stage
    names are distinct and each must be the name of a stage. *)
Theorem localization_needs_four_stages token listing stages_listing s s'
    number :
  test_pipeline_operations json_loads py_repr token listing stages_listing
    s = Some (s', inr (StagesListed number true)) ->
  4 <= number.
Proof.
  intros H.
  destruct (test_pipeline_operations_spec token listing stages_listing s)
    as (s1 & o & Hrun & Hpost).
  rewrite H in Hrun. inversion Hrun. subst s1 o.
  destruct Hpost as [(_ & _ & Hshape) | (_ & _ & Hshape)].
  - destruct Hshape as [Hc | [Hc | [e Hc]]]; discriminate.
  - destruct Hshape as [Hc | [[e Hc] | (n & loc & Ho & Hfour)]];
      try discriminate.
    inversion Ho. subst. now apply Hfour.
Qed.

(** ** [test_ai_performance] *)

Lemma chat_batch_length token count env :
  List.length (chat_batch json_dumps token count env) = count.
Proof. unfold chat_batch. now rewrite length_map, length_seq. Qed.

Lemma ai_performance_outcomes_aux token count configure chats chats_sched
    s s' o :
  test_ai_performance json_dumps token count configure chats chats_sched s =
    Some (s', o) ->
  requests_made 1 s s' \/ requests_made (1 + Z.of_nat count) s s'.
Proof.
  unfold test_ai_performance. rewrite sbind_request.
  set (rq := post_request json_dumps "/ai/assistant/configure"
               assistant_configuration (Some (bearer token))).
  pose proof (requests_made_request rq configure s) as H1.
  set (s1 := fst (make_request rq configure s)) in *.
  destruct (status (result_of s (rq, configure)) =? 201); cbn [negb].
  2:{ intros H. inversion H. subst. now left. }
  rewrite sbind_gathered.
  destruct (runBatch _ chats_sched s1) as [[s2 cr]|] eqn:Hc; [|discriminate].
  intros H. inversion H. subst s' o. right.
  destruct (requests_made_batch _ _ _ _ _ Hc) as [H2 _].
  pose proof (requests_made_trans _ _ _ _ _ H1 H2) as H3.
  unfold len in H3. now rewrite chat_batch_length in H3.
Qed.

(** X20: every execution of [test_ai_performance] ends in one of two ways.
    When the configuration is not answered with status 201, exactly one
    request has been made, no chat request is sent and the function returns
    without results.  Otherwise exactly 1 + count requests have been made
    and the function returns the [count] chat results in dispatch order,
    having printed the number of 200 answers among them. *)
Theorem ai_performance_outcomes token count configure chats chats_sched
    s s' o :
  test_ai_performance json_dumps token count configure chats chats_sched s =
    Some (s', o) ->
  (status (result_of s
             (post_request json_dumps "/ai/assistant/configure"
                assistant_configuration (Some (bearer token)), configure))
     <> 201 /\
   o = inr ConfigurationFailed /\ requests_made 1 s s')
  \/
  (status (result_of s
             (post_request json_dumps "/ai/assistant/configure"
                assistant_configuration (Some (bearer token)), configure))
     = 201 /\
   o = inr (ChatsDone
              (results_of s (chat_batch json_dumps token count chats))
              (count_status_in [200]
                 (results_of s (chat_batch json_dumps token count chats)))) /\
   List.length (results_of s (chat_batch json_dumps token count chats)) =
     count /\
   requests_made (1 + Z.of_nat count) s s').
Proof.
  unfold test_ai_performance. rewrite sbind_request.
  set (rq := post_request json_dumps "/ai/assistant/configure"
               assistant_configuration (Some (bearer token))).
  pose proof (requests_made_request rq configure s) as H1.
  set (s1 := fst (make_request rq configure s)) in *.
  destruct (status (result_of s (rq, configure)) =? 201) eqn:E; cbn [negb].
  2:{ intros H. inversion H. subst. left. apply Z.eqb_neq in E. auto. }
  apply Z.eqb_eq in E. rewrite sbind_gathered.
  destruct (runBatch _ chats_sched s1) as [[s2 cr]|] eqn:Hc; [|discriminate].
  intros H. inversion H. subst s' o. clear H. right.
  destruct (requests_made_batch _ _ _ _ _ Hc) as [H2 _].
  destruct (runBatch_results _ _ _ _ _ Hc) as [Hcr _].
  rewrite (results_of_session s1 s _ (proj1 H1)) in Hcr. subst cr.
  split; [exact E|]. split; [reflexivity|].
  split; [unfold results_of; now rewrite length_map, chat_batch_length|].
  pose proof (requests_made_trans _ _ _ _ _ H1 H2) as H3.
  unfold len in H3. now rewrite chat_batch_length in H3.
Qed.

(** ** [run_comprehensive_stress_test] *)

Lemma requests_within_made n s s' :
  requests_made n s s' -> requests_within n n s s'.
Proof. intros H. exists n. split; [lia | exact H]. Qed.

Lemma requests_within_trans a b c d s1 s2 s3 :
  requests_within a b s1 s2 -> requests_within c d s2 s3 ->
  requests_within (a + c) (b + d) s1 s3.
Proof.
  intros (n & Hn & H1) (m & Hm & H2). exists (n + m).
  split; [lia | eapply requests_made_trans; eauto].
Qed.

Lemma requests_within_weaken a b a' b' s s' :
  requests_within a b s s' -> a' <= a -> b <= b' ->
  requests_within a' b' s s'.
Proof. intros (n & Hn & H) Ha Hb. exists n. split; [lia | exact H]. Qed.

Lemma authenticated_operations_requests token count env sched s s' o :
  test_authenticated_operations token count env sched s = Some (s', o) ->
  requests_made (Z.of_nat count) s s'.
Proof.
  intros H. apply test_authenticated_operations_inv in H.
  destruct H as (rs & st & Hrun & _).
  destruct (requests_made_batch _ _ _ _ _ Hrun) as [H _].
  unfold len in H. now rewrite authenticated_batch_length in H.
Qed.

Lemma customer_operations_requests token count profile creations
    creations_sched listings listings_sched s s' o :
  test_customer_operations json_loads json_dumps token count profile
    creations creations_sched listings listings_sched s = Some (s', o) ->
  requests_within 1 (1 + Z.of_nat count + 10) s s'.
Proof.
  intros H. unfold test_customer_operations in H.
  rewrite sbind_request in H.
  set (rq := get_request "/auth/profile" (Some (bearer token))) in *.
  pose proof (requests_made_request rq profile s) as H1.
  set (s1 := fst (make_request rq profile s)) in *.
  assert (Hone : requests_within 1 (1 + Z.of_nat count + 10) s s1).
  { exists 1. split; [lia | exact H1]. }
  rewrite sbind_evaluate in H.
  destruct (json_loads _) as [e|decoded];
    [inversion H; subst; exact Hone|].
  rewrite sbind_evaluate in H.
  destruct (py_get decoded "organizationId") as [e|org];
    [inversion H; subst; exact Hone|].
  destruct (truthy org); cbn [negb] in H;
    [|inversion H; subst; exact Hone].
  rewrite sbind_gathered in H.
  destruct (runBatch _ creations_sched s1) as [[s2 cr]|] eqn:Hc;
    [|discriminate].
  rewrite sbind_gathered in H.
  destruct (runBatch _ listings_sched s2) as [[s3 lr]|] eqn:Hl;
    [|discriminate].
  inversion H. subst s' o.
  destruct (requests_made_batch _ _ _ _ _ Hc) as [H2 _].
  destruct (requests_made_batch _ _ _ _ _ Hl) as [H3 _].
  pose proof (requests_made_trans _ _ _ _ _
                (requests_made_trans _ _ _ _ _ H1 H2) H3) as H4.
  unfold len in H4. rewrite create_batch_length, list_batch_length in H4.
  exists (1 + Z.of_nat count + Z.of_nat 10). split; [lia | exact H4].
Qed.

Lemma pipeline_operations_within token listing stages_listing s s' o :
  test_pipeline_operations json_loads py_repr token listing stages_listing
    s = Some (s', o) ->
  requests_within 1 2 s s'.
Proof.
  intros H.
  destruct (test_pipeline_operations_spec token listing stages_listing s)
    as (s1 & o1 & Hrun & Hpost).
  rewrite H in Hrun. inversion Hrun. subst s1 o1.
  destruct Hpost as [(H1 & _) | (H2 & _)];
    [exists 1 | exists 2]; split; try lia; assumption.
Qed.

Lemma ai_performance_within token count configure chats chats_sched s s' o :
  test_ai_performance json_dumps token count configure chats chats_sched s =
    Some (s', o) ->
  requests_within 1 (1 + Z.of_nat count) s s'.
Proof.
  intros H. apply ai_performance_outcomes_aux in H.
  destruct H as [H | H]; [exists 1 | exists (1 + Z.of_nat count)];
    split; try lia; assumption.
Qed.

Lemma sbind_unfold {A B} (m : Scenario A) (k : A -> Scenario B) s :
  sbind m k s =
  match m s with
  | None => None
  | Some (s', inl e) => Some (s', inl e)
  | Some (s', inr a) => k a s'
  end.
Proof. reflexivity. Qed.

Lemma success_rate_above_95 sc ec :
  0 <= sc -> 0 <= ec -> sc + ec <> 0 ->
  ~ (inject_Z sc / inject_Z (sc + ec) * 100 <= 95)%Q ->
  19 * ec < sc.
Proof.
  intros Hsc Hec Hne Hrate.
  destruct (Z_lt_le_dec (19 * ec) sc) as [Hlt | Hle]; [exact Hlt|].
  exfalso. apply Hrate.
  assert (Hn : (0 < inject_Z (sc + ec))%Q).
  { change 0%Q with (inject_Z 0). rewrite <- Zlt_Qlt. lia. }
  assert (Hx : (inject_Z sc / inject_Z (sc + ec) <= 95 # 100)%Q).
  { apply Qle_shift_div_r; [exact Hn|].
    unfold Qle, Qmult, inject_Z. cbn [Qnum Qden]. lia. }
  lra.
Qed.

(** The results and the verdict are computed from the driver and leave it
    as it was. *)
Lemma results_and_verdict_spec s :
  exists o,
    results_and_verdict s = Some (s, o) /\
    forall summary shown rate passed,
      o = inr (ResultsPrinted summary shown rate passed) ->
      shown = firstn 5 (errors (results s)) /\
      total s <> 0 /\
      rate = (inject_Z (success_count (results s))
              / inject_Z (total s) * 100)%Q /\
      (passed = true ->
       ~ (rate <= 95)%Q /\
       exists average,
         mean (response_times (results s)) = inr average /\
         ~ (500 <= average)%Q).
Proof.
  unfold results_and_verdict.
  destruct (results_phase_returns s) as (f & _ & Hphase).
  unfold sbind at 1. unfold await at 1. rewrite Hphase.
  unfold sbind at 1. unfold await at 1. unfold get_self.
  rewrite sbind_evaluate. fold (total s).
  destruct (total s =? 0) eqn:E0.
  { eexists. split; [reflexivity|]. intros; discriminate. }
  apply Z.eqb_neq in E0. rewrite sbind_evaluate.
  set (rate := (inject_Z (success_count (results s))
                / inject_Z (total s) * 100)%Q).
  destruct (Qle_bool rate 95) eqn:E95.
  { eexists. split; [reflexivity|].
    intros sm sh r p H. inversion H. subst.
    split; [reflexivity|]. split; [exact E0|]. split; [reflexivity|].
    intros Hp. discriminate. }
  cbn [obind].
  destruct (mean (response_times (results s))) as [e|average] eqn:Hmean;
    cbn [obind].
  { eexists. split; [reflexivity|]. intros; discriminate. }
  eexists. split; [reflexivity|].
  intros sm sh r p H. inversion H. subst.
  split; [reflexivity|]. split; [exact E0|]. split; [reflexivity|].
  intros Hp. split.
  - intros Hc. apply Qle_bool_iff in Hc. fold rate in Hc. congruence.
  - exists average. split; [reflexivity|]. intros Hc.
    apply Qle_bool_iff in Hc. rewrite Hc in Hp. discriminate.
Qed.

(** The body of the run: one request at least, 93 at most, and the results
    are printed only after 57 requests at least. *)
Lemma stress_test_body_spec i s s' o :
  stress_test_body json_loads json_dumps py_repr i s = Some (s', o) ->
  requests_within 1 93 s s' /\
  (forall summary shown rate passed,
     o = inr (ResultsPrinted summary shown rate passed) ->
     requests_within 57 93 s s' /\
     results_and_verdict s' = Some (s', o)).
Proof.
  unfold stress_test_body. rewrite sbind_request.
  match goal with
  | |- context [make_request ?rq (register_exchange i) s] =>
      pose proof (requests_within_made _ _ _
                    (requests_made_request rq (register_exchange i) s)) as W1;
      set (s1 := fst (make_request rq (register_exchange i) s)) in *
  end.
  destruct (status _ =? 429).
  { intros E. inversion E. subst. split;
      [eapply requests_within_weaken; [exact W1 | lia | lia]
      | intros; discriminate]. }
  rewrite sbind_request.
  match goal with
  | |- context [make_request ?rq (activate_exchange i) s1] =>
      pose proof (requests_within_trans _ _ _ _ _ _ _ W1
                    (requests_within_made _ _ _
                       (requests_made_request rq (activate_exchange i) s1)))
        as W2;
      set (s2 := fst (make_request rq (activate_exchange i) s1)) in *
  end.
  rewrite sbind_request.
  match goal with
  | |- context [make_request ?rq (login_exchange i) s2] =>
      pose proof (requests_within_trans _ _ _ _ _ _ _ W2
                    (requests_within_made _ _ _
                       (requests_made_request rq (login_exchange i) s2)))
        as W3;
      set (s3 := fst (make_request rq (login_exchange i) s2)) in *
  end.
  assert (L3 : forall o3 : Outcome RunReport,
            (forall sm sh r p, o3 <> inr (ResultsPrinted sm sh r p)) ->
            Some (s3, o3) = Some (s', o) ->
            requests_within 1 93 s s' /\
            (forall summary shown rate passed,
               o = inr (ResultsPrinted summary shown rate passed) ->
               requests_within 57 93 s s' /\
               results_and_verdict s' = Some (s', o))).
  { intros o3 Hne E. inversion E. subst. split;
      [eapply requests_within_weaken; [exact W3 | lia | lia]|].
    intros sm sh r p Ho. exfalso. exact (Hne _ _ _ _ Ho). }
  destruct (status _ =? 200); cbn [negb];
    [|apply L3; intros; discriminate].
  rewrite sbind_evaluate.
  destruct (json_loads _) as [e|decoded]; [apply L3; intros; discriminate|].
  rewrite sbind_evaluate.
  destruct (py_getitem decoded "accessToken") as [e|access_token];
    [apply L3; intros; discriminate|].
  clear L3. rewrite sbind_request.
  match goal with
  | |- context [make_request ?rq (finish_exchange i) s3] =>
      pose proof (requests_within_trans _ _ _ _ _ _ _ W3
                    (requests_within_made _ _ _
                       (requests_made_request rq (finish_exchange i) s3)))
        as W4;
      set (s4 := fst (make_request rq (finish_exchange i) s3)) in *
  end.
  rewrite sbind_unfold.
  destruct (test_authenticated_operations _ _ _ _ s4) as [[s5 o5]|] eqn:E5;
    [|discriminate].
  apply authenticated_operations_requests in E5.
  pose proof (requests_within_trans _ _ _ _ _ _ _ W4
                (requests_within_made _ _ _ E5)) as W5.
  destruct o5 as [e|run5].
  { intros E. inversion E. subst. split;
      [eapply requests_within_weaken; [exact W5 | lia | lia]
      | intros; discriminate]. }
  rewrite sbind_unfold.
  destruct (test_customer_operations _ _ _ _ _ _ _ _ _ s5)
    as [[s6 o6]|] eqn:E6; [|discriminate].
  apply customer_operations_requests in E6.
  pose proof (requests_within_trans _ _ _ _ _ _ _ W5 E6) as W6.
  destruct o6 as [e|run6].
  { intros E. inversion E. subst. split;
      [eapply requests_within_weaken; [exact W6 | lia | lia]
      | intros; discriminate]. }
  rewrite sbind_unfold.
  destruct (test_pipeline_operations _ _ _ _ _ s6) as [[s7 o7]|] eqn:E7;
    [|discriminate].
  apply pipeline_operations_within in E7.
  pose proof (requests_within_trans _ _ _ _ _ _ _ W6 E7) as W7.
  destruct o7 as [e|run7].
  { intros E. inversion E. subst. split;
      [eapply requests_within_weaken; [exact W7 | lia | lia]
      | intros; discriminate]. }
  rewrite sbind_unfold.
  destruct (test_ai_performance _ _ _ _ _ _ s7) as [[s8 o8]|] eqn:E8;
    [|discriminate].
  apply ai_performance_within in E8.
  pose proof (requests_within_trans _ _ _ _ _ _ _ W7 E8) as W8.
  destruct o8 as [e|run8].
  { intros E. inversion E. subst. split;
      [eapply requests_within_weaken; [exact W8 | lia | lia]
      | intros; discriminate]. }
  destruct (results_and_verdict_spec s8) as (o9 & Hr & _).
  rewrite Hr. intros E. inversion E. subst.
  split; [eapply requests_within_weaken; [exact W8 | lia | lia]|].
  intros sm sh r p _. split;
    [eapply requests_within_weaken; [exact W8 | lia | lia] | exact Hr].
Qed.

Lemma run_unfold i s :
  run_comprehensive_stress_test json_loads json_dumps py_repr i s =
  match stress_test_body json_loads json_dumps py_repr i
          (fst (setup_session s)) with
  | None => None
  | Some (s1, o1) =>
      Some (fst (cleanup_session s1),
            inr (match o1 with
                 | inl e => StressTestFailed e
                 | inr report => report
                 end))
  end.
Proof.
  unfold run_comprehensive_stress_test, sbind, await, try_except_finally,
    sreturn.
  cbn [setup_session fst].
  destruct (stress_test_body _ _ _ i _) as [[s1 [e|report]]|];
    [| |reflexivity];
    unfold cleanup_session; destruct (session s1); reflexivity.
Qed.

Lemma cleanup_session_closed s :
  session_open (fst (cleanup_session s)) = false /\
  results (fst (cleanup_session s)) = results s.
Proof.
  unfold cleanup_session, session_open.
  destruct (session s) as [c|] eqn:E; simpl; [auto|]. now rewrite E.
Qed.

(** X21: every execution of [run_comprehensive_stress_test] ends without
    raising and with no open session, whatever happened in between (the
    [except] branch catches, [finally] closes).  It has made at least one
    request and at most 93, neither counter has decreased, and it prints
    results only after at least 57 requests. *)
Theorem run_always_ends_closed i s s' o :
  run_comprehensive_stress_test json_loads json_dumps py_repr i s =
    Some (s', o) ->
  exists report,
    o = inr report /\
    session_open s' = false /\
    total s + 1 <= total s' <= total s + 93 /\
    counters_le s s' /\
    (forall summary shown rate passed,
       report = ResultsPrinted summary shown rate passed ->
       total s + 57 <= total s').
Proof.
  rewrite run_unfold.
  destruct (stress_test_body _ _ _ i _) as [[s1 o1]|] eqn:Hbody;
    [|discriminate].
  intros H. inversion H. subst s' o. clear H.
  destruct (stress_test_body_spec _ _ _ _ Hbody)
    as [(n & Hn & _ & Htot & Hle & _) Hprinted].
  destruct (cleanup_session_closed s1) as [Hclosed Hres].
  eexists. split; [reflexivity|]. split; [exact Hclosed|].
  unfold total, counters_le in *. rewrite Hres.
  cbn [setup_session fst results] in Htot, Hle.
  split; [lia|]. split; [exact Hle|].
  intros sm sh r p Hrep. destruct o1 as [e|report]; [discriminate|].
  subst report.
  destruct (Hprinted _ _ _ _ eq_refl) as [(m & Hm & _ & Htot' & _) _].
  unfold total in Htot'. cbn [setup_session fst results] in Htot'. lia.
Qed.

Lemma answer_open rq ex s :
  session_open s = true ->
  (method rq = "GET" \/ method rq = "POST") ->
  status (result_of s (rq, ex)) = answer ex /\
  body (result_of s (rq, ex)) = answer_body ex.
Proof.
  intros Ho Hm. rewrite (result_of_open rq ex s Ho Hm).
  unfold answer, answer_body. destruct (reply ex); split; reflexivity.
Qed.

Lemma session_open_request rq ex s :
  session_open (fst (make_request rq ex s)) = session_open s.
Proof. unfold session_open. now rewrite make_request_session. Qed.

(** X22: when the registration of the owner is answered with status 429,
    the run stops there: it reports the rate limit, has made exactly one
    request (recorded as an error) and has closed the session. *)
Theorem run_rate_limited i s :
  answer (register_exchange i) = 429 ->
  exists s',
    run_comprehensive_stress_test json_loads json_dumps py_repr i s =
      Some (s', inr RateLimited) /\
    session_open s' = false /\
    total s' = total s + 1 /\
    error_count (results s') = error_count (results s) + 1.
Proof.
  intros H429. rewrite run_unfold. unfold stress_test_body.
  rewrite sbind_request.
  set (s0 := fst (setup_session s)).
  set (rq := post_request json_dumps "/auth/register" owner_registration None).
  destruct (answer_open rq (register_exchange i) s0 eq_refl
              (or_intror eq_refl)) as [Hst _].
  rewrite Hst, H429. cbn [Z.eqb Pos.eqb sreturn].
  eexists. split; [reflexivity|].
  destruct (cleanup_session_closed (fst (make_request rq (register_exchange i) s0)))
    as [Hc Hr].
  split; [exact Hc|]. unfold total. rewrite Hr.
  destruct (make_request_effect rq (register_exchange i) s0 s0 eq_refl)
    as (_ & _ & _ & _ & Hsc & Hec).
  assert (Hf : succeeds s0 (rq, register_exchange i) = false).
  { unfold succeeds. unfold result_of in Hst. cbn [fst snd] in *.
    destruct (snd (http_call rq (register_exchange i) s0)) as [e|[st b]].
    - reflexivity.
    - simpl in Hst. rewrite Hst, H429. reflexivity. }
  rewrite Hf in Hsc, Hec. rewrite Hsc, Hec. subst s0. simpl. split; lia.
Qed.

(** X23: when the registration is not rate limited and the login is not
    answered with status 200, the run reports the failed login after exactly
    three requests (registration, activation, login), tests nothing else and
    closes the session. *)
Theorem run_login_refused i s :
  answer (register_exchange i) <> 429 ->
  answer (login_exchange i) <> 200 ->
  exists s',
    run_comprehensive_stress_test json_loads json_dumps py_repr i s =
      Some (s', inr LoginFailed) /\
    session_open s' = false /\
    total s' = total s + 3.
Proof.
  intros H429 H200. rewrite run_unfold. unfold stress_test_body.
  set (s0 := fst (setup_session s)).
  rewrite sbind_request.
  set (rq1 := post_request json_dumps "/auth/register" owner_registration None).
  destruct (answer_open rq1 (register_exchange i) s0 eq_refl
              (or_intror eq_refl)) as [Hst1 _].
  rewrite Hst1. apply Z.eqb_neq in H429. rewrite H429.
  set (s1 := fst (make_request rq1 (register_exchange i) s0)).
  rewrite sbind_request.
  set (rq2 := post_request json_dumps "/test/activate-user" owner_activation
                None).
  set (s2 := fst (make_request rq2 (activate_exchange i) s1)).
  rewrite sbind_request.
  set (rq3 := post_request json_dumps "/auth/login" owner_login None).
  assert (Ho2 : session_open s2 = true).
  { unfold s2, s1. now rewrite !session_open_request. }
  destruct (answer_open rq3 (login_exchange i) s2 Ho2 (or_intror eq_refl))
    as [Hst3 _].
  rewrite Hst3. apply Z.eqb_neq in H200. rewrite H200. cbn [negb sreturn].
  set (s3 := fst (make_request rq3 (login_exchange i) s2)).
  eexists. split; [reflexivity|].
  destruct (cleanup_session_closed s3) as [Hc Hr].
  split; [exact Hc|]. unfold total at 1. rewrite Hr. fold (total s3).
  unfold s3, s2, s1. rewrite !total_make_request. subst s0.
  unfold total. simpl. lia.
Qed.

(** X24: when the login is answered with status 200 but no access token can
    be read from its body (it is not JSON, or not an object with an
    [accessToken]), the exception is caught: the run reports it after
    exactly three requests and closes the session. *)
Theorem run_without_token i s e :
  answer (register_exchange i) <> 429 ->
  answer (login_exchange i) = 200 ->
  obind (json_loads (answer_body (login_exchange i)))
    (fun decoded => py_getitem decoded "accessToken") = inl e ->
  exists s',
    run_comprehensive_stress_test json_loads json_dumps py_repr i s =
      Some (s', inr (StressTestFailed e)) /\
    session_open s' = false /\
    total s' = total s + 3.
Proof.
  intros H429 H200 Htoken. rewrite run_unfold. unfold stress_test_body.
  set (s0 := fst (setup_session s)).
  rewrite sbind_request.
  set (rq1 := post_request json_dumps "/auth/register" owner_registration None).
  destruct (answer_open rq1 (register_exchange i) s0 eq_refl
              (or_intror eq_refl)) as [Hst1 _].
  rewrite Hst1. apply Z.eqb_neq in H429. rewrite H429.
  set (s1 := fst (make_request rq1 (register_exchange i) s0)).
  rewrite sbind_request.
  set (rq2 := post_request json_dumps "/test/activate-user" owner_activation
                None).
  set (s2 := fst (make_request rq2 (activate_exchange i) s1)).
  rewrite sbind_request.
  set (rq3 := post_request json_dumps "/auth/login" owner_login None).
  assert (Ho2 : session_open s2 = true).
  { unfold s2, s1. now rewrite !session_open_request. }
  destruct (answer_open rq3 (login_exchange i) s2 Ho2 (or_intror eq_refl))
    as [Hst3 Hb3].
  rewrite Hst3, H200. cbn [Z.eqb Pos.eqb negb].
  set (s3 := fst (make_request rq3 (login_exchange i) s2)).
  rewrite sbind_evaluate, Hb3.
  assert (Hend : exists s',
            Some (fst (cleanup_session s3),
                  @inr Exception RunReport (StressTestFailed e)) =
            Some (s', inr (StressTestFailed e)) /\
            session_open s' = false /\ total s' = total s + 3).
  { eexists. split; [reflexivity|].
    destruct (cleanup_session_closed s3) as [Hc Hr].
    split; [exact Hc|]. unfold total at 1. rewrite Hr. fold (total s3).
    unfold s3, s2, s1. rewrite !total_make_request. subst s0.
    unfold total. simpl. lia. }
  destruct (json_loads (answer_body (login_exchange i))) as [e1|decoded].
  - simpl in Htoken. inversion Htoken. subst e1. exact Hend.
  - simpl in Htoken. rewrite sbind_evaluate, Htoken. exact Hend.
Qed.

(** X25: the verdict of a run that starts with counters that are not
    negative.  The run prints that the stress test passed only if, in the
    driver it leaves, [success_count] exceeds 19 times [error_count] (a
    success rate above 95 percent) and the mean of [response_times] is below
    500 milliseconds; the errors it shows are the first five recorded. *)
Theorem run_passes_only_above_95_percent i s s' summary shown rate :
  0 <= success_count (results s) ->
  0 <= error_count (results s) ->
  run_comprehensive_stress_test json_loads json_dumps py_repr i s =
    Some (s', inr (ResultsPrinted summary shown rate true)) ->
  19 * error_count (results s') < success_count (results s') /\
  (exists average,
     mean (response_times (results s')) = inr average /\
     (average < 500)%Q) /\
  (95 < rate)%Q /\
  shown = firstn 5 (errors (results s')).
Proof.
  intros Hsc Hec. rewrite run_unfold.
  destruct (stress_test_body _ _ _ i _) as [[s1 o1]|] eqn:Hbody;
    [|discriminate].
  intros H. inversion H as [[Hs' Ho]]. clear H.
  destruct o1 as [e|report]; [discriminate|]. inversion Ho. subst report.
  destruct (stress_test_body_spec _ _ _ _ Hbody)
    as [(n & Hn & _ & _ & Hle & _) Hprinted].
  destruct (Hprinted _ _ _ _ eq_refl) as [_ Hverdict].
  destruct (results_and_verdict_spec s1) as (o & Hr & Hspec).
  rewrite Hr in Hverdict. inversion Hverdict. subst o.
  destruct (Hspec _ _ _ _ eq_refl) as (Hshown & Htot & Hrate & Hpass).
  destruct (Hpass eq_refl) as (Habove & average & Hmean & Hbelow).
  destruct (cleanup_session_closed s1) as [_ Hres]. rewrite Hres.
  unfold counters_le in Hle. cbn [setup_session fst results] in Hle.
  split.
  { apply success_rate_above_95; [lia | lia | exact Htot|].
    rewrite Hrate in Habove. exact Habove. }
  split; [exists average; split; [exact Hmean | now apply Qnot_le_lt]|].
  split; [now apply Qnot_le_lt | exact Hshown].
Qed.

End ScenarioFacts.

(** ** Sample executions *)

Lemma customer_operations_outcomes_witness :
  sample_customers =
    Some (fst sample_customers_end, snd sample_customers_end) /\
  ((requests_made 1 open_driver (fst sample_customers_end) /\
    (snd sample_customers_end = inr NoOrganization \/
     exists e, snd sample_customers_end = inl e))
   \/
   (exists fields org,
      sample_loads
        (body (result_of open_driver
                 (get_request "/auth/profile" (Some (bearer "abc")),
                  exchange (Responded 200 "org"))))
        = inr (JDict fields) /\
      lookup "organizationId" fields = Some org /\ truthy org = true /\
      requests_made (1 + Z.of_nat 2 + 10) open_driver
        (fst sample_customers_end) /\
      snd sample_customers_end =
        inr (CustomersDone
               (results_of open_driver
                  (create_batch sample_dumps "abc" org 2
                     (fun _ => exchange (Responded 201 "{}"))))
               (count_status_in [201]
                  (results_of open_driver
                     (create_batch sample_dumps "abc" org 2
                        (fun _ => exchange (Responded 201 "{}")))))
               (results_of open_driver
                  (list_batch "abc" (fun _ => exchange (Responded 200 "[]"))))
               (count_status_in [200]
                  (results_of open_driver
                     (list_batch "abc"
                        (fun _ => exchange (Responded 200 "[]")))))))).
Proof.
  assert (H : sample_customers =
              Some (fst sample_customers_end, snd sample_customers_end))
    by (vm_compute; reflexivity).
  split; [exact H|].
  exact (customer_operations_outcomes sample_loads sample_dumps "abc" 2%nat
           (exchange (Responded 200 "org"))
           (fun _ => exchange (Responded 201 "{}")) [1; 0]%nat
           (fun _ => exchange (Responded 200 "[]")) (seq 0 10) open_driver
           (fst sample_customers_end) (snd sample_customers_end) H).
Defined.

Lemma customer_operations_complete_witness :
  sample_loads
    (body (result_of open_driver
             (get_request "/auth/profile" (Some (bearer "abc")),
              exchange (Responded 200 "org"))))
    = inr (JDict [("organizationId", JString "org-1")]) /\
  lookup "organizationId" [("organizationId", JString "org-1")] =
    Some (JString "org-1") /\
  truthy (JString "org-1") = true /\
  Permutation [1; 0]%nat (seq 0 2) /\
  Permutation (seq 0 10) (seq 0 10) /\
  exists s' cr sc lr sl,
    sample_customers = Some (s', inr (CustomersDone cr sc lr sl)) /\
    List.length cr = 2%nat /\ List.length lr = 10%nat /\
    0 <= sc <= Z.of_nat 2 /\ 0 <= sl <= 10 /\
    requests_made (1 + Z.of_nat 2 + 10) open_driver s'.
Proof.
  assert (H1 : sample_loads
                 (body (result_of open_driver
                          (get_request "/auth/profile" (Some (bearer "abc")),
                           exchange (Responded 200 "org"))))
               = inr (JDict [("organizationId", JString "org-1")]))
    by reflexivity.
  assert (H4 : Permutation [1; 0]%nat (seq 0 2)) by (simpl; apply perm_swap).
  assert (H5 : Permutation (seq 0 10) (seq 0 10)) by reflexivity.
  split; [exact H1|]. split; [reflexivity|]. split; [reflexivity|].
  split; [exact H4|]. split; [exact H5|].
  exact (customer_operations_complete sample_loads sample_dumps "abc" 2%nat
           (exchange (Responded 200 "org"))
           (fun _ => exchange (Responded 201 "{}")) [1; 0]%nat
           (fun _ => exchange (Responded 200 "[]")) (seq 0 10) open_driver
           [("organizationId", JString "org-1")] (JString "org-1")
           H1 eq_refl eq_refl H4 H5).
Defined.

Lemma localization_needs_four_stages_witness :
  sample_pipeline =
    Some (fst sample_pipeline_end, inr (StagesListed 4 true)) /\
  4 <= 4.
Proof.
  assert (H : sample_pipeline =
              Some (fst sample_pipeline_end, inr (StagesListed 4 true)))
    by (vm_compute; reflexivity).
  split; [exact H|].
  exact (localization_needs_four_stages sample_loads sample_repr "abc"
           (exchange (Responded 200 "pipelines"))
           (exchange (Responded 200 "stages")) open_driver
           (fst sample_pipeline_end) 4 H).
Defined.

Lemma ai_performance_outcomes_witness :
  sample_chats = Some (fst sample_chats_end, snd sample_chats_end) /\
  ((status (result_of open_driver
              (post_request sample_dumps "/ai/assistant/configure"
                 assistant_configuration (Some (bearer "abc")),
               exchange (Responded 201 "{}"))) <> 201 /\
    snd sample_chats_end = inr ConfigurationFailed /\
    requests_made 1 open_driver (fst sample_chats_end))
   \/
   (status (result_of open_driver
              (post_request sample_dumps "/ai/assistant/configure"
                 assistant_configuration (Some (bearer "abc")),
               exchange (Responded 201 "{}"))) = 201 /\
    snd sample_chats_end =
      inr (ChatsDone
             (results_of open_driver
                (chat_batch sample_dumps "abc" 3
                   (fun _ => exchange (Responded 200 "{}"))))
             (count_status_in [200]
                (results_of open_driver
                   (chat_batch sample_dumps "abc" 3
                      (fun _ => exchange (Responded 200 "{}")))))) /\
    List.length
      (results_of open_driver
         (chat_batch sample_dumps "abc" 3
            (fun _ => exchange (Responded 200 "{}")))) = 3%nat /\
    requests_made (1 + Z.of_nat 3) open_driver (fst sample_chats_end))).
Proof.
  assert (H : sample_chats = Some (fst sample_chats_end, snd sample_chats_end))
    by (vm_compute; reflexivity).
  split; [exact H|].
  exact (ai_performance_outcomes sample_dumps "abc" 3%nat
           (exchange (Responded 201 "{}"))
           (fun _ => exchange (Responded 200 "{}")) [2; 0; 1]%nat open_driver
           (fst sample_chats_end) (snd sample_chats_end) H).
Defined.

Lemma run_always_ends_closed_witness :
  sample_complete_run =
    Some (fst sample_complete_end, snd sample_complete_end) /\
  exists report,
    snd sample_complete_end = inr report /\
    session_open (fst sample_complete_end) = false /\
    total __init__ + 1 <= total (fst sample_complete_end)
      <= total __init__ + 93 /\
    counters_le __init__ (fst sample_complete_end) /\
    (forall summary shown rate passed,
       report = ResultsPrinted summary shown rate passed ->
       total __init__ + 57 <= total (fst sample_complete_end)).
Proof.
  assert (H : sample_complete_run =
              Some (fst sample_complete_end, snd sample_complete_end))
    by (vm_compute; reflexivity).
  split; [exact H|].
  exact (run_always_ends_closed sample_loads sample_dumps sample_repr
           (sample_inputs (exchange (Responded 201 "{}"))
              (exchange (Responded 200 "token")))
           __init__ (fst sample_complete_end) (snd sample_complete_end) H).
Defined.

Lemma run_rate_limited_witness :
  answer (register_exchange
            (sample_inputs (exchange (Responded 429 "Too Many Requests"))
               (exchange (Responded 200 "token")))) = 429 /\
  exists s',
    run_comprehensive_stress_test sample_loads sample_dumps sample_repr
      (sample_inputs (exchange (Responded 429 "Too Many Requests"))
         (exchange (Responded 200 "token"))) __init__ =
      Some (s', inr RateLimited) /\
    session_open s' = false /\
    total s' = total __init__ + 1 /\
    error_count (results s') = error_count (results __init__) + 1.
Proof.
  split; [reflexivity|].
  exact (run_rate_limited sample_loads sample_dumps sample_repr
           (sample_inputs (exchange (Responded 429 "Too Many Requests"))
              (exchange (Responded 200 "token"))) __init__ eq_refl).
Defined.

Lemma run_login_refused_witness :
  answer (register_exchange
            (sample_inputs (exchange (Responded 201 "{}"))
               (exchange (Responded 401 "Unauthorized")))) <> 429 /\
  answer (login_exchange
            (sample_inputs (exchange (Responded 201 "{}"))
               (exchange (Responded 401 "Unauthorized")))) <> 200 /\
  exists s',
    run_comprehensive_stress_test sample_loads sample_dumps sample_repr
      (sample_inputs (exchange (Responded 201 "{}"))
         (exchange (Responded 401 "Unauthorized"))) __init__ =
      Some (s', inr LoginFailed) /\
    session_open s' = false /\
    total s' = total __init__ + 3.
Proof.
  assert (H1 : answer (register_exchange
                 (sample_inputs (exchange (Responded 201 "{}"))
                    (exchange (Responded 401 "Unauthorized")))) <> 429)
    by discriminate.
  assert (H2 : answer (login_exchange
                 (sample_inputs (exchange (Responded 201 "{}"))
                    (exchange (Responded 401 "Unauthorized")))) <> 200)
    by discriminate.
  split; [exact H1|]. split; [exact H2|].
  exact (run_login_refused sample_loads sample_dumps sample_repr
           (sample_inputs (exchange (Responded 201 "{}"))
              (exchange (Responded 401 "Unauthorized"))) __init__ H1 H2).
Defined.

Lemma run_without_token_witness :
  answer (register_exchange
            (sample_inputs (exchange (Responded 201 "{}"))
               (exchange (Responded 200 "{}")))) <> 429 /\
  answer (login_exchange
            (sample_inputs (exchange (Responded 201 "{}"))
               (exchange (Responded 200 "{}")))) = 200 /\
  obind (sample_loads
           (answer_body (login_exchange
              (sample_inputs (exchange (Responded 201 "{}"))
                 (exchange (Responded 200 "{}"))))))
    (fun decoded => py_getitem decoded "accessToken") =
    inl (Exc "KeyError" "'accessToken'") /\
  exists s',
    run_comprehensive_stress_test sample_loads sample_dumps sample_repr
      (sample_inputs (exchange (Responded 201 "{}"))
         (exchange (Responded 200 "{}"))) __init__ =
      Some (s', inr (StressTestFailed (Exc "KeyError" "'accessToken'"))) /\
    session_open s' = false /\
    total s' = total __init__ + 3.
Proof.
  assert (H1 : answer (register_exchange
                 (sample_inputs (exchange (Responded 201 "{}"))
                    (exchange (Responded 200 "{}")))) <> 429)
    by discriminate.
  split; [exact H1|]. split; [reflexivity|]. split; [reflexivity|].
  exact (run_without_token sample_loads sample_dumps sample_repr
           (sample_inputs (exchange (Responded 201 "{}"))
              (exchange (Responded 200 "{}"))) __init__
           (Exc "KeyError" "'accessToken'") H1 eq_refl eq_refl).
Defined.

Lemma run_passes_only_above_95_percent_witness :
  0 <= success_count (results __init__) /\
  0 <= error_count (results __init__) /\
  sample_complete_run =
    Some (fst sample_complete_end,
          inr (ResultsPrinted (fst (fst sample_printed))
                 (snd (fst sample_printed)) (snd sample_printed) true)) /\
  19 * error_count (results (fst sample_complete_end)) <
    success_count (results (fst sample_complete_end)) /\
  (exists average,
     mean (response_times (results (fst sample_complete_end))) =
       inr average /\
     (average < 500)%Q) /\
  (95 < snd sample_printed)%Q /\
  snd (fst sample_printed) =
    firstn 5 (errors (results (fst sample_complete_end))).
Proof.
  assert (H1 : 0 <= success_count (results __init__)) by (simpl; lia).
  assert (H2 : 0 <= error_count (results __init__)) by (simpl; lia).
  assert (H3 : sample_complete_run =
               Some (fst sample_complete_end,
                     inr (ResultsPrinted (fst (fst sample_printed))
                            (snd (fst sample_printed)) (snd sample_printed)
                            true)))
    by (vm_compute; reflexivity).
  split; [exact H1|]. split; [exact H2|]. split; [exact H3|].
  exact (run_passes_only_above_95_percent sample_loads sample_dumps
           sample_repr
           (sample_inputs (exchange (Responded 201 "{}"))
              (exchange (Responded 200 "token")))
           __init__ (fst sample_complete_end) (fst (fst sample_printed))
           (snd (fst sample_printed)) (snd sample_printed) H1 H2 H3).
Defined.

(** ** Records that agree *)

Section RunRecords.

Variable json_loads : string -> Outcome Json.
Variable json_dumps : Json -> string.
Variable py_repr : Json -> string.

(** X26: the records stay in agreement through a whole run.  If, before
    [run_comprehensive_stress_test], [error_count] is the number of entries
    of [errors] and the number of recorded latencies lies between
    [success_count] and [success_count + error_count], then the same holds
    in the driver that any execution of the run leaves.  A new driver is in
    that state. *)
Theorem run_keeps_records_consistent i s s' o :
  records_consistent s ->
  run_comprehensive_stress_test json_loads json_dumps py_repr i s =
    Some (s', o) ->
  records_consistent __init__ /\
  error_count (results s') = len (errors (results s')) /\
  success_count (results s') <= len (response_times (results s')) /\
  len (response_times (results s')) <=
    success_count (results s') + error_count (results s').
Proof.
  intros Hinv. rewrite run_unfold.
  destruct (stress_test_body _ _ _ i _) as [[s1 o1]|] eqn:Hbody;
    [|discriminate].
  intros H. inversion H. subst s' o. clear H.
  destruct (stress_test_body_spec _ _ _ _ _ _ _ Hbody)
    as [(n & _ & _ & _ & _ & Hkeep) _].
  destruct (cleanup_session_closed s1) as [_ Hres]. rewrite Hres.
  split; [unfold records_consistent; simpl; unfold len; simpl; lia|].
  apply Hkeep. exact Hinv.
Qed.

End RunRecords.

Lemma run_keeps_records_consistent_witness :
  records_consistent __init__ /\
  sample_complete_run =
    Some (fst sample_complete_end, snd sample_complete_end) /\
  error_count (results (fst sample_complete_end)) =
    len (errors (results (fst sample_complete_end))) /\
  success_count (results (fst sample_complete_end)) <=
    len (response_times (results (fst sample_complete_end))) /\
  len (response_times (results (fst sample_complete_end))) <=
    success_count (results (fst sample_complete_end)) +
    error_count (results (fst sample_complete_end)).
Proof.
  assert (H1 : records_consistent __init__)
    by (unfold records_consistent; simpl; unfold len; simpl; lia).
  assert (H2 : sample_complete_run =
               Some (fst sample_complete_end, snd sample_complete_end))
    by (vm_compute; reflexivity).
  split; [exact H1|]. split; [exact H2|].
  exact (proj2 (run_keeps_records_consistent sample_loads sample_dumps
                  sample_repr
                  (sample_inputs (exchange (Responded 201 "{}"))
                     (exchange (Responded 200 "token")))
                  __init__ (fst sample_complete_end)
                  (snd sample_complete_end) H1 H2)).
Defined.

(** ** The customers of one batch *)

Lemma customer_email_injective org i j :
  customer_data org i = customer_data org j -> i = j.
Proof.
  unfold customer_data. intros H. injection H as _ H _ _.
  apply append_cancel_r in H.
  now apply str_nat_injective.
Qed.

(** X27: the customers that [test_customer_operations] creates in one batch
    never share their data: the e-mail address
    "load-customer-<i>@stress.test" of the [i]-th customer determines [i],
    so the [count] payloads are pairwise distinct, whatever the
    organization. *)
Theorem customers_are_distinct org count :
  NoDup (map (customer_data org) (seq 0 count)).
Proof.
  apply Injective_map_NoDup; [|apply seq_NoDup].
  intros i j H. now apply (customer_email_injective org).
Qed.

(** ** Failed requests and the run *)



Section RunFailures.

Variable json_loads : string -> Outcome Json.
Variable json_dumps : Json -> string.
Variable py_repr : Json -> string.










End RunFailures.


